(** * volkswagencarnet: the session manager of [vw_connection.py]

    A shallow embedding of [Connection] (token validation and refresh, the
    verb wrappers [get]/[post]/[put] with their rate-limit retry, the service
    status tracker, [_login], [doLogin] and the action-result handler; then
    the constructor, [logout], [update], the data getters, the S-PIN check,
    the actions and [get_request_status]), followed by the properties the
    specification states about them and by further properties of the code.

    Python objects are modelled as follows.
    - decoded JSON is [jvalue]; a [dict] is a [gmap string _];
    - [Connection] is the record [conn]; methods are state-passing functions
      in the monad [M], whose results are a returned value or a raised
      exception, the state being kept in both cases (Python does not roll
      back mutations when an exception unwinds);
    - everything outside the process (the HTTP peer, the random generator,
      the clock) is the read-only record [world]; the state counts how many
      requests and random draws were consumed;
    - library functions that are not part of the repository ([jwt],
      [urllib.parse]) and the constants of [vw_const] are fields of [pyenv]. *)

From Stdlib Require Import ZArith String List Lia.
From stdpp Require Import base gmap strings list.

Local Open Scope string_scope.
Local Open Scope Z_scope.
Set Warnings "-register-all".

(** ** Values *)

(** Decoded JSON. Numbers are the integers: the tokens' [exp] claims, HTTP
    status codes and request identifiers this code reads are integral. *)
Inductive jvalue :=
| JNull
| JBool (b : bool)
| JNum (z : Z)
| JStr (s : string)
| JArr (l : list jvalue)
| JObj (m : gmap string jvalue).

(** Python truthiness of a decoded JSON value ([not response]). *)
Definition truthy (v : jvalue) : bool :=
  match v with
  | JNull => false
  | JBool b => b
  | JNum z => negb (z =? 0)
  | JStr s => negb (String.eqb s "")
  | JArr l => match l with [] => false | _ => true end
  | JObj m => negb (bool_decide (m = ∅))
  end.

(** [needle in hay] on two strings. *)
Fixpoint contains (needle hay : string) : bool :=
  String.prefix needle hay ||
  match hay with
  | EmptyString => false
  | String _ rest => contains needle rest
  end.

(** [s.startswith(p)] *)
Definition startswith (s p : string) : bool := String.prefix p s.

(** ** Exceptions *)

Inductive exn :=
| KeyError (key : string)
| IndexError
| TypeError
| AttributeError
| ValueError
| DecodeError                         (* jwt.exceptions.DecodeError *)
| JSONError                           (* response.json() could not decode *)
| ClientResponseError (status : Z)    (* aiohttp, from raise_for_status *)
| ClientOSError (msg : string)        (* aiohttp transport failure, an OSError *)
| Exception_ (msg : string)           (* Exception(msg) *)
| AuthenticationException (msg : string)
| OverflowError                       (* datetime arithmetic out of range *)
| RaisedFrom (msg : string) (cause : exn).  (* raise Exception(msg) from cause *)

(** [isinstance(e, OSError)] *)
Definition is_OSError (e : exn) : bool :=
  match e with ClientOSError _ => true | _ => false end.

(** [isinstance(e, Exception)]: every exception modelled here. *)
Definition is_Exception (e : exn) : bool := true.

Inductive result (A : Type) :=
| Ret (a : A)
| Raise (e : exn).
Arguments Ret {A} a.
Arguments Raise {A} e.

(** ** The outside world *)

Record response := {
  status : Z;
  headers : gmap string string;   (* header names in their canonical case *)
  json : option jvalue;       (* [None]: [response.json()] raises *)
  text : string               (* [response.text()] *)
}.

Inductive reply :=
| Reply (r : response)
| Fails (e : exn).

Record world := {
  w_reply : nat -> reply;     (* outcome of the n-th request of the session *)
  w_random : nat -> nat;      (* n-th raw draw of the random generator *)
  w_now : nat -> Z            (* n-th reading of datetime.now(), in microseconds *)
}.

Record pyenv := {
  (* vw_const; CLIENT is a constant table whose lookups with the label
     "Legacy", the only one the code uses, are taken to succeed *)
  APP_URI : string;
  BASE_API : string;
  HEADERS_SESSION : gmap string string;
  HEADERS_AUTH : gmap string string;
  (* jwt.decode(token, options={verify_signature: False, ...});
     [None] when it raises *)
  jwt_decode : jvalue -> option (gmap string jvalue);
  (* the [try] block of verify_tokens: key lookup and jwt.decode with the
     public key and the audience list; [false] when anything raises *)
  jwt_verify : jvalue -> jvalue -> bool;
  (* int(s) on a string; [None] when it raises ValueError *)
  int_of_str : string -> option Z;
  (* datetime.fromtimestamp(seconds): the instant in microseconds, on the
     scale of datetime.now(); it raises when the platform cannot represent
     the value *)
  fromtimestamp : Z -> result Z;
  (* urllib.parse.urljoin *)
  urljoin : string -> string -> string;
  (* parse_qs(urlparse(url).query).get(key): the values of a query
     parameter, [None] when the parameter is absent *)
  parse_qs_get : string -> string -> option (list string);
  (* the builtin str() on a decoded JSON value *)
  py_str : jvalue -> string;
  (* BeautifulSoup: the action of the form emailPasswordForm of a page,
     found together with its hidden inputs; [None] when anything raises *)
  extract_mailform : string -> option string;
  (* the regular expressions applied to the inline script holding
     window._IDK: postAction and clientId, found together with the fields
     of the password form; [None] when anything raises *)
  extract_pwform : string -> option (string * string)
}.

(** ** The connection object *)

Inductive event :=
| EvRequest (method url : string)     (* a request sent through the session *)
| EvSleep (delay : Z)                 (* asyncio.sleep(delay), delay an int *)
| EvSleepRandom (draw : nat)          (* asyncio.sleep(random() * 5) *)
| EvCall (name : string)              (* entry into a method of Connection *)
| EvLog (level msg : string)          (* _LOGGER.<level>(msg) *)
| EvLogError (level msg : string) (error : exn).  (* a message that formats [error] *)

Record conn := {
  session_logged_in : bool;
  session_tokens : gmap string jvalue;
  session_headers : gmap string string;
  session_auth_headers : gmap string string;
  service_status : gmap string string;
  session_refresh_interval : Z;       (* a timedelta, in microseconds *)
  session_fulldebug : bool;
  (* bookkeeping of the embedding *)
  sent : nat;                         (* requests sent so far *)
  drawn : nat;                        (* random draws so far *)
  clock : nat;                        (* readings of the clock so far *)
  trace : list event                  (* newest first *)
}.

Definition set_logged_in (b : bool) (s : conn) : conn :=
  {| session_logged_in := b; session_tokens := session_tokens s;
     session_headers := session_headers s;
     session_auth_headers := session_auth_headers s;
     service_status := service_status s;
     session_refresh_interval := session_refresh_interval s;
     session_fulldebug := session_fulldebug s;
     sent := sent s; drawn := drawn s; clock := clock s; trace := trace s |}.

Definition set_tokens (t : gmap string jvalue) (s : conn) : conn :=
  {| session_logged_in := session_logged_in s; session_tokens := t;
     session_headers := session_headers s;
     session_auth_headers := session_auth_headers s;
     service_status := service_status s;
     session_refresh_interval := session_refresh_interval s;
     session_fulldebug := session_fulldebug s;
     sent := sent s; drawn := drawn s; clock := clock s; trace := trace s |}.

Definition set_headers (h : gmap string string) (s : conn) : conn :=
  {| session_logged_in := session_logged_in s;
     session_tokens := session_tokens s;
     session_headers := h;
     session_auth_headers := session_auth_headers s;
     service_status := service_status s;
     session_refresh_interval := session_refresh_interval s;
     session_fulldebug := session_fulldebug s;
     sent := sent s; drawn := drawn s; clock := clock s; trace := trace s |}.

Definition set_auth_headers (h : gmap string string) (s : conn) : conn :=
  {| session_logged_in := session_logged_in s;
     session_tokens := session_tokens s;
     session_headers := session_headers s;
     session_auth_headers := h;
     service_status := service_status s;
     session_refresh_interval := session_refresh_interval s;
     session_fulldebug := session_fulldebug s;
     sent := sent s; drawn := drawn s; clock := clock s; trace := trace s |}.

Definition set_service_status (m : gmap string string) (s : conn) : conn :=
  {| session_logged_in := session_logged_in s;
     session_tokens := session_tokens s;
     session_headers := session_headers s;
     session_auth_headers := session_auth_headers s;
     service_status := m;
     session_refresh_interval := session_refresh_interval s;
     session_fulldebug := session_fulldebug s;
     sent := sent s; drawn := drawn s; clock := clock s; trace := trace s |}.

Definition set_sent (n : nat) (s : conn) : conn :=
  {| session_logged_in := session_logged_in s;
     session_tokens := session_tokens s;
     session_headers := session_headers s;
     session_auth_headers := session_auth_headers s;
     service_status := service_status s;
     session_refresh_interval := session_refresh_interval s;
     session_fulldebug := session_fulldebug s;
     sent := n; drawn := drawn s; clock := clock s; trace := trace s |}.

Definition set_drawn (n : nat) (s : conn) : conn :=
  {| session_logged_in := session_logged_in s;
     session_tokens := session_tokens s;
     session_headers := session_headers s;
     session_auth_headers := session_auth_headers s;
     service_status := service_status s;
     session_refresh_interval := session_refresh_interval s;
     session_fulldebug := session_fulldebug s;
     sent := sent s; drawn := n; clock := clock s; trace := trace s |}.

Definition set_clock (n : nat) (s : conn) : conn :=
  {| session_logged_in := session_logged_in s;
     session_tokens := session_tokens s;
     session_headers := session_headers s;
     session_auth_headers := session_auth_headers s;
     service_status := service_status s;
     session_refresh_interval := session_refresh_interval s;
     session_fulldebug := session_fulldebug s;
     sent := sent s; drawn := drawn s; clock := n; trace := trace s |}.

Definition emit (e : event) (s : conn) : conn :=
  {| session_logged_in := session_logged_in s;
     session_tokens := session_tokens s;
     session_headers := session_headers s;
     session_auth_headers := session_auth_headers s;
     service_status := service_status s;
     session_refresh_interval := session_refresh_interval s;
     session_fulldebug := session_fulldebug s;
     sent := sent s; drawn := drawn s; clock := clock s; trace := e :: trace s |}.

(** ** The monad of methods *)

Definition M (A : Type) : Type := conn -> result A * conn.

Definition ret {A} (a : A) : M A := fun s => (Ret a, s).
Definition raise {A} (e : exn) : M A := fun s => (Raise e, s).
Definition bind {A B} (m : M A) (k : A -> M B) : M B :=
  fun s => match m s with
           | (Ret a, s') => k a s'
           | (Raise e, s') => (Raise e, s')
           end.
(** [try: m  except <handles>: h] *)
Definition try_except {A} (m : M A) (handles : exn -> bool) (h : exn -> M A) : M A :=
  fun s => match m s with
           | (Ret a, s') => (Ret a, s')
           | (Raise e, s') => if handles e then h e s' else (Raise e, s')
           end.
Definition modify (f : conn -> conn) : M unit := fun s => (Ret tt, f s).
Definition gets {A} (f : conn -> A) : M A := fun s => (Ret (f s), s).
Definition lift {A} (r : result A) : M A := fun s => (r, s).

Notation "x <- m ;; k" := (bind m (fun x => k))
  (at level 62, m at next level, right associativity).
Notation "m ;;; k" := (bind m (fun _ => k))
  (at level 62, right associativity).

Definition log (level msg : string) : M unit := modify (emit (EvLog level msg)).
Definition log_error (level msg : string) (error : exn) : M unit :=
  modify (emit (EvLogError level msg error)).

(** [d[k]] on a Python dict. *)
Definition dict_item {V} (d : gmap string V) (k : string) : result V :=
  match d !! k with
  | Some v => Ret v
  | None => Raise (KeyError k)
  end.

(** [v[k]] with a string key on a decoded JSON value. *)
Definition subscript (v : jvalue) (k : string) : result jvalue :=
  match v with
  | JObj m => dict_item m k
  | _ => Raise TypeError
  end.

(** ** Service status tracker *)

(** Lines 958-969 of [update_service_status]. *)
Definition status_of_code (response_code : Z) : string :=
  if (response_code =? 200) || (response_code =? 204) || (response_code =? 207)
  then "Up"
  else if response_code =? 401 then "Unauthorized"
  else if response_code =? 403 then "Forbidden"
  else if response_code =? 429 then "Rate limited"
  else if response_code =? 1000 then "Error"
  else "Down".

(** Lines 971-984: the key of [_service_status] selected by the URL. *)
Definition status_category (url : string) : option string :=
  if contains "vehicle/v2/vehicles" url then Some "vehicles"
  else if contains "parkingposition" url then Some "parkingposition"
  else if contains "/vehicle/v1/trips/" url then Some "trips"
  else if contains "capabilities" url then Some "capabilities"
  else if contains "selectivestatus" url then Some "selectivestatus"
  else if contains "token" url then Some "token"
  else None.

Definition update_service_status (url : string) (response_code : Z) : M unit :=
  let status := status_of_code response_code in
  match status_category url with
  | Some key => modify (fun s => set_service_status (<[key := status]> (service_status s)) s)
  | None => log "debug" ("Unhandled API URL: " ++ url)
  end.

(** ** Primitives bound to the world *)

Definition MAX_RETRIES_ON_RATE_LIMIT : Z := 3.

Definition is_ClientResponseError (e : exn) : bool :=
  match e with ClientResponseError _ => true | _ => false end.

Definition status_envelope (code : Z) : jvalue :=
  JObj {[ "status_code" := JNum code ]}.

(** What [_request] and the verb wrappers return: a decoded body or, when
    [return_raw] is set, the response object itself. *)
Inductive pyval :=
| PJson (v : jvalue)
| PResp (r : response).

Definition response_json (r : response) : M jvalue :=
  match json r with
  | Some v => ret v
  | None => raise JSONError
  end.

(** [response.headers.get("Location", False)] used as a condition: a missing
    or empty header is falsy. *)
Definition location (r : response) : option string :=
  match headers r !! "Location" with
  | Some l => if String.eqb l "" then None else Some l
  | None => None
  end.

Definition sleep (delay : Z) : M unit := modify (emit (EvSleep delay)).

Section Connection.
Context (E : pyenv) (W : world).

(** One request through [self._session]; the world decides its outcome. *)
Definition session_request (method url : string) : M response :=
  fun s =>
    let s' := emit (EvRequest method url) (set_sent (S (sent s)) s) in
    match w_reply W (sent s) with
    | Reply r => (Ret r, s')
    | Fails e => (Raise e, s')
    end.

(** [random.randint(a, b)]: both ends included, ValueError on an empty range. *)
Definition randint (a b : Z) : M Z :=
  fun s =>
    if b <? a then (Raise ValueError, s)
    else (Ret (a + Z.of_nat (w_random W (drawn s)) mod (b - a + 1)),
          set_drawn (S (drawn s)) s).

(** [datetime.now()] *)
Definition now : M Z :=
  fun s => (Ret (w_now W (clock s)), set_clock (S (clock s)) s).

(** ** The request executor *)

(** [_request]. The cookie jar and the request payload do not influence the
    control flow and are left out. *)
Definition _request (method url : string) (return_raw : bool) : M pyval :=
  log "debug" ("HTTP " ++ method ++ " " ++ url) ;;;
  try_except
    (response <- session_request method url ;;
     (* response.raise_for_status() *)
     (if 400 <=? status response
      then raise (ClientResponseError (status response)) else ret tt) ;;;
     update_service_status url (status response) ;;;
     r <- try_except
            (if status response =? 204 then
               ret (inl (if return_raw then PResp response
                         else PJson (status_envelope (status response))))
             else if (200 <=? status response) || (status response <=? 300) then
               v <- response_json response ;; ret (inl (PJson v))
             else
               log "debug" "Not success status code" ;;;
               ret (inl (PJson (JObj ∅))))
            is_Exception
            (fun _ =>
               log "debug" "Something went wrong" ;;;
               ret (inr (if return_raw then PResp response else PJson (JObj ∅)))) ;;
     match r with
     | inr early => ret early
     | inl res =>
         log "debug" ("Request for " ++ url ++ " returned") ;;;
         ret (if return_raw then PResp response else res)
     end)
    is_Exception
    (fun error =>
       match error with
       | ClientResponseError code => update_service_status url code ;;; raise error
       | _ => update_service_status url 1000 ;;; raise error
       end).

(** [_make_url] returns its argument before reaching the region logic. *)
Definition _make_url (ref vin : string) : string := ref.

(** The body of [get], the recursive call being [self]. *)
Definition get_body (self : Z -> M pyval) (url vin : string) (tries : Z) : M pyval :=
  try_except
    (_request "GET" (_make_url url vin) false)
    is_ClientResponseError
    (fun error =>
       match error with
       | ClientResponseError st =>
           if st =? 400 then
             log "error" "Got HTTP 400 Bad Request from server" ;;;
             ret (PJson (status_envelope st))
           else if st =? 401 then
             log_error "warning" "Received unauthorized error while fetching data" error ;;;
             modify (set_logged_in false) ;;;
             ret (PJson (status_envelope st))
           else if (st =? 429) && (tries <? MAX_RETRIES_ON_RATE_LIMIT) then
             delay <- randint 1 (3 + tries * 2) ;;
             log "debug" "Server side throttled. Waiting" ;;;
             sleep delay ;;;
             self (tries + 1)
           else if st =? 500 then
             log "info" "Got HTTP 500 from server" ;;;
             ret (PJson (status_envelope st))
           else if st =? 502 then
             log "info" "Got HTTP 502 from server" ;;;
             ret (PJson (status_envelope st))
           else
             log "error" "Got unhandled error from server" ;;;
             ret (PJson (status_envelope st))
       | _ => raise error
       end).

(** The body shared, word for word, by [post] and [put]. *)
Definition send_body (method : string) (self : Z -> M pyval)
    (url vin : string) (tries : Z) (return_raw : bool) : M pyval :=
  try_except
    (_request method (_make_url url vin) return_raw)
    is_ClientResponseError
    (fun error =>
       match error with
       | ClientResponseError st =>
           if (st =? 429) && (tries <? MAX_RETRIES_ON_RATE_LIMIT) then
             delay <- randint 1 (3 + tries * 2) ;;
             log "debug" "Server side throttled. Waiting" ;;;
             sleep delay ;;;
             self (tries + 1)
           else raise error
       | _ => raise error
       end).

(** The recursion of [get], [post] and [put] is on [tries], which grows up to
    [MAX_RETRIES_ON_RATE_LIMIT]: [depth] bounds the calls still possible. *)
Definition depth (tries : Z) : nat := Z.to_nat (MAX_RETRIES_ON_RATE_LIMIT - tries).

Definition no_call : Z -> M pyval := fun _ => raise (Exception_ "RecursionError").

Fixpoint get_rec (n : nat) (url vin : string) (tries : Z) : M pyval :=
  get_body (match n with
            | O => no_call
            | S n' => get_rec n' url vin
            end) url vin tries.

Definition get (url vin : string) (tries : Z) : M pyval :=
  get_rec (depth tries) url vin tries.

Fixpoint send_rec (method : string) (n : nat) (url vin : string) (tries : Z)
    (return_raw : bool) : M pyval :=
  send_body method
    (match n with
     | O => no_call
     | S n' => fun t => send_rec method n' url vin t return_raw
     end) url vin tries return_raw.

Definition post (url vin : string) (tries : Z) (return_raw : bool) : M pyval :=
  send_rec "POST" (depth tries) url vin tries return_raw.

Definition put (url vin : string) (tries : Z) (return_raw : bool) : M pyval :=
  send_rec "PUT" (depth tries) url vin tries return_raw.

(** ** Token handling *)

(** ["Bearer " + v] *)
Definition bearer (v : jvalue) : result string :=
  match v with
  | JStr a => Ret ("Bearer " ++ a)
  | _ => Raise TypeError
  end.

(** [verify_tokens(token, type)]. The JWKS document is fetched and decoded
    before the [try] block, so a failure there is raised to the caller. *)
Definition verify_tokens (token : jvalue) (type : string) : M bool :=
  if String.eqb type "identity" then
    req <- session_request "GET" "https://identity.vwgroup.io/v1/jwks" ;;
    keys <- response_json req ;;
    if jwt_verify E keys token then ret true
    else log "debug" "Failed to verify token" ;;; ret false
  else
    log "debug" "Not implemented" ;;; ret false.

(** [for token in tokens: identity[token] = tokens[token]] *)
Definition merge_tokens (tokens identity : gmap string jvalue) : gmap string jvalue :=
  map_fold (fun token v acc => <[token := v]> acc) identity tokens.

Definition token_url : string := "https://emea.bff.cariad.digital/login/v1/idk/token".

Definition refresh_tokens : M bool :=
  modify (emit (EvCall "refresh_tokens")) ;;;
  try_except
    (toks <- gets session_tokens ;;
     identity <- lift (dict_item toks "identity") ;;
     _ <- lift (subscript identity "refresh_token") ;;
     response <- session_request "POST" token_url ;;
     update_service_status "token" (status response) ;;;
     if status response =? 200 then
       tokens <- response_json response ;;
       id_token <- lift (subscript tokens "id_token") ;;
       ok <- verify_tokens id_token "identity" ;;
       (if negb ok then log "warning" "Token could not be verified!" else ret tt) ;;;
       (* for token in tokens: self._session_tokens["identity"][token] = tokens[token] *)
       toks <- gets session_tokens ;;
       identity <- lift (dict_item toks "identity") ;;
       match tokens, identity with
       | JObj new, JObj old =>
           modify (set_tokens (<["identity" := JObj (merge_tokens new old)]> toks))
       | _, _ => raise TypeError
       end ;;;
       toks <- gets session_tokens ;;
       identity <- lift (dict_item toks "identity") ;;
       access <- lift (subscript identity "access_token") ;;
       authorization <- lift (bearer access) ;;
       modify (fun s => set_headers (<["Authorization" := authorization]> (session_headers s)) s) ;;;
       ret true
     else
       log "warning" "Something went wrong when refreshing account tokens." ;;;
       ret false)
    is_Exception
    (fun error => log_error "warning" "Could not refresh tokens" error ;;; ret false).

(** [jwt.decode(token, options={"verify_signature": False, ...}).get("exp", None)] *)
Definition decode_exp (token : jvalue) : result jvalue :=
  match jwt_decode E token with
  | Some claims => Ret (default JNull (claims !! "exp"))
  | None => Raise DecodeError
  end.

(** [int(v)] *)
Definition py_int (v : jvalue) : result Z :=
  match v with
  | JNum z => Ret z
  | JBool b => Ret (if b then 1 else 0)
  | JStr s => match int_of_str E s with
              | Some z => Ret z
              | None => Raise ValueError
              end
  | _ => Raise TypeError
  end.

(** Instants are microseconds from 1970-01-01T00:00:00 on the naive
    calendar, durations are microseconds. [datetime.min] is
    0001-01-01T00:00:00 and [datetime.max] is 9999-12-31T23:59:59.999999. *)
Definition DATETIME_MIN : Z := -62135596800000000.
Definition DATETIME_MAX : Z := 253402300799999999.

(** [datetime + timedelta]: [OverflowError] when the sum is no datetime. *)
Definition datetime_add (t d : Z) : result Z :=
  if (DATETIME_MIN <=? t + d) && (t + d <=? DATETIME_MAX) then Ret (t + d)
  else Raise OverflowError.

(** Lines 861-870 of [validate_tokens]: the expiry instants of the identity
    and access tokens. *)
Definition token_expiries : M (Z * Z) :=
  toks <- gets session_tokens ;;
  identity <- lift (dict_item toks "identity") ;;
  idtoken <- lift (subscript identity "id_token") ;;
  atoken <- lift (subscript identity "access_token") ;;
  id_exp <- lift (decode_exp idtoken) ;;
  at_exp <- lift (decode_exp atoken) ;;
  id_seconds <- lift (py_int id_exp) ;;
  id_dt <- lift (fromtimestamp E id_seconds) ;;
  at_seconds <- lift (py_int at_exp) ;;
  at_dt <- lift (fromtimestamp E at_seconds) ;;
  ret (id_dt, at_dt).

Definition validate_tokens : M bool :=
  expiries <- token_expiries ;;
  let '(id_dt, at_dt) := expiries in
  now <- now ;;
  interval <- gets session_refresh_interval ;;
  later <- lift (datetime_add now interval) ;;
  (* Check if tokens have expired, or expires now *)
  if (id_dt <=? now) || (at_dt <=? now) then
    log "debug" "Tokens have expired. Try to fetch new tokens." ;;;
    ok <- refresh_tokens ;;
    if ok then log "debug" "Successfully refreshed tokens" ;;; ret true
    else ret false
  (* Check if tokens expires before next update *)
  else if (id_dt <=? later) || (at_dt <=? later) then
    log "debug" "Tokens about to expire. Try to fetch new tokens." ;;;
    ok <- refresh_tokens ;;
    if ok then log "debug" "Successfully refreshed tokens" ;;; ret true
    else ret false
  else ret true.

Definition validate_login : M bool :=
  try_except
    (ok <- validate_tokens ;;
     if negb ok then ret false else ret true)
    is_OSError
    (fun error => log_error "warning" "Could not validate login" error ;;; ret false).

(** ** Login *)

Definition as_str (v : jvalue) : result string :=
  match v with
  | JStr x => Ret x
  | _ => Raise TypeError
  end.

(** [key in v] *)
Definition py_in (key : string) (v : jvalue) : result bool :=
  match v with
  | JObj m => Ret (bool_decide (is_Some (m !! key)))
  | JStr x => Ret (contains key x)
  | JArr l => Ret (existsb (fun x => match x with
                                     | JStr y => String.eqb y key
                                     | _ => false
                                     end) l)
  | _ => Raise TypeError
  end.

(** [v.get(key, dflt)] *)
Definition py_get (v : jvalue) (key : string) (dflt : jvalue) : result jvalue :=
  match v with
  | JObj m => Ret (default dflt (m !! key))
  | _ => Raise AttributeError
  end.

(** [parse_qs(urlparse(url).query).get(key, "")[0]] *)
Definition query_first (url key : string) : result string :=
  match parse_qs_get E url key with
  | Some (v :: _) => Ret v
  | _ => Raise IndexError
  end.

(** What the first part of [_login] leaves for the rest: the token endpoint,
    the variable [ref] as line 194 set it, the password URL and the response
    to the password form. *)
Record front := {
  f_token_endpoint : jvalue;
  f_ref : string;
  f_pw_url : string;
  f_req : response
}.

(** Lines 153-278 of [_login]; [None] is the [return False] of line 161.
    Cookies, the PKCE verifier and request payloads are left out. *)
Definition login_front : M (option front) :=
  modify (set_headers (HEADERS_SESSION E)) ;;;
  modify (set_auth_headers (HEADERS_AUTH E)) ;;;
  fulldebug <- gets session_fulldebug ;;
  (if fulldebug then log "debug" "Requesting openid config" else ret tt) ;;;
  req <- session_request "GET" (BASE_API E ++ "/login/v1/idk/openid-configuration") ;;
  if negb (status req =? 200) then
    log "debug" "OpenId config error" ;;; ret None
  else
    response_data <- response_json req ;;
    authorization_endpoint <- lift (subscript response_data "authorization_endpoint") ;;
    token_endpoint <- lift (subscript response_data "token_endpoint") ;;
    auth_issuer <- lift (subscript response_data "issuer") ;;
    (if fulldebug then
       log "debug" "Get authorization page" ;;;
       modify (fun s => set_auth_headers
                 (delete "Origin" (delete "Referer" (session_auth_headers s))) s)
     else ret tt) ;;;
    r <- try_except
           (authorization_url <- lift (as_str authorization_endpoint) ;;
            req <- session_request "GET" authorization_url ;;
            match location req with
            | Some l =>
                let ref := urljoin E authorization_url l in
                if contains "error" ref then
                  error <- lift (query_first ref "error") ;;
                  (if contains "error_description" ref then
                     _ <- lift (query_first ref "error_description") ;;
                     log "info" "Unable to login, error_description"
                   else log "info" "Unable to login.") ;;;
                  raise (Exception_ error)
                else
                  (if fulldebug then log "debug" "Got redirect" else ret tt) ;;;
                  req <- session_request "GET" ref ;;
                  ret (authorization_url, ref, req)
            | None =>
                log "warning" "Unable to fetch authorization endpoint." ;;;
                raise (Exception_ "Missing location header")
            end)
           is_Exception
           (fun error =>
              log "warning" "Failed to get authorization endpoint" ;;;
              raise error) ;;
    let '(authorization_url, ref, req) := r in
    if negb (status req =? 200) then
      raise (Exception_ "Fetching authorization endpoint failed")
    else
      log "debug" "Got authorization endpoint" ;;;
      pe_url <- try_except
                  (match extract_mailform E (text req) with
                   | Some action =>
                       issuer <- lift (as_str auth_issuer) ;;
                       ret (issuer ++ action)
                   | None => raise (Exception_ "emailPasswordForm")
                   end)
                  is_Exception
                  (fun e => log "error" "Failed to extract user login form." ;;; raise e) ;;
      issuer <- lift (as_str auth_issuer) ;;
      modify (fun s => set_auth_headers
                (<["Origin" := issuer]>
                   (<["Referer" := authorization_url]> (session_auth_headers s))) s) ;;;
      req <- session_request "POST" pe_url ;;
      if negb (status req =? 200) then
        raise (Exception_ "POST password request failed")
      else
        pw_url <- try_except
                    (match extract_pwform E (text req) with
                     | Some (post_action, client_id) =>
                         ret (issuer ++ "/signin-service/v1/" ++ client_id ++ "/" ++ post_action)
                     | None => raise (Exception_ "Failed to find authentication data in response")
                     end)
                    is_Exception
                    (fun e => log "error" "Failed to extract password login form." ;;; raise e) ;;
        modify (fun s => set_auth_headers
                  (<["Origin" := issuer]>
                     (<["Referer" := pe_url]> (session_auth_headers s))) s) ;;;
        log "debug" "Authenticating with email and password." ;;;
        (if fulldebug then log "debug" "Using login action url" else ret tt) ;;;
        req <- session_request "POST" pw_url ;;
        log "debug" "Parsing login response." ;;;
        ret (Some {| f_token_endpoint := token_endpoint; f_ref := ref;
                     f_pw_url := pw_url; f_req := req |}).

(** Lines 283-297, the [while] loop. [budget] is [max_depth - 1], the hops
    that may follow the next one. The variable [ref] outlives the block (the
    handler of line 298 reads it), so the loop returns its last value together
    with the exception that ended the block, if one did. *)
Fixpoint follow_redirects (budget : nat) (ref : string) : M (string * option exn) :=
  if startswith ref (APP_URI E) then ret (ref, None)
  else
    fulldebug <- gets session_fulldebug ;;
    (if fulldebug then log "debug" ("Following redirect to " ++ ref) else ret tt) ;;;
    fun s =>
      match session_request "GET" ref s with
      | (Raise e, s') => (Ret (ref, Some e), s')
      | (Ret response, s') =>
          match location response with
          | None =>
              (log "info" "Login failed, does this account have any vehicle with connect services enabled?" ;;;
               ret (ref, Some (Exception_ "User appears unauthorized"))) s'
          | Some l =>
              let ref := urljoin E ref l in
              match budget with
              | O =>
                  (log "warning" "Should have gotten a token by now." ;;;
                   ret (ref, Some (Exception_ "Too many redirects"))) s'
              | S budget' => follow_redirects budget' ref s'
              end
          end
      end.

(** [max_depth = 10] *)
Definition max_depth : nat := 10.

(** Lines 280-297, the body of the [try]. *)
Definition redirect_block (f : front) : M (string * option exn) :=
  match headers (f_req f) !! "Location" with
  | Some l => follow_redirects (pred max_depth) (urljoin E (f_pw_url f) l)
  | None => ret (f_ref f, Some (KeyError "Location"))
  end.

(** Lines 298-314, the handler, from the last [ref] and the exception. *)
Definition redirect_handler (ref : string) (e : exn) : M unit :=
  if contains "error" ref then
    error_msg <- lift (query_first ref "error") ;;
    (if String.eqb error_msg "login.error.throttled" then
       _ <- lift (query_first ref "enableNextButtonAfterSeconds") ;;
       log "warning" "Login failed, login is disabled for another timeout seconds"
     else if String.eqb error_msg "login.errors.password_invalid" then
       log "warning" "Login failed, invalid password"
     else log "warning" ("Login failed: " ++ error_msg)) ;;;
    raise (AuthenticationException error_msg)
  else if contains "code" ref then log "debug" "Got code"
  else log "debug" "Exception occurred while logging in." ;;; raise e.

(** Lines 280-315: the value of [ref] the code goes on with. *)
Definition login_redirects (f : front) : M string :=
  r <- redirect_block f ;;
  (match snd r with
   | Some e => redirect_handler (fst r) e
   | None => ret tt
   end) ;;;
  log "debug" "Login successful, received authorization code." ;;;
  ret (fst r).

(** Lines 318-351: the exchange of the code for tokens. *)
Definition login_exchange (client : string) (token_endpoint : jvalue) (ref : string) : M unit :=
  _ <- lift (match parse_qs_get E ref "code" with
             | Some (c :: _) => Ret c
             | Some [] => Raise IndexError
             | None => Raise (KeyError "code")
             end) ;;
  log "debug" "Trying to fetch user identity tokens." ;;;
  token_url <- lift (as_str token_endpoint) ;;
  req <- session_request "POST" token_url ;;
  if negb (status req =? 200) then
    raise (Exception_ "Token exchange failed.")
  else
    body <- response_json req ;;
    modify (fun s => set_tokens (<[client := body]> (session_tokens s)) s) ;;;
    has_error <- lift (py_in "error" body) ;;
    if has_error then
      error_msg <- lift (py_get body "error" (JStr "")) ;;
      has_description <- lift (py_in "error_description" body) ;;
      if has_description then
        error_description <- lift (py_get body "error_description" (JStr "")) ;;
        raise (Exception_ (py_str E error_msg ++ " - " ++ py_str E error_description))
      else raise (Exception_ (py_str E error_msg))
    else
      fulldebug <- gets session_fulldebug ;;
      (if fulldebug then log "debug" "Got token" else ret tt) ;;;
      id_token <- lift (py_get body "id_token" (JStr "")) ;;
      ok <- verify_tokens id_token "identity" ;;
      if negb ok then log "warning" "User identity token could not be verified!"
      else
        log "debug" "User identity token verified OK." ;;;
        modify (set_logged_in true).

Definition _login (client : string) : M bool :=
  completed <- try_except
                 (o <- login_front ;;
                  match o with
                  | None => ret false
                  | Some f =>
                      ref <- login_redirects f ;;
                      login_exchange client (f_token_endpoint f) ref ;;;
                      ret true
                  end)
                 is_Exception
                 (fun error =>
                    log_error "error" "Login failed for account" error ;;;
                    modify (set_logged_in false) ;;;
                    ret false) ;;
  if completed then
    toks <- gets session_tokens ;;
    tokens <- lift (dict_item toks client) ;;
    access <- lift (subscript tokens "access_token") ;;
    authorization <- lift (bearer access) ;;
    modify (fun s => set_headers (<["Authorization" := authorization]> (session_headers s)) s) ;;;
    ret true
  else ret false.

(** [asyncio.sleep(random() * 5)] *)
Definition sleep_random : M unit :=
  fun s => (Ret tt, emit (EvSleepRandom (w_random W (drawn s))) (set_drawn (S (drawn s)) s)).

(** [for i in range(tries)] of [doLogin], [n] iterations being left. *)
Fixpoint login_attempts (n : nat) : M unit :=
  match n with
  | O => ret tt
  | S n' =>
      ok <- _login "Legacy" ;;
      modify (set_logged_in ok) ;;;
      if ok then ret tt
      else
        log "info" "Something failed" ;;;
        sleep_random ;;;
        login_attempts n'
  end.

(** [v.copy()] *)
Definition py_copy (v : jvalue) : result jvalue :=
  match v with
  | JObj _ | JArr _ => Ret v
  | _ => Raise AttributeError
  end.

(** Lines 91-104 of [doLogin]: [false] is the [return False] of line 101,
    [true] means that the method goes on to list the vehicles. *)
Definition doLogin_session (tries : Z) : M bool :=
  log "debug" "Initiating new login" ;;;
  login_attempts (Z.to_nat tries) ;;;
  logged_in <- gets session_logged_in ;;
  if negb logged_in then ret false
  else
    log "info" "Successfully logged in" ;;;
    toks <- gets session_tokens ;;
    legacy <- lift (dict_item toks "Legacy") ;;
    copy <- lift (py_copy legacy) ;;
    modify (fun s => set_tokens (<["identity" := copy]> (session_tokens s)) s) ;;;
    ret true.

(** [doLogin]. The [Vehicle] objects and [update], which drives them, belong
    to the vehicle model: [add_vehicles] stands for lines 113-115 and
    [update] for [Connection.update]. *)
Definition doLogin (add_vehicles : jvalue -> M unit) (update : M bool) (tries : Z) : M bool :=
  logged_in <- doLogin_session tries ;;
  if negb logged_in then ret false
  else
    log "debug" "Fetching vehicles associated with account" ;;;
    modify (fun s => set_headers (delete "Content-Type" (session_headers s)) s) ;;;
    loaded_vehicles <- get (BASE_API E ++ "/vehicle/v2/vehicles") "" 0 ;;
    data <- lift (match loaded_vehicles with
                  | PJson v => py_get v "data" JNull
                  | PResp _ => Raise AttributeError
                  end) ;;
    match data with
    | JNull =>
        log "warning" "Failed to login to We Connect API." ;;;
        modify (set_logged_in false) ;;;
        ret false
    | _ =>
        log "debug" "Found vehicle(s) associated with account." ;;;
        add_vehicles data ;;;
        _ <- update ;;
        ret true
    end.

(** ** Actions *)

(** [v == n] for an integer [n] *)
Definition py_eq_int (v : jvalue) (n : Z) : bool :=
  match v with
  | JNum z => z =? n
  | JBool b => (if b then 1 else 0) =? n
  | _ => false
  end.

Definition throttled : jvalue := JObj {[ "id" := JNull; "state" := JStr "Throttled" ]}.

Definition _handle_action_result (response_raw : pyval) : M jvalue :=
  response <- match response_raw with
              | PResp r => response_json r
              | PJson _ => raise AttributeError
              end ;;
  if negb (truthy response) then raise (Exception_ "Invalid or no response")
  else if py_eq_int response 429 then ret throttled
  else
    data <- lift (py_get response "data" (JObj ∅)) ;;
    request_id <- lift (py_get data "requestID" (JNum 0)) ;;
    log "debug" "Request returned with request id" ;;;
    ret (JObj {[ "id" := JStr (py_str E request_id) ]}).

(** The pattern of every action: the call, the handler, and any exception
    wrapped in [Exception("Unknown error during <name>")]. *)
Definition action (name : string) (call : M pyval) : M jvalue :=
  try_except
    (response_raw <- call ;; _handle_action_result response_raw)
    is_Exception
    (fun e => raise (RaisedFrom ("Unknown error during " ++ name) e)).

Definition setClimater (vin : string) (start : bool) : M jvalue :=
  let action_name := if start then "start" else "stop" in
  action "setClimater"
    (post (BASE_API E ++ "/vehicle/v1/vehicles/" ++ vin ++ "/climatisation/" ++ action_name)
       "" 0 true).

Definition setClimaterSettings (vin : string) : M jvalue :=
  action "setClimaterSettings"
    (put (BASE_API E ++ "/vehicle/v1/vehicles/" ++ vin ++ "/climatisation/settings")
       "" 0 true).

Definition setCharging (vin : string) (start : bool) : M jvalue :=
  let action_name := if start then "start" else "stop" in
  action "setCharging"
    (post (BASE_API E ++ "/vehicle/v1/vehicles/" ++ vin ++ "/charging/" ++ action_name)
       "" 0 true).

End Connection.

(** * The rest of [Connection]

    The constructor, [logout], [update], the data getters, the S-PIN check,
    the remaining actions and [get_request_status]. [BRAND], a constant of
    [vw_const], is left out of the messages that format it. *)

(** [False], as the getters return it. *)
Definition py_false : pyval := PJson (JBool false).

(** Truthiness of what a verb wrapper returned; a response object is truthy. *)
Definition py_truthy (r : pyval) : bool :=
  match r with
  | PJson v => truthy v
  | PResp _ => true
  end.

(** [r.get(key, dflt)]; a response object has no [get]. *)
Definition resp_get (r : pyval) (key : string) (dflt : jvalue) : result jvalue :=
  match r with
  | PJson v => py_get v key dflt
  | PResp _ => Raise AttributeError
  end.

(** [key in r]; a response object is no container. *)
Definition resp_in (key : string) (r : pyval) : result bool :=
  match r with
  | PJson v => py_in key v
  | PResp _ => Raise TypeError
  end.

(** [r[key]] *)
Definition resp_item (r : pyval) (key : string) : result jvalue :=
  match r with
  | PJson v => subscript v key
  | PResp _ => Raise TypeError
  end.

(** [v == x] for a string [x] *)
Definition py_eq_str (v : jvalue) (x : string) : bool :=
  match v with
  | JStr y => String.eqb y x
  | _ => false
  end.

(** [v < n] for an integer [n] *)
Definition py_lt_int (v : jvalue) (n : Z) : result bool :=
  match v with
  | JNum z => Ret (z <? n)
  | JBool b => Ret ((if b then 1 else 0) <? n)
  | _ => Raise TypeError
  end.

(** [for x in v]: the items a loop over [v] visits. A dict yields its keys
    (in the order of the map, which is not Python's insertion order; the loops
    below fail on the first key, whichever it is), a string its characters. *)
Definition py_iter (v : jvalue) : result (list jvalue) :=
  match v with
  | JArr l => Ret l
  | JStr x => Ret (List.map (fun c => JStr (String c EmptyString)) (list_ascii_of_string x))
  | JObj m => Ret (List.map (fun kv => JStr (fst kv)) (map_to_list m))
  | _ => Raise TypeError
  end.

(** Lines 624-627 of [getVehicleData]: the first vehicle whose ["vin"] is [vin]. *)
Fixpoint find_vehicle (vin : string) (vehicles : list jvalue) : result (option jvalue) :=
  match vehicles with
  | [] => Ret None
  | vehicle :: rest =>
      match py_get vehicle "vin" JNull with
      | Raise e => Raise e
      | Ret v => if py_eq_str v vin then Ret (Some vehicle) else find_vehicle vin rest
      end
  end.

(** Lines 703-705 of [get_request_status]: every request whose id matches
    overwrites [result]. *)
Fixpoint scan_requests (requestId : string) (requests : list jvalue) (found : jvalue)
    : result jvalue :=
  match requests with
  | [] => Ret found
  | request :: rest =>
      match py_get request "id" (JStr "") with
      | Raise e => Raise e
      | Ret id =>
          if py_eq_str id requestId then
            match py_get request "status" JNull with
            | Raise e => Raise e
            | Ret st => scan_requests requestId rest st
            end
          else scan_requests requestId rest found
      end
  end.

(** Lines 708-719: the status shown for the raw status of a request. *)
Definition request_status_label (found : jvalue) : jvalue :=
  if py_eq_str found "in_progress" || py_eq_str found "queued" || py_eq_str found "fetched"
  then JStr "In Progress"
  else if py_eq_str found "request_fail" || py_eq_str found "failed"
  then JStr "Failed"
  else if py_eq_str found "unfetched"
  then JStr "No response"
  else if py_eq_str found "request_successful" || py_eq_str found "successful"
  then JStr "Success"
  else if py_eq_str found "fail_ignition_on"
  then JStr "Failed because ignition is on"
  else found.

(** The message of lines 734-736 of [check_spin_state]. *)
Definition spin_lockout_message : string :=
  "Remaining tries for S-PIN is < 3. Bailing out for security reasons. "
  ++ "To resume operation, please make sure the correct S-PIN has been set in the integration "
  ++ "and then use the correct S-PIN once via the Volkswagen app.".

Definition unknown_error : pyval := PJson (JObj {[ "error" := JStr "unknown" ]}).

Section Services.
Context (E : pyenv) (W : world).

(** [Connection.__init__]: the session objects, the credentials and the
    cookie jar are not part of the state. *)
Definition __init__ (fulldebug : bool) (interval : Z) : conn :=
  {| session_logged_in := false;
     session_tokens := ∅;
     session_headers := HEADERS_SESSION E;
     session_auth_headers := HEADERS_AUTH E;
     service_status := ∅;
     session_refresh_interval := interval;
     session_fulldebug := fulldebug;
     sent := 0; drawn := 0; clock := 0;
     trace := [EvLog "debug" "Using service"] |}.

Definition logged_in : M bool := gets session_logged_in.

Definition get_service_status : M (gmap string string) :=
  log "debug" "Getting API status updates" ;;;
  gets service_status.

(** [self._session_headers.get("identity", {}).get(key)]: the values of
    [_session_headers] are strings, which have no [get]; the default is the
    empty dict. *)
Definition header_identity_get (key : string) : M jvalue :=
  session_headers <- gets session_headers ;;
  match session_headers !! "identity" with
  | Some _ => raise AttributeError
  | None => lift (py_get (JObj ∅) key JNull)
  end.

Definition logout : M unit :=
  modify (fun s => set_headers (delete "Authorization" (session_headers s)) s) ;;;
  logged <- gets session_logged_in ;;
  if logged then
    identity_token <- header_identity_get "identity_token" ;;
    (if truthy identity_token then log "info" "Revoking Identity Access Token..."
     else ret tt) ;;;
    refresh_token <- header_identity_get "refresh_token" ;;
    if truthy refresh_token then
      log "info" "Revoking Identity Refresh Token..." ;;;
      toks <- gets session_tokens ;;
      identity <- lift (dict_item toks "identity") ;;
      _ <- lift (subscript identity "refresh_token") ;;
      _ <- post W "https://emea.bff.cariad.digital/login/v1/idk/revoke" "" 0 false ;;
      ret tt
    else ret tt
  else ret tt.

Definition terminate : M unit :=
  log "info" "Initiating logout" ;;;
  logout.

(** [update]. [relogin] stands for the call [self.doLogin()], which calls
    [update] in turn, and [update_vehicles] for lines 547-551, which drive the
    [Vehicle] objects. *)
Definition update (relogin : M bool) (update_vehicles : M unit) : M bool :=
  logged <- logged_in ;;
  proceed <- (if negb logged then
                ok <- _login E W "Legacy" ;;
                if negb ok then
                  log "warning" "Login for account failed!" ;;; ret false
                else ret true
              else ret true) ;;
  if negb proceed then ret false
  else
    try_except
      (ok <- validate_tokens E W ;;
       (if negb ok then
          log "info" "Session expired. Initiating new login for account." ;;;
          ok <- relogin ;;
          if negb ok then
            log "warning" "Login for account failed!" ;;;
            raise (Exception_ "Login for account failed")
          else ret tt
        else ret tt) ;;;
       log "debug" "Going to call vehicle updates" ;;;
       update_vehicles ;;;
       ret true)
      is_Exception
      (fun error => log_error "warning" "Could not update information" error ;;; ret false).

(** ** Data getters *)

(** [response.update({"refreshTimestamp": datetime.now(timezone.utc)})]; the
    instant is stored as its reading in microseconds. *)
Definition stamp (response : pyval) : M pyval :=
  match response with
  | PJson (JObj m) =>
      t <- now W ;;
      ret (PJson (JObj (<["refreshTimestamp" := JNum t]> m)))
  | _ => raise AttributeError
  end.

Definition getPendingRequests (vin : string) : M pyval :=
  ok <- validate_tokens E W ;;
  if negb ok then ret py_false
  else
    try_except
      (response <- get W (BASE_API E ++ "/vehicle/v1/vehicles/" ++ vin ++ "/pendingrequests") "" 0 ;;
       if py_truthy response then stamp response else ret response)
      is_Exception
      (fun error =>
         log_error "warning" "Could not fetch information for pending requests" error ;;;
         ret py_false).

Definition getOperationList (vin : string) : M pyval :=
  ok <- validate_tokens E W ;;
  if negb ok then ret py_false
  else
    try_except
      (response <- get W (BASE_API E ++ "/vehicle/v1/vehicles/" ++ vin ++ "/capabilities") "" 0 ;;
       capabilities <- lift (resp_get response "capabilities" (JBool false)) ;;
       if truthy capabilities then ret response
       else
         status_code <- lift (resp_get response "status_code" (JObj ∅)) ;;
         if truthy status_code then
           log "warning" "Could not fetch operation list, HTTP status code" ;;;
           ret response
         else
           log "info" "Could not fetch operation list" ;;;
           ret unknown_error)
      is_Exception
      (fun error =>
         log_error "warning" "Could not fetch operation list" error ;;;
         ret unknown_error).

(** Lines 602-606 of [getSelectiveStatus]. *)
Fixpoint check_services (response : pyval) (services : list string) : M unit :=
  match services with
  | [] => ret tt
  | service :: rest =>
      v <- lift (resp_get response service JNull) ;;
      (if negb (truthy v) then
         log "debug" ("Did not receive return data for requested service " ++ service)
       else ret tt) ;;;
      check_services response rest
  end.

Definition getSelectiveStatus (vin : string) (services : list string) : M pyval :=
  ok <- validate_tokens E W ;;
  if negb ok then ret py_false
  else
    try_except
      (response <- get W (BASE_API E ++ "/vehicle/v1/vehicles/" ++ vin
                            ++ "/selectivestatus?jobs=" ++ String.concat "," services) "" 0 ;;
       check_services response services ;;;
       if py_truthy response then stamp response else ret response)
      is_Exception
      (fun error =>
         log_error "warning" "Could not fetch selectivestatus" error ;;;
         ret py_false).

Definition getVehicleData (vin : string) : M pyval :=
  ok <- validate_tokens E W ;;
  if negb ok then ret py_false
  else
    try_except
      (response <- get W (BASE_API E ++ "/vehicle/v2/vehicles") "" 0 ;;
       data <- lift (resp_get response "data" JNull) ;;
       vehicles <- lift (py_iter data) ;;
       found <- lift (find_vehicle vin vehicles) ;;
       match found with
       | Some vehicle => ret (PJson (JObj {[ "vehicle" := vehicle ]}))
       | None =>
           log "warning" ("Could not fetch vehicle data for vin " ++ vin) ;;;
           ret py_false
       end)
      is_Exception
      (fun error =>
         log_error "warning" "Could not fetch vehicle data" error ;;;
         ret py_false).

Definition getParkingPosition (vin : string) : M pyval :=
  ok <- validate_tokens E W ;;
  if negb ok then ret py_false
  else
    try_except
      (response <- get W (BASE_API E ++ "/vehicle/v1/vehicles/" ++ vin ++ "/parkingposition") "" 0 ;;
       has_data <- lift (resp_in "data" response) ;;
       if has_data then
         data <- lift (resp_item response "data") ;;
         ret (PJson (JObj {[ "isMoving" := JBool false; "parkingposition" := data ]}))
       else
         status_code <- lift (resp_get response "status_code" (JObj ∅)) ;;
         if truthy status_code then
           status_code <- lift (resp_get response "status_code" (JNum 0)) ;;
           if py_eq_int status_code 204 then
             log "debug" "Seems car is moving, HTTP 204 received from parkingposition" ;;;
             ret (PJson (JObj {[ "isMoving" := JBool true; "parkingposition" := JObj ∅ ]}))
           else
             log "warning" "Could not fetch parkingposition, HTTP status code" ;;;
             ret py_false
         else
           log "info" "Unhandled error while trying to fetch parkingposition data" ;;;
           ret py_false)
      is_Exception
      (fun error =>
         log_error "warning" "Could not fetch parkingposition" error ;;;
         ret py_false).

Definition getTripLast (vin : string) : M pyval :=
  ok <- validate_tokens E W ;;
  if negb ok then ret py_false
  else
    try_except
      (response <- get W (BASE_API E ++ "/vehicle/v1/trips/" ++ vin ++ "/shortterm/last") "" 0 ;;
       has_data <- lift (resp_in "data" response) ;;
       if has_data then
         data <- lift (resp_item response "data") ;;
         ret (PJson (JObj {[ "trip_last" := data ]}))
       else
         log "warning" "Could not fetch last trip data, server response" ;;;
         ret py_false)
      is_Exception
      (fun error =>
         log_error "warning" "Could not fetch last trip data" error ;;;
         ret py_false).

Definition wakeUpVehicle (vin : string) : M pyval :=
  ok <- validate_tokens E W ;;
  if negb ok then ret py_false
  else
    try_except
      (post W (BASE_API E ++ "/vehicle/v1/vehicles/" ++ vin ++ "/vehiclewakeuptrigger") "" 0 true)
      is_Exception
      (fun error =>
         log_error "warning" "Could not refresh the data" error ;;;
         ret py_false).

(** [get_request_status]; [add_vehicles] and [update] are those of [doLogin].
    The exception of line 723 is raised while another is handled: Python
    keeps the handled one as its context, and [RaisedFrom] holds it here. *)
Definition get_request_status (add_vehicles : jvalue -> M unit) (update : M bool)
    (vin requestId : string) : M jvalue :=
  logged <- logged_in ;;
  (if negb logged then
     ok <- doLogin E W add_vehicles update 1 ;;
     if negb ok then
       log "warning" "Login for account failed!" ;;;
       raise (Exception_ "Login for account failed")
     else ret tt
   else ret tt) ;;;
  try_except
    (ok <- validate_tokens E W ;;
     (if negb ok then
        log "info" "Session expired. Initiating new login for account." ;;;
        ok <- doLogin E W add_vehicles update 1 ;;
        if negb ok then
          log "warning" "Login for account failed!" ;;;
          raise (Exception_ "Login for account failed")
        else ret tt
      else ret tt) ;;;
     response <- getPendingRequests vin ;;
     requests <- lift (resp_get response "data" (JArr [])) ;;
     items <- lift (py_iter requests) ;;
     found <- lift (scan_requests requestId items JNull) ;;
     ret (request_status_label found))
    is_Exception
    (fun error =>
       log_error "warning" "Failure during get request status" error ;;;
       raise (RaisedFrom "Failure during get request status" error)).

(** ** S-PIN and the remaining actions *)

Definition check_spin_state : M bool :=
  result <- get W (BASE_API E ++ "/vehicle/v1/spin/state") "" 0 ;;
  remainingTries <- lift (resp_get result "remainingTries" JNull) ;;
  match remainingTries with
  | JNull => raise (Exception_ "Couldn't determine S-PIN state.")
  | _ =>
      low <- lift (py_lt_int remainingTries 3) ;;
      if low then
        raise (Exception_ spin_lockout_message)
      else ret true
  end.

Definition setAuxiliary (vin : string) (start : bool) : M jvalue :=
  let action_name := if start then "start" else "stop" in
  action E "setAuxiliary"
    (post W (BASE_API E ++ "/vehicle/v1/vehicles/" ++ vin ++ "/auxiliaryheating/" ++ action_name)
       "" 0 true).

Definition setWindowHeater (vin : string) (start : bool) : M jvalue :=
  let action_name := if start then "start" else "stop" in
  action E "setWindowHeater"
    (post W (BASE_API E ++ "/vehicle/v1/vehicles/" ++ vin ++ "/windowheating/" ++ action_name)
       "" 0 true).

Definition setChargingSettings (vin : string) : M jvalue :=
  action E "setChargingSettings"
    (put W (BASE_API E ++ "/vehicle/v1/vehicles/" ++ vin ++ "/charging/settings") "" 0 true).

Definition setChargingCareModeSettings (vin : string) : M jvalue :=
  action E "setChargingCareModeSettings"
    (put W (BASE_API E ++ "/vehicle/v1/vehicles/" ++ vin ++ "/charging/care/settings") "" 0 true).

Definition setReadinessBatterySupport (vin : string) : M jvalue :=
  action E "setReadinessBatterySupport"
    (put W (BASE_API E ++ "/vehicle/v1/vehicles/" ++ vin ++ "/readiness/batterysupport") "" 0 true).

Definition setDepartureTimers (vin : string) : M jvalue :=
  action E "setDepartureTimers"
    (put W (BASE_API E ++ "/vehicle/v1/vehicles/" ++ vin ++ "/departure/profiles") "" 0 true).

Definition setAuxiliaryHeatingTimers (vin : string) : M jvalue :=
  action E "setAuxiliaryHeatingTimers"
    (put W (BASE_API E ++ "/vehicle/v1/vehicles/" ++ vin ++ "/auxiliaryheating/timers") "" 0 true).

Definition setLock (vin : string) (lock : bool) : M jvalue :=
  check_spin_state ;;;
  let action_name := if lock then "lock" else "unlock" in
  action E "setLock"
    (post W (BASE_API E ++ "/vehicle/v1/vehicles/" ++ vin ++ "/access/" ++ action_name)
       "" 0 true).

End Services.


(** * Observations

    What the properties below read off a run. *)

(** The [asyncio.sleep] delays of a trace, oldest first. *)
Fixpoint delays (t : list event) : list Z :=
  match t with
  | [] => []
  | EvSleep d :: t' => delays t' ++ [d]
  | _ :: t' => delays t'
  end.

(** How many times the method [name] was entered. *)
Fixpoint calls (name : string) (t : list event) : nat :=
  match t with
  | [] => 0%nat
  | EvCall n :: t' => (if String.eqb n name then 1 else 0)%nat + calls name t'
  | _ :: t' => calls name t'
  end.

(** Two states that differ in the bookkeeping of the embedding and in the
    service status only. *)
Definition same_session (s s' : conn) : Prop :=
  session_logged_in s' = session_logged_in s /\
  session_tokens s' = session_tokens s /\
  session_headers s' = session_headers s /\
  session_auth_headers s' = session_auth_headers s /\
  session_refresh_interval s' = session_refresh_interval s /\
  session_fulldebug s' = session_fulldebug s.

(** The rows of lines 971-982: the substring looked for and the key written. *)
Definition category_table : list (string * string) :=
  [ ("vehicle/v2/vehicles", "vehicles"); ("parkingposition", "parkingposition");
    ("/vehicle/v1/trips/", "trips"); ("capabilities", "capabilities");
    ("selectivestatus", "selectivestatus"); ("token", "token") ].

(** What one run of a verb wrapper adds to the trace: after [tries] earlier
    attempts it slept [ds], at most [n] times, and sent one request more
    than it slept. *)
Definition retry_log (s s' : conn) (tries : Z) (n : nat) : Prop :=
  exists ds, delays (trace s') = (delays (trace s) ++ ds)%list /\
    (length ds <= n)%nat /\
    sent s' = (sent s + 1 + length ds)%nat /\
    forall (i : nat) d, ds !! i = Some d -> 1 <= d <= 3 + 2 * (tries + Z.of_nat i).

(** The server answers 429 to the next [n + 1] requests. *)
Definition throttles (W : world) (s : conn) (n : nat) : Prop :=
  forall i, (i <= n)%nat ->
    exists q, w_reply W (sent s + i) = Reply q /\ status q = 429.

(** The value of [ref] after following the Location headers [locs] from [ref]. *)
Definition ref_after (E : pyenv) (ref : string) (locs : list string) : string :=
  fold_left (urljoin E) locs ref.

(** The next requests are answered by redirects to [locs], in this order. *)
Definition redirects (W : world) (s : conn) (locs : list string) : Prop :=
  forall (i : nat) l, locs !! i = Some l ->
    exists q, w_reply W (sent s + i) = Reply q /\ location q = Some l.

(** The URLs requested in a trace, oldest first. *)
Fixpoint requested (t : list event) : list string :=
  match t with
  | [] => []
  | EvRequest _ url :: t' => requested t' ++ [url]
  | _ :: t' => requested t'
  end.

(** The login attempt run from [s0] fails on [e]: [_login] logs [e], marks
    the session logged out and returns False, [n] requests having been sent
    by then. *)
Definition login_aborts (E : pyenv) (W : world) (client : string) (s0 : conn)
    (e : exn) (n : nat) : Prop :=
  exists s',
    _login E W client s0 = (Ret false, s') /\
    session_logged_in s' = false /\
    head (trace s') = Some (EvLogError "error" "Login failed for account" e) /\
    sent s' = n.


(** [s'] is [s] after [k] more requests: the session proper, the random
    generator and the clock are as before, nobody slept and no method counted
    by [calls] was entered. The service status and the log may differ. *)
Definition requests_only (k : nat) (s s' : conn) : Prop :=
  same_session s s' /\ sent s' = (sent s + k)%nat /\ drawn s' = drawn s /\
  clock s' = clock s /\ delays (trace s') = delays (trace s) /\
  forall name, calls name (trace s') = calls name (trace s).

(** The service status once the code [code] was recorded for [url]. *)
Definition recorded (url : string) (code : Z) (st : gmap string string)
    : gmap string string :=
  match status_category url with
  | Some key => <[key := status_of_code code]> st
  | None => st
  end.

(** What [_request] returns for a response below 400. *)
Definition request_value (raw : bool) (q : response) : pyval :=
  if raw then PResp q
  else PJson (if status q =? 204 then status_envelope (status q)
              else default (JObj ∅) (json q)).

(** The next [k] requests are answered 429. *)
Definition throttled_for (W : world) (s : conn) (k : nat) : Prop :=
  forall i, (i < k)%nat ->
    exists q, w_reply W (sent s + i) = Reply q /\ status q = 429.

(** [s'] is [s] after a verb wrapper that was throttled [k] times and then
    answered: [k + 1] requests, [k] random draws and [k] sleeps; the session
    proper is as before. *)
Definition retried (k : nat) (s s' : conn) : Prop :=
  same_session s s' /\ sent s' = (sent s + k + 1)%nat /\
  drawn s' = (drawn s + k)%nat /\
  length (delays (trace s')) = (length (delays (trace s)) + k)%nat.

(** [m] keeps [R] between the state it starts in and the state it leaves,
    whether it returns or raises. *)
Definition keeps {A} (R : conn -> conn -> Prop) (m : M A) : Prop :=
  forall s, R s (snd (m s)).

(** Every token set but the one stored under [client] is as before, and so
    are the service status and the refresh interval. *)
Definition other_tokens_kept (client : string) (s s' : conn) : Prop :=
  (forall k, k <> client -> session_tokens s' !! k = session_tokens s !! k) /\
  service_status s' = service_status s /\
  session_refresh_interval s' = session_refresh_interval s /\
  session_fulldebug s' = session_fulldebug s.

(** The [asyncio.sleep(random() * 5)] of a trace. *)
Fixpoint random_sleeps (t : list event) : nat :=
  match t with
  | [] => 0%nat
  | EvSleepRandom _ :: t' => S (random_sleeps t')
  | _ :: t' => random_sleeps t'
  end.

(** The next [n] requests fail in the transport. *)
Definition unreachable (W : world) (s : conn) (n : nat) : Prop :=
  forall i, (i < n)%nat -> exists e, w_reply W (sent s + i) = Fails e.

(** The actions that post or put and hand the response to
    [_handle_action_result], each with the name its error message carries. *)
Definition actions (E : pyenv) (W : world) (vin : string) (flag : bool)
    : list (string * M jvalue) :=
  [ ("setClimater", setClimater E W vin flag);
    ("setClimaterSettings", setClimaterSettings E W vin);
    ("setAuxiliary", setAuxiliary E W vin flag);
    ("setWindowHeater", setWindowHeater E W vin flag);
    ("setCharging", setCharging E W vin flag);
    ("setChargingSettings", setChargingSettings E W vin);
    ("setChargingCareModeSettings", setChargingCareModeSettings E W vin);
    ("setReadinessBatterySupport", setReadinessBatterySupport E W vin);
    ("setDepartureTimers", setDepartureTimers E W vin);
    ("setAuxiliaryHeatingTimers", setAuxiliaryHeatingTimers E W vin) ].

(** [{"id": str(request_id)}] *)
Definition request_handle (E : pyenv) (request_id : jvalue) : jvalue :=
  JObj {[ "id" := JStr (py_str E request_id) ]}.

(** A vehicle entry of the account whose ["vin"] is not [vin]. *)
Definition other_vehicle (vin : string) (x : jvalue) : Prop :=
  exists m, x = JObj m /\ m !! "vin" <> Some (JStr vin).

(** What [getPendingRequests] and [getSelectiveStatus] return for an error
    status: the envelope of [get] with the time of the call. *)
Definition stamped_envelope (code t : Z) : pyval :=
  PJson (JObj (<["refreshTimestamp" := JNum t]> {[ "status_code" := JNum code ]})).

(** A pending request that [get_request_status] does not take for
    [requestId]: its ["id"], the empty string when it has none, differs. *)
Definition other_request (requestId : string) (x : jvalue) : Prop :=
  exists m, x = JObj m /\ py_eq_str (default (JStr "") (m !! "id")) requestId = false.

(** * Sample data

    A concrete environment, a few worlds and sessions on which the
    properties are instantiated. *)

Definition sample_env : pyenv := {|
  APP_URI := "weconnect://authenticated";
  BASE_API := "https://emea.bff.cariad.digital";
  HEADERS_SESSION := {[ "Content-Type" := "application/json" ]};
  HEADERS_AUTH := {[ "Accept" := "text/html" ]};
  (* the two sample tokens expire at second 1000 *)
  jwt_decode := fun token =>
    match token with
    | JStr t => if String.eqb t "I1" || String.eqb t "A1"
                then Some {[ "exp" := JNum 1000 ]} else None
    | _ => None
    end;
  jwt_verify := fun _ _ => false;
  int_of_str := fun _ => None;
  fromtimestamp := fun seconds => Ret (seconds * 1000000);
  urljoin := fun _ l => l;
  parse_qs_get := fun url key =>
    if String.eqb key "code" && contains "?code=" url then Some ["abc"] else None;
  py_str := fun _ => "";
  extract_mailform := fun _ => Some "/signin-service/v1/cid/login/identifier";
  extract_pwform := fun _ => Some ("login/authenticate", "cid")
|}.

Definition respond (st : Z) (loc : option string) (body : option jvalue) : response :=
  {| status := st;
     headers := match loc with
                | Some l => {[ "Location" := l ]}
                | None => ∅
                end;
     json := body;
     text := "" |}.

Definition offline : reply := Fails (ClientOSError "Cannot connect to host").

(** The world that answers the listed replies, then goes offline. *)
Definition scripted (replies : list reply) (clock_reading : Z) : world :=
  {| w_reply := fun n => nth n replies offline;
     w_random := fun n => n;
     w_now := fun _ => clock_reading |}.

(** The world that always answers the same. *)
Definition always (r : reply) : world :=
  {| w_reply := fun _ => r; w_random := fun n => n; w_now := fun _ => 0 |}.

Definition identity_1 : gmap string jvalue :=
  {[ "access_token" := JStr "A1"; "id_token" := JStr "I1"; "refresh_token" := JStr "R1" ]}.

(** A logged-in session holding [identity_1], with the given refresh interval. *)
Definition session_1 (interval : Z) : conn :=
  {| session_logged_in := true;
     session_tokens := {[ "identity" := JObj identity_1 ]};
     session_headers := {[ "Authorization" := "Bearer A1" ]};
     session_auth_headers := ∅;
     service_status := ∅;
     session_refresh_interval := interval;
     session_fulldebug := false;
     sent := 0; drawn := 0; clock := 0; trace := [] |}.

(** [timedelta(days=3000000)], a look-ahead of some 8200 years. *)
Definition long_interval : Z := 3000000 * 86400 * 1000000.

(** A session before any login. *)
Definition session_0 : conn :=
  {| session_logged_in := false;
     session_tokens := ∅;
     session_headers := ∅;
     session_auth_headers := ∅;
     service_status := ∅;
     session_refresh_interval := 300000000;
     session_fulldebug := false;
     sent := 0; drawn := 0; clock := 0; trace := [] |}.

Definition vehicles_url : string := "https://emea.bff.cariad.digital/vehicle/v2/vehicles".

(** The refresh answer of the scenario, and one without identity token. *)
Definition refreshed_2 : gmap string jvalue :=
  {[ "access_token" := JStr "A2"; "id_token" := JStr "I2" ]}.
Definition refreshed_access_only : gmap string jvalue :=
  {[ "access_token" := JStr "A2" ]}.

(** A complete login: discovery, authorization page, its redirect, the email
    form, the password form, one redirect hop that lands on APP_URI, the
    token exchange and the JWKS document. *)
Definition login_world : world :=
  scripted
    [ Reply (respond 200 None
               (Some (JObj {[ "authorization_endpoint" := JStr "https://identity.vwgroup.io/oidc/v1/authorize";
                              "token_endpoint" := JStr "https://emea.bff.cariad.digital/login/v1/idk/token";
                              "issuer" := JStr "https://identity.vwgroup.io" ]})));
      Reply (respond 302 (Some "https://identity.vwgroup.io/signin-service/v1/signin") None);
      Reply (respond 200 None None);
      Reply (respond 200 None None);
      Reply (respond 302 (Some "https://identity.vwgroup.io/oidc/v1/oauth/sso") None);
      Reply (respond 302 (Some "weconnect://authenticated?code=abc") None);
      Reply (respond 200 None (Some (JObj identity_1)));
      Reply (respond 200 None (Some (JObj {[ "keys" := JArr [] ]}))) ]
    0.

(** The response to the password form and ten further redirects that never
    reach APP_URI. *)
Definition hop : string := "https://identity.vwgroup.io/oidc/v1/oauth/sso".
Definition lost_front : front :=
  {| f_token_endpoint := JStr "https://emea.bff.cariad.digital/login/v1/idk/token";
     f_ref := "https://identity.vwgroup.io/signin-service/v1/signin";
     f_pw_url := "https://identity.vwgroup.io/signin-service/v1/cid/login/authenticate";
     f_req := respond 302 (Some hop) None |}.

(** The replies of a login up to the response to the password form, which
    redirects to [hop]. *)
Definition front_replies : list reply :=
  [ Reply (respond 200 None
             (Some (JObj {[ "authorization_endpoint" := JStr "https://identity.vwgroup.io/oidc/v1/authorize";
                            "token_endpoint" := JStr "https://emea.bff.cariad.digital/login/v1/idk/token";
                            "issuer" := JStr "https://identity.vwgroup.io" ]})));
    Reply (respond 302 (Some "https://identity.vwgroup.io/signin-service/v1/signin") None);
    Reply (respond 200 None None);
    Reply (respond 200 None None);
    Reply (respond 302 (Some hop) None) ].

(** After the password form: ten redirects that never reach APP_URI. *)
Definition lost_world : world :=
  scripted (front_replies ++ repeat (Reply (respond 302 (Some hop) None)) 10)%list 0.

(** Two redirects, then a page without Location. *)
Definition unauthorized_world : world :=
  scripted (front_replies ++ repeat (Reply (respond 302 (Some hop) None)) 2
              ++ [Reply (respond 200 None None)])%list 0.

(** Nine redirects and a tenth to a URL of the identity provider that holds
    a code, then the token exchange and the JWKS document. *)
Definition code_url : string := "https://identity.vwgroup.io/oidc/v1/oauth/sso?code=abc".
Definition detour_world : world :=
  scripted (front_replies ++ repeat (Reply (respond 302 (Some hop) None)) 9
              ++ [Reply (respond 302 (Some code_url) None)]
              ++ [ Reply (respond 200 None (Some (JObj identity_1)));
                   Reply (respond 200 None (Some (JObj {[ "keys" := JArr [] ]}))) ])%list 0.

(** More sample data: answers of the API, and worlds whose clock reads 10 s,
    when the sample tokens (expiry at 1000 s) are fresh. *)
Definition moved_body : gmap string jvalue := {[ "moved" := JBool true ]}.
Definition fresh_world (replies : list reply) : world := scripted replies 10000000.
Definition throttled_reply : reply := Reply (respond 429 None None).
Definition accepted_body : gmap string jvalue :=
  {[ "data" := JObj {[ "requestID" := JNum 7 ]} ]}.
Definition parked_body : gmap string jvalue :=
  {[ "data" := JObj {[ "lat" := JNum 52; "lon" := JNum 13 ]} ]}.
Definition vehicle_of (vin : string) : gmap string jvalue := {[ "vin" := JStr vin ]}.
Definition two_vehicles : gmap string jvalue :=
  {[ "data" := JArr [JObj (vehicle_of "WVW1"); JObj (vehicle_of "WVW2")] ]}.
Definition pending_of (id st : string) : gmap string jvalue :=
  {[ "id" := JStr id; "status" := JStr st ]}.
Definition two_pending : gmap string jvalue :=
  {[ "data" := JArr [JObj (pending_of "7" "queued"); JObj (pending_of "8" "successful")] ]}.
Definition spin_state (remaining : Z) : response :=
  respond 200 None (Some (JObj {[ "remainingTries" := JNum remaining ]})).

(** An environment whose tokens decode to claims without "exp". *)
Definition env_without_exp : pyenv := {|
  APP_URI := APP_URI sample_env;
  BASE_API := BASE_API sample_env;
  HEADERS_SESSION := HEADERS_SESSION sample_env;
  HEADERS_AUTH := HEADERS_AUTH sample_env;
  jwt_decode := fun _ => Some ∅;
  jwt_verify := jwt_verify sample_env;
  int_of_str := int_of_str sample_env;
  fromtimestamp := fromtimestamp sample_env;
  urljoin := urljoin sample_env;
  parse_qs_get := parse_qs_get sample_env;
  py_str := py_str sample_env;
  extract_mailform := extract_mailform sample_env;
  extract_pwform := extract_pwform sample_env
|}.

(** A session whose identity token cannot be decoded. *)
Definition session_garbled : conn :=
  set_tokens {[ "identity" := JObj {[ "access_token" := JStr "A1"; "id_token" := JStr "??" ]} ]}
    (session_1 300000000).

(** The replies of a login up to the password form and its redirect to the
    application, followed by [exchange], the answers to the token exchange
    and to what comes after it. *)
Definition login_then (exchange : list reply) : world :=
  scripted
    ([ Reply (respond 200 None
                (Some (JObj {[ "authorization_endpoint" := JStr "https://identity.vwgroup.io/oidc/v1/authorize";
                               "token_endpoint" := JStr "https://emea.bff.cariad.digital/login/v1/idk/token";
                               "issuer" := JStr "https://identity.vwgroup.io" ]})));
       Reply (respond 302 (Some "https://identity.vwgroup.io/signin-service/v1/signin") None);
       Reply (respond 200 None None);
       Reply (respond 200 None None);
       Reply (respond 302 (Some "https://identity.vwgroup.io/oidc/v1/oauth/sso") None);
       Reply (respond 302 (Some "weconnect://authenticated?code=abc") None) ] ++ exchange)%list
    0.

(** The token exchange and the JWKS document of a complete login. *)
Definition tokens_granted : list reply :=
  [ Reply (respond 200 None (Some (JObj identity_1)));
    Reply (respond 200 None (Some (JObj {[ "keys" := JArr [] ]}))) ].

(** A login whose token exchange succeeds, after which the server cannot be
    reached: the JWKS document is not served. *)
Definition jwks_unreachable_world : world :=
  login_then [ Reply (respond 200 None (Some (JObj identity_1))) ].

Definition no_vehicles : jvalue -> M unit := fun _ => ret tt.

(** * Properties *)


Lemma same_session_refl s : same_session s s.
Proof. by repeat split. Qed.

Lemma same_session_trans s1 s2 s3 :
  same_session s1 s2 -> same_session s2 s3 -> same_session s1 s3.
Proof.
  unfold same_session. intros (?&?&?&?&?&?) (?&?&?&?&?&?).
  repeat split; congruence.
Qed.

(** ** Service status *)

Lemma contains_prefix needle hay : String.prefix needle hay = true -> contains needle hay = true.
Proof. destruct hay; simpl; intros ->; reflexivity. Qed.

Lemma update_service_status_run url code s :
  exists s', update_service_status url code s = (Ret tt, s') /\
    same_session s s' /\ sent s' = sent s /\ drawn s' = drawn s /\
    clock s' = clock s /\ delays (trace s') = delays (trace s) /\
    (forall name, calls name (trace s') = calls name (trace s)) /\
    service_status s' =
      match status_category url with
      | Some key => <[key := status_of_code code]> (service_status s)
      | None => service_status s
      end.
Proof.
  unfold update_service_status.
  destruct (status_category url); eexists; (split; [reflexivity|]);
    repeat split; reflexivity.
Qed.


Lemma status_category_table url :
  status_category url =
    snd <$> List.find (fun row => contains (fst row) url) category_table.
Proof.
  unfold status_category, category_table; simpl.
  repeat match goal with |- context [contains ?p url] => destruct (contains p url) end;
    reflexivity.
Qed.

(** C5. [update_service_status] maps every status code to exactly one health
    value: 200, 204 and 207 to "Up", 401 to "Unauthorized", 403 to
    "Forbidden", 429 to "Rate limited", the transport code 1000 to "Error",
    and every other code to "Down". The value is stored under the key of the
    first row of [category_table] whose substring occurs in the URL; when no
    substring occurs the status mapping is left as it was. Nothing else of
    the session changes. *)
Theorem update_service_status_total_exact (url : string) (code : Z) (s : conn) :
  let health := status_of_code code in
  (health = "Up" <-> code = 200 \/ code = 204 \/ code = 207) /\
  (health = "Unauthorized" <-> code = 401) /\
  (health = "Forbidden" <-> code = 403) /\
  (health = "Rate limited" <-> code = 429) /\
  (health = "Error" <-> code = 1000) /\
  (health = "Down" <->
     code <> 200 /\ code <> 204 /\ code <> 207 /\ code <> 401 /\
     code <> 403 /\ code <> 429 /\ code <> 1000) /\
  exists s', update_service_status url code s = (Ret tt, s') /\
    same_session s s' /\
    match List.find (fun row => contains (fst row) url) category_table with
    | Some (_, key) => service_status s' = <[key := health]> (service_status s)
    | None => service_status s' = service_status s
    end.
Proof.
  intros health.
  assert (Hh : health = status_of_code code) by reflexivity.
  unfold status_of_code in Hh.
  repeat match type of Hh with
         | context [?a =? ?b] => destruct (Z.eqb_spec a b)
         end; simpl in Hh; rewrite Hh;
    (repeat split; try (intros; lia); try discriminate; try tauto;
     try (intros; exfalso; lia)).
  all: try (destruct (update_service_status_run url code s) as (s' & Hrun & Hsame & _ & _ & _ & _ & _ & Hst);
            exists s'; split; [exact Hrun|]; split; [exact Hsame|];
            rewrite Hst, status_category_table;
            destruct (List.find _ category_table) as [[? ?]|]; simpl;
            unfold status_of_code;
            repeat match goal with
                   | |- context [?a =? ?b] => destruct (Z.eqb_spec a b); try lia
                   end; reflexivity).
Qed.

(** ** Token validation and refresh *)

Section TokenProperties.
Context (E : pyenv) (W : world).

Lemma verify_identity_run (token : jvalue) (s : conn) :
  exists r s', verify_tokens E W token "identity" s = (r, s') /\
    same_session s s' /\ service_status s' = service_status s /\
    sent s' = S (sent s) /\
    (forall name, calls name (trace s') = calls name (trace s)) /\
    match w_reply W (sent s) with
    | Fails e => r = Raise e
    | Reply q =>
        match json q with
        | None => r = Raise JSONError
        | Some keys => r = Ret (jwt_verify E keys token)
        end
    end.
Proof.
  unfold verify_tokens, bind, session_request, response_json; simpl.
  destruct (w_reply W (sent s)) as [q|e]; simpl.
  2: { do 2 eexists; split; [reflexivity|]. repeat split. }
  destruct (json q) as [keys|]; simpl.
  2: { do 2 eexists; split; [reflexivity|]. repeat split. }
  destruct (jwt_verify E keys token); simpl;
    do 2 eexists; (split; [reflexivity|]); repeat split.
Qed.

(** [refresh_tokens] never raises, and is entered once per call. *)
Lemma refresh_tokens_run (s : conn) :
  exists b s', refresh_tokens E W s = (Ret b, s') /\
    calls "refresh_tokens" (trace s') = S (calls "refresh_tokens" (trace s)).
Proof.
  unfold refresh_tokens, bind, try_except, modify, gets, lift, session_request; simpl.
  destruct (dict_item (session_tokens s) "identity") as [identity|e]; simpl.
  2: { do 2 eexists; split; reflexivity. }
  destruct (subscript identity "refresh_token") as [rt|e]; simpl.
  2: { do 2 eexists; split; reflexivity. }
  destruct (w_reply W (sent s)) as [r|e] eqn:Hw; simpl.
  2: { do 2 eexists; split; reflexivity. }
  destruct (status r =? 200); simpl.
  2: { do 2 eexists; split; reflexivity. }
  unfold response_json.
  destruct (json r) as [tokens|]; simpl.
  2: { do 2 eexists; split; reflexivity. }
  destruct (subscript tokens "id_token") as [id_token|e]; simpl.
  2: { do 2 eexists; split; reflexivity. }
  match goal with |- context [verify_tokens E W id_token "identity" ?s1] =>
    destruct (verify_identity_run id_token s1) as (rv & sv & Hv & Hsame & _ & _ & Hcalls & _);
    rewrite Hv; specialize (Hcalls "refresh_tokens"); simpl in Hcalls
  end.
  destruct Hsame as (_ & Htok & _).
  destruct rv as [ok|e]; simpl.
  2: { do 2 eexists; split; [reflexivity|]. simpl. exact Hcalls. }
  assert (Hc2 : forall s0 : conn, (if negb ok then log "warning" "Token could not be verified!" else ret ()) s0
             = (Ret tt, if negb ok then emit (EvLog "warning" "Token could not be verified!") s0 else s0)).
  { intros; destruct ok; reflexivity. }
  rewrite Hc2.
  assert (Hc3 : calls "refresh_tokens" (trace (if negb ok then emit (EvLog "warning" "Token could not be verified!") sv else sv))
                = S (calls "refresh_tokens" (trace s))).
  { destruct ok; simpl; exact Hcalls. }
  set (s2 := if negb ok then _ else sv) in *. clearbody s2.
  destruct (dict_item (session_tokens s2) "identity") as [identity2|e]; simpl.
  2: { do 2 eexists; split; [reflexivity|]. simpl. exact Hc3. }
  destruct tokens; simpl; try (do 2 eexists; split; [reflexivity|]; simpl; exact Hc3).
  destruct identity2; simpl; try (do 2 eexists; split; [reflexivity|]; simpl; exact Hc3).
  unfold dict_item at 1. rewrite lookup_insert_eq. simpl.
  match goal with |- context [dict_item ?m "access_token"] => destruct (dict_item m "access_token") as [a|e] end; simpl.
  2: { do 2 eexists; split; [reflexivity|]. simpl. exact Hc3. }
  destruct (bearer a); simpl; do 2 eexists; (split; [reflexivity|]); simpl; exact Hc3.
Qed.

Lemma merge_tokens_lookup (new old : gmap string jvalue) (k : string) :
  merge_tokens new old !! k =
    match new !! k with
    | Some v => Some v
    | None => old !! k
    end.
Proof.
  unfold merge_tokens. revert k.
  apply (map_fold_weak_ind
           (fun (r : gmap string jvalue) (m : gmap string jvalue) =>
              forall k, r !! k = match m !! k with Some v => Some v | None => old !! k end)).
  - intros k. by rewrite lookup_empty.
  - intros i x m r Hnone IH k.
    destruct (decide (i = k)) as [->|Hne].
    + by rewrite !lookup_insert_eq.
    + rewrite !lookup_insert_ne by done. apply IH.
Qed.

(** Line 872: the sum is returned when it is a datetime. *)
Lemma datetime_add_in_range (t d : Z) :
  DATETIME_MIN <= t + d <= DATETIME_MAX -> datetime_add t d = Ret (t + d).
Proof.
  intros [Hlo Hhi]. unfold datetime_add.
  destruct (Z.leb_spec DATETIME_MIN (t + d)); [|lia].
  destruct (Z.leb_spec (t + d) DATETIME_MAX); [|lia].
  reflexivity.
Qed.

(** Line 872: [OverflowError] otherwise. *)
Lemma datetime_add_out_of_range (t d : Z) :
  t + d < DATETIME_MIN \/ DATETIME_MAX < t + d -> datetime_add t d = Raise OverflowError.
Proof.
  intros H. unfold datetime_add.
  destruct (Z.leb_spec DATETIME_MIN (t + d)); [|reflexivity].
  destruct (Z.leb_spec (t + d) DATETIME_MAX); [lia|reflexivity].
Qed.

(** [validate_tokens] once the expiries are decoded: the clock is read, line
    872 is evaluated, and only then the tests of lines 875 and 882 run. *)
Lemma validate_tokens_after_expiries (s : conn) (id_dt at_dt : Z) :
  token_expiries E s = (Ret (id_dt, at_dt), s) ->
  let now := w_now W (clock s) in
  let s1 := set_clock (S (clock s)) s in
  validate_tokens E W s =
    match datetime_add now (session_refresh_interval s) with
    | Raise e => (Raise e, s1)
    | Ret later =>
        if (id_dt <=? now) || (at_dt <=? now) then
          (log "debug" "Tokens have expired. Try to fetch new tokens." ;;;
           ok <- refresh_tokens E W ;;
           if ok then log "debug" "Successfully refreshed tokens" ;;; ret true
           else ret false) s1
        else if (id_dt <=? later) || (at_dt <=? later) then
          (log "debug" "Tokens about to expire. Try to fetch new tokens." ;;;
           ok <- refresh_tokens E W ;;
           if ok then log "debug" "Successfully refreshed tokens" ;;; ret true
           else ret false) s1
        else (Ret true, s1)
    end.
Proof.
  intros Hexp now0 s1.
  unfold validate_tokens. unfold bind at 1. rewrite Hexp.
  unfold bind at 1, now. unfold bind at 1, gets. unfold bind at 1, lift.
  fold now0. simpl session_refresh_interval. fold s1.
  destruct (datetime_add now0 (session_refresh_interval s)) as [later|e]; [|reflexivity].
  destruct ((id_dt <=? now0) || (at_dt <=? now0)); [reflexivity|].
  destruct ((id_dt <=? later) || (at_dt <=? later)); reflexivity.
Qed.

(** C1, as amended. Let the expiries of the identity and access tokens
    decode to [id_dt] and [at_dt], and let [later] be [now + refreshInterval].
    While [later] is a datetime (between [datetime.min] and [datetime.max]):
    if [now] and [later] are both before both expiries, [validate_tokens]
    returns valid and the only thing it consumed is one reading of the clock,
    no refresh call and no request; if [now] is at or past either expiry,
    [refresh_tokens] is entered exactly once and the result is what that
    refresh returned. When [later] is no datetime, line 872 raises
    OverflowError before either test: nothing is returned, [refresh_tokens]
    is not entered and no request is sent. *)
Theorem validate_tokens_fresh_or_expired (s : conn) (id_dt at_dt : Z) :
  token_expiries E s = (Ret (id_dt, at_dt), s) ->
  let now := w_now W (clock s) in
  let later := now + session_refresh_interval s in
  let s1 := set_clock (S (clock s)) s in
  (DATETIME_MIN <= later <= DATETIME_MAX ->
   now < id_dt -> now < at_dt -> later < id_dt -> later < at_dt ->
     validate_tokens E W s = (Ret true, s1)) /\
  (DATETIME_MIN <= later <= DATETIME_MAX ->
   id_dt <= now \/ at_dt <= now ->
     exists ok s2,
       refresh_tokens E W
         (emit (EvLog "debug" "Tokens have expired. Try to fetch new tokens.") s1) = (Ret ok, s2) /\
       validate_tokens E W s =
         (Ret ok, if ok then emit (EvLog "debug" "Successfully refreshed tokens") s2 else s2) /\
       calls "refresh_tokens" (trace (snd (validate_tokens E W s))) =
         S (calls "refresh_tokens" (trace s))) /\
  (later < DATETIME_MIN \/ DATETIME_MAX < later ->
     validate_tokens E W s = (Raise OverflowError, s1)).
Proof.
  intros Hexp now0 later s1.
  pose proof (validate_tokens_after_expiries s id_dt at_dt Hexp) as Hrun.
  cbv zeta in Hrun. fold now0 in Hrun. fold s1 in Hrun.
  split; [|split].
  - intros Hrange H1 H2 H3 H4.
    rewrite Hrun, (datetime_add_in_range _ _ Hrange). fold later.
    destruct (Z.leb_spec id_dt now0); [lia|].
    destruct (Z.leb_spec at_dt now0); [lia|].
    destruct (Z.leb_spec id_dt later); [lia|].
    destruct (Z.leb_spec at_dt later); [lia|].
    reflexivity.
  - intros Hrange Hpast.
    destruct (refresh_tokens_run
                (emit (EvLog "debug" "Tokens have expired. Try to fetch new tokens.") s1))
      as (ok & s2 & Hr & Hcalls).
    exists ok, s2. split; [exact Hr|].
    assert (Hv : validate_tokens E W s =
         (Ret ok, if ok then emit (EvLog "debug" "Successfully refreshed tokens") s2 else s2)).
    { rewrite Hrun, (datetime_add_in_range _ _ Hrange).
      assert (Hb : (id_dt <=? now0) || (at_dt <=? now0) = true).
      { destruct Hpast; [apply orb_true_iff; left|apply orb_true_iff; right]; lia. }
      rewrite Hb. unfold bind at 1, log, modify. unfold bind at 1. rewrite Hr.
      destruct ok; reflexivity. }
    split; [exact Hv|]. rewrite Hv. simpl in *.
    destruct ok; simpl; exact Hcalls.
  - intros Hout.
    rewrite Hrun, (datetime_add_out_of_range _ _ Hout). reflexivity.
Qed.

(** C2. When the token endpoint answers with a status other than 200, or the
    transport raises, [refresh_tokens] returns false without raising and the
    token sets, the headers and the logged-in flag are what they were. *)
Theorem refresh_failure_keeps_tokens (s : conn) :
  (forall r, w_reply W (sent s) = Reply r -> status r <> 200) ->
  exists s', refresh_tokens E W s = (Ret false, s') /\
    session_tokens s' = session_tokens s /\
    session_headers s' = session_headers s /\
    session_logged_in s' = session_logged_in s.
Proof.
  intros Hreply.
  unfold refresh_tokens, bind, try_except, modify, gets, lift, session_request; simpl.
  destruct (dict_item (session_tokens s) "identity") as [identity|e]; simpl.
  2: { eexists; split; [reflexivity|]. repeat split. }
  destruct (subscript identity "refresh_token") as [rt|e]; simpl.
  2: { eexists; split; [reflexivity|]. repeat split. }
  destruct (w_reply W (sent s)) as [r|e] eqn:Hw; simpl.
  2: { eexists; split; [reflexivity|]. repeat split. }
  specialize (Hreply r eq_refl).
  destruct (Z.eqb_spec (status r) 200); [contradiction|]; simpl.
  eexists; split; [reflexivity|]. repeat split.
Qed.

(** C7, as amended. When the token endpoint answers 200 with a JSON object
    [B] that holds an [id_token] and a string [access_token], and the JWKS
    document of the advisory verification is fetched and decoded, then
    whatever the verification says [refresh_tokens] returns true, every key
    of [B] overwrites the key of the identity token set, every other key
    keeps its value, and Authorization becomes "Bearer " followed by the new
    access token. *)
Theorem refresh_success_merges (s : conn) (r jwks : response)
    (old B : gmap string jvalue) (id_token keys : jvalue) (a : string) :
  session_tokens s !! "identity" = Some (JObj old) ->
  is_Some (old !! "refresh_token") ->
  w_reply W (sent s) = Reply r -> status r = 200 -> json r = Some (JObj B) ->
  B !! "id_token" = Some id_token ->
  B !! "access_token" = Some (JStr a) ->
  w_reply W (S (sent s)) = Reply jwks -> json jwks = Some keys ->
  exists s' merged,
    refresh_tokens E W s = (Ret true, s') /\
    session_tokens s' = <["identity" := JObj merged]> (session_tokens s) /\
    (forall k v, B !! k = Some v -> merged !! k = Some v) /\
    (forall k, B !! k = None -> merged !! k = old !! k) /\
    session_headers s' = <["Authorization" := "Bearer " ++ a]> (session_headers s) /\
    session_logged_in s' = session_logged_in s.
Proof.
  intros Hid [rt Hrt] Hw Hst Hjson Hidt Hacc Hw2 Hkeys.
  exists (set_headers (<["Authorization" := "Bearer " ++ a]> (session_headers s))
            (set_tokens (<["identity" := JObj (merge_tokens B old)]> (session_tokens s))
               ((if negb (jwt_verify E keys id_token)
                 then fun s0 => emit (EvLog "warning" "Token could not be verified!")
                                  (emit (EvLog "debug" "Failed to verify token") s0)
                 else fun s0 => s0)
                  (emit (EvRequest "GET" "https://identity.vwgroup.io/v1/jwks")
                     (set_sent (S (S (sent s)))
                        (set_service_status (<["token" := "Up"]> (service_status s))
                           (emit (EvRequest "POST" token_url)
                              (set_sent (S (sent s)) (emit (EvCall "refresh_tokens") s))))))))),
    (merge_tokens B old).
  split.
  - unfold refresh_tokens, bind, try_except, modify, gets, lift, session_request; simpl.
    unfold dict_item at 1. rewrite Hid; simpl.
    unfold dict_item at 1. rewrite Hrt; simpl.
    rewrite Hw; simpl. rewrite Hst; simpl.
    unfold response_json at 1. rewrite Hjson; simpl.
    unfold dict_item at 1. rewrite Hidt; simpl.
    unfold verify_tokens, bind, session_request, response_json; simpl.
    rewrite Hw2; simpl. rewrite Hkeys; simpl.
    destruct (jwt_verify E keys id_token); simpl;
      unfold dict_item; rewrite Hid; simpl;
      rewrite lookup_insert_eq; simpl;
      unfold dict_item; rewrite merge_tokens_lookup, Hacc; simpl; reflexivity.
  - split; [destruct (jwt_verify E keys id_token); reflexivity|].
    split; [intros k v Hk; by rewrite merge_tokens_lookup, Hk|].
    split; [intros k Hk; by rewrite merge_tokens_lookup, Hk|].
    split; destruct (jwt_verify E keys id_token); reflexivity.
Qed.

(** C10. Before any successful login there is no "identity" token set:
    [validate_tokens] then raises KeyError instead of returning false, and
    [validate_login], which handles OSError only, lets it through. The
    session is not touched. *)
Theorem validate_before_login_raises (s : conn) :
  session_tokens s !! "identity" = None ->
  validate_tokens E W s = (Raise (KeyError "identity"), s) /\
  validate_login E W s = (Raise (KeyError "identity"), s) /\
  is_OSError (KeyError "identity") = false.
Proof.
  intros Hnone.
  assert (Hv : validate_tokens E W s = (Raise (KeyError "identity"), s)).
  { unfold validate_tokens, token_expiries, bind, gets, lift, dict_item.
    rewrite Hnone. reflexivity. }
  split; [exact Hv|]. split; [|reflexivity].
  unfold validate_login, try_except, bind. rewrite Hv. reflexivity.
Qed.

End TokenProperties.

(** ** The request executor *)

Section ExecutorProperties.
Context (W : world).

Ltac use_status :=
  match goal with
  | |- context [update_service_status ?u ?c ?s0] =>
      let s' := fresh "su" in
      let H := fresh "Hu" in
      let Hsame := fresh "Hsame" in
      let Hsent := fresh "Hsent" in
      let Hdrawn := fresh "Hdrawn" in
      let Hdel := fresh "Hdel" in
      destruct (update_service_status_run u c s0)
        as (s' & H & Hsame & Hsent & Hdrawn & _ & Hdel & _ & _);
      rewrite H; simpl in Hsame, Hsent, Hdrawn, Hdel
  end.

Ltac close_run :=
  do 2 eexists; split; [reflexivity|]; simpl;
  repeat match goal with H : same_session _ _ |- _ => destruct H as (?&?&?&?&?&?) end;
  simpl in *;
  repeat split; try congruence; eauto;
  try (eexists; split; [reflexivity|]; first [reflexivity | discriminate | congruence]).

Lemma _request_run (method url : string) (raw : bool) (s : conn) :
  exists r s', _request W method url raw s = (r, s') /\
    same_session s s' /\ sent s' = S (sent s) /\ drawn s' = drawn s /\
    delays (trace s') = delays (trace s) /\
    match w_reply W (sent s) with
    | Fails e => r = Raise e
    | Reply q =>
        if 400 <=? status q then r = Raise (ClientResponseError (status q))
        else exists v, r = Ret v /\ (raw = true -> v = PResp q)
    end.
Proof.
  unfold _request, bind, try_except, log, modify, session_request; simpl.
  destruct (w_reply W (sent s)) as [q|e]; simpl.
  - destruct (400 <=? status q) eqn:H400; simpl.
    + use_status. close_run.
    + use_status.
      destruct (status q =? 204); simpl.
      { destruct raw; close_run. }
      destruct ((200 <=? status q) || (status q <=? 300)); simpl.
      * unfold response_json. destruct (json q); simpl; destruct raw; close_run.
      * destruct raw; close_run.
  - destruct e; use_status; close_run.
Qed.

Lemma randint_run (a b : Z) (s : conn) :
  (b < a /\ randint W a b s = (Raise ValueError, s)) \/
  (a <= b /\ exists d, a <= d <= b /\
     randint W a b s = (Ret d, set_drawn (S (drawn s)) s)).
Proof.
  unfold randint. destruct (Z.ltb_spec b a); [left; split; [lia|reflexivity]|].
  right. split; [lia|]. eexists; split; [|reflexivity].
  pose proof (Z.mod_pos_bound (Z.of_nat (w_random W (drawn s))) (b - a + 1)). lia.
Qed.


Lemma retry_log_once s s' tries n :
  delays (trace s') = delays (trace s) -> sent s' = S (sent s) ->
  retry_log s s' tries n.
Proof.
  intros Hd Hs. exists []. rewrite app_nil_r. repeat split; simpl; try lia; try done.
Qed.

Lemma retry_log_again s s1 s' tries n d :
  delays (trace s1) = (delays (trace s) ++ [d])%list -> sent s1 = S (sent s) ->
  1 <= d <= 3 + 2 * tries ->
  retry_log s1 s' (tries + 1) n ->
  retry_log s s' tries (S n).
Proof.
  intros Hd Hs Hrange (ds & Hds & Hlen & Hsent & Hall).
  exists (d :: ds). rewrite Hds, Hd, <- app_assoc. simpl.
  split; [reflexivity|]. split; [lia|]. split; [lia|].
  intros [|j] d' Hj; simpl in Hj.
    + injection Hj as <-. lia.
    + specialize (Hall j d' Hj). lia.
Qed.

Lemma depth_S tries n : depth tries = S n -> tries < 3 /\ depth (tries + 1) = n.
Proof. unfold depth, MAX_RETRIES_ON_RATE_LIMIT. lia. Qed.

Lemma depth_O tries : depth tries = O -> (tries <? MAX_RETRIES_ON_RATE_LIMIT) = false.
Proof. unfold depth, MAX_RETRIES_ON_RATE_LIMIT. lia. Qed.

(** The recursion bound is never the reason why a call stops: each wrapper
    satisfies the equation of its source. *)
Lemma get_unfold (url vin : string) (tries : Z) (s : conn) :
  get W url vin tries s = get_body W (get W url vin) url vin tries s.
Proof.
  unfold get at 1. destruct (depth tries) as [|n] eqn:Hdepth; simpl;
    unfold get_body, try_except; destruct (_request W "GET" (_make_url url vin) false s) as [[v|e] s1];
    try reflexivity; destruct e; try reflexivity.
  - rewrite (depth_O _ Hdepth), andb_false_r. reflexivity.
  - destruct (depth_S _ _ Hdepth) as [_ Hd']. unfold get. rewrite Hd'. reflexivity.
Qed.

Lemma send_unfold (method url vin : string) (tries : Z) (raw : bool) (s : conn) :
  send_rec W method (depth tries) url vin tries raw s =
  send_body W method (fun t => send_rec W method (depth t) url vin t raw) url vin tries raw s.
Proof.
  destruct (depth tries) as [|n] eqn:Hdepth; simpl;
    unfold send_body, try_except; destruct (_request W method (_make_url url vin) raw s) as [[v|e] s1];
    try reflexivity; destruct e; try reflexivity.
  - rewrite (depth_O _ Hdepth), andb_false_r. reflexivity.
  - destruct (depth_S _ _ Hdepth) as [_ Hd']. rewrite Hd'. reflexivity.
Qed.

Lemma post_unfold (url vin : string) (tries : Z) (raw : bool) (s : conn) :
  post W url vin tries raw s =
  send_body W "POST" (fun t => post W url vin t raw) url vin tries raw s.
Proof. apply send_unfold. Qed.

Lemma put_unfold (url vin : string) (tries : Z) (raw : bool) (s : conn) :
  put W url vin tries raw s =
  send_body W "PUT" (fun t => put W url vin t raw) url vin tries raw s.
Proof. apply send_unfold. Qed.

Lemma get_rec_bound (url vin : string) (n : nat) :
  forall tries s, depth tries = n ->
  exists r s', get_rec W n url vin tries s = (r, s') /\ retry_log s s' tries n.
Proof.
  induction n as [|n IH]; intros tries s Hdepth.
  - simpl. unfold get_body, try_except, _make_url.
    destruct (_request_run "GET" url false s) as (r & s1 & Hreq & _ & Hsent & _ & Hdel & _).
    rewrite Hreq. rewrite (depth_O _ Hdepth).
    destruct r as [v|e]; [|destruct e]; simpl;
      try (do 2 eexists; split; [reflexivity|]; by apply retry_log_once).
    rewrite andb_false_r.
    repeat match goal with |- context [?a =? ?b] => destruct (a =? b) end;
      do 2 eexists; (split; [reflexivity|]); by apply retry_log_once.
  - destruct (depth_S _ _ Hdepth) as [Hlt Hd'].
    simpl. unfold get_body, try_except, _make_url.
    destruct (_request_run "GET" url false s) as (r & s1 & Hreq & _ & Hsent & _ & Hdel & _).
    rewrite Hreq.
    destruct r as [v|e]; [|destruct e]; simpl;
      try (do 2 eexists; split; [reflexivity|]; by apply retry_log_once).
    match goal with |- context [?x =? 400] => destruct (x =? 400) end; simpl;
      [do 2 eexists; split; [reflexivity|]; by apply retry_log_once|].
    match goal with |- context [?x =? 401] => destruct (x =? 401) end; simpl;
      [do 2 eexists; split; [reflexivity|]; by apply retry_log_once|].
    match goal with |- context [(?x =? 429) && ?c] => destruct ((x =? 429) && c) end; simpl.
    + unfold bind.
      destruct (randint_run 1 (3 + tries * 2) s1) as [[_ Hr]|[_ (d & Hrange & Hr)]]; rewrite Hr.
      * do 2 eexists; split; [reflexivity|]; by apply retry_log_once.
      * simpl.
        match goal with |- context [get_rec W n url vin (tries + 1) ?s2] =>
          destruct (IH (tries + 1) s2 Hd') as (r' & s' & Hrec & Hlog); rewrite Hrec
        end.
        do 2 eexists; split; [reflexivity|].
        eapply retry_log_again; [| |split; [apply Hrange|]|exact Hlog]; simpl; try lia.
        by rewrite Hdel.
    + repeat match goal with |- context [?a =? ?b] => destruct (a =? b) end;
        do 2 eexists; (split; [reflexivity|]); by apply retry_log_once.
Qed.

Lemma send_rec_bound (method url vin : string) (raw : bool) (n : nat) :
  forall tries s, depth tries = n ->
  exists r s', send_rec W method n url vin tries raw s = (r, s') /\ retry_log s s' tries n.
Proof.
  induction n as [|n IH]; intros tries s Hdepth.
  - simpl. unfold send_body, try_except, _make_url.
    destruct (_request_run method url raw s) as (r & s1 & Hreq & _ & Hsent & _ & Hdel & _).
    rewrite Hreq. rewrite (depth_O _ Hdepth).
    destruct r as [v|e]; [|destruct e]; simpl;
      try (do 2 eexists; split; [reflexivity|]; by apply retry_log_once).
    rewrite andb_false_r.
    do 2 eexists; (split; [reflexivity|]); by apply retry_log_once.
  - destruct (depth_S _ _ Hdepth) as [Hlt Hd'].
    simpl. unfold send_body, try_except, _make_url.
    destruct (_request_run method url raw s) as (r & s1 & Hreq & _ & Hsent & _ & Hdel & _).
    rewrite Hreq.
    destruct r as [v|e]; [|destruct e]; simpl;
      try (do 2 eexists; split; [reflexivity|]; by apply retry_log_once).
    match goal with |- context [(?x =? 429) && ?c] => destruct ((x =? 429) && c) end; simpl.
    + unfold bind.
      destruct (randint_run 1 (3 + tries * 2) s1) as [[_ Hr]|[_ (d & Hrange & Hr)]]; rewrite Hr.
      * do 2 eexists; split; [reflexivity|]; by apply retry_log_once.
      * simpl.
        match goal with |- context [send_rec W method n url vin (tries + 1) raw ?s2] =>
          destruct (IH (tries + 1) s2 Hd') as (r' & s' & Hrec & Hlog); rewrite Hrec
        end.
        do 2 eexists; split; [reflexivity|].
        eapply retry_log_again; [| |split; [apply Hrange|]|exact Hlog]; simpl; try lia.
        by rewrite Hdel.
    + do 2 eexists; (split; [reflexivity|]); by apply retry_log_once.
Qed.


Lemma throttles_now s n :
  throttles W s n -> exists q, w_reply W (sent s) = Reply q /\ status q = 429.
Proof. intros H. destruct (H O) as (q & Hq & Hst); [lia|]. rewrite Nat.add_0_r in Hq. eauto. Qed.

Lemma throttles_next s s' n :
  throttles W s (S n) -> sent s' = S (sent s) -> throttles W s' n.
Proof.
  intros H Hs i Hi. destruct (H (S i)) as (q & Hq & Hst); [lia|].
  exists q. split; [|exact Hst]. rewrite Hs. rewrite <- Hq. f_equal. lia.
Qed.

Lemma request_throttled (method url : string) (raw : bool) (s : conn) :
  (exists q, w_reply W (sent s) = Reply q /\ status q = 429) ->
  exists s', _request W method url raw s = (Raise (ClientResponseError 429), s') /\
    same_session s s' /\ sent s' = S (sent s) /\ drawn s' = drawn s /\
    delays (trace s') = delays (trace s).
Proof.
  intros (q & Hq & Hst).
  destruct (_request_run method url raw s) as (r & s1 & Hreq & Hsame & Hsent & Hdrawn & Hdel & Hr).
  rewrite Hq, Hst in Hr. simpl in Hr. subst r. eauto 10.
Qed.

Lemma get_rec_exhausted (url vin : string) (n : nat) :
  forall tries s, depth tries = n -> 0 <= tries -> throttles W s n ->
  exists s', get_rec W n url vin tries s = (Ret (PJson (status_envelope 429)), s') /\
    sent s' = (sent s + n + 1)%nat /\
    session_logged_in s' = session_logged_in s.
Proof.
  induction n as [|n IH]; intros tries s Hdepth Hpos Hthr.
  - simpl. unfold get_body, try_except, _make_url.
    destruct (request_throttled "GET" url false s (throttles_now _ _ Hthr))
      as (s1 & Hreq & Hsame & Hsent & _).
    rewrite Hreq. simpl. rewrite (depth_O _ Hdepth). simpl.
    eexists; split; [reflexivity|]. simpl. split; [lia|]. apply Hsame.
  - destruct (depth_S _ _ Hdepth) as [Hlt Hd'].
    simpl. unfold get_body, try_except, _make_url.
    destruct (request_throttled "GET" url false s (throttles_now _ _ Hthr))
      as (s1 & Hreq & Hsame & Hsent & _).
    rewrite Hreq. simpl.
    destruct (Z.ltb_spec tries MAX_RETRIES_ON_RATE_LIMIT);
      [|unfold MAX_RETRIES_ON_RATE_LIMIT in *; lia]. simpl.
    unfold bind.
    destruct (randint_run 1 (3 + tries * 2) s1) as [[Hbad _]|[_ (d & Hrange & Hr)]]; [lia|].
    rewrite Hr. simpl.
    match goal with |- context [get_rec W n url vin (tries + 1) ?s2] =>
      destruct (IH (tries + 1) s2 Hd') as (s' & Hrec & Hs' & Hlogged);
        [lia|eapply throttles_next; [exact Hthr|exact Hsent]|]; rewrite Hrec
    end.
    eexists; split; [reflexivity|]. simpl in *. split; [lia|].
    rewrite Hlogged. apply Hsame.
Qed.

Lemma send_rec_exhausted (method url vin : string) (raw : bool) (n : nat) :
  forall tries s, depth tries = n -> 0 <= tries -> throttles W s n ->
  exists s', send_rec W method n url vin tries raw s = (Raise (ClientResponseError 429), s') /\
    sent s' = (sent s + n + 1)%nat /\
    session_logged_in s' = session_logged_in s.
Proof.
  induction n as [|n IH]; intros tries s Hdepth Hpos Hthr.
  - simpl. unfold send_body, try_except, _make_url.
    destruct (request_throttled method url raw s (throttles_now _ _ Hthr))
      as (s1 & Hreq & Hsame & Hsent & _).
    rewrite Hreq. simpl. rewrite (depth_O _ Hdepth). simpl.
    eexists; split; [reflexivity|]. simpl. split; [lia|]. apply Hsame.
  - destruct (depth_S _ _ Hdepth) as [Hlt Hd'].
    simpl. unfold send_body, try_except, _make_url.
    destruct (request_throttled method url raw s (throttles_now _ _ Hthr))
      as (s1 & Hreq & Hsame & Hsent & _).
    rewrite Hreq. simpl.
    destruct (Z.ltb_spec tries MAX_RETRIES_ON_RATE_LIMIT);
      [|unfold MAX_RETRIES_ON_RATE_LIMIT in *; lia]. simpl.
    unfold bind.
    destruct (randint_run 1 (3 + tries * 2) s1) as [[Hbad _]|[_ (d & Hrange & Hr)]]; [lia|].
    rewrite Hr. simpl.
    match goal with |- context [send_rec W method n url vin (tries + 1) raw ?s2] =>
      destruct (IH (tries + 1) s2 Hd') as (s' & Hrec & Hs' & Hlogged);
        [lia|eapply throttles_next; [exact Hthr|exact Hsent]|]; rewrite Hrec
    end.
    eexists; split; [reflexivity|]. simpl in *. split; [lia|].
    rewrite Hlogged. apply Hsame.
Qed.

(** C3, as amended. Called with [tries = 0], each of [get], [post] and [put]
    sleeps at most [MAX_RETRIES_ON_RATE_LIMIT] = 3 times, sends one request
    more than it slept, and the delay before retry number [i] (from 0) lies
    in [1, 3 + 2 * i]. When the server keeps answering 429 the budget is used
    up after four requests: [post] and [put] then raise the
    ClientResponseError to the caller, while [get] returns the status
    envelope {"status_code": 429}. *)
Theorem rate_limit_retry (url vin : string) (raw : bool) (s : conn) :
  (exists r s', get W url vin 0 s = (r, s') /\ retry_log s s' 0 3) /\
  (exists r s', post W url vin 0 raw s = (r, s') /\ retry_log s s' 0 3) /\
  (exists r s', put W url vin 0 raw s = (r, s') /\ retry_log s s' 0 3) /\
  (throttles W s 3 ->
     (exists s', get W url vin 0 s = (Ret (PJson (status_envelope 429)), s') /\
        sent s' = (sent s + 4)%nat) /\
     (exists s', post W url vin 0 raw s = (Raise (ClientResponseError 429), s') /\
        sent s' = (sent s + 4)%nat) /\
     (exists s', put W url vin 0 raw s = (Raise (ClientResponseError 429), s') /\
        sent s' = (sent s + 4)%nat)).
Proof.
  split; [apply (get_rec_bound url vin 3 0 s); reflexivity|].
  split; [apply (send_rec_bound "POST" url vin raw 3 0 s); reflexivity|].
  split; [apply (send_rec_bound "PUT" url vin raw 3 0 s); reflexivity|].
  intros Hthr. repeat split.
  - destruct (get_rec_exhausted url vin 3 0 s eq_refl ltac:(lia) Hthr) as (s' & H & Hs & _).
    exists s'. split; [exact H|lia].
  - destruct (send_rec_exhausted "POST" url vin raw 3 0 s eq_refl ltac:(lia) Hthr) as (s' & H & Hs & _).
    exists s'. split; [exact H|lia].
  - destruct (send_rec_exhausted "PUT" url vin raw 3 0 s eq_refl ltac:(lia) Hthr) as (s' & H & Hs & _).
    exists s'. split; [exact H|lia].
Qed.

Lemma request_unauthorized (method url : string) (raw : bool) (s : conn) (q : response) :
  w_reply W (sent s) = Reply q -> status q = 401 ->
  exists s', _request W method url raw s = (Raise (ClientResponseError 401), s') /\
    same_session s s' /\ sent s' = S (sent s) /\ drawn s' = drawn s /\
    delays (trace s') = delays (trace s).
Proof.
  intros Hq Hst.
  destruct (_request_run method url raw s) as (r & s1 & Hreq & Hsame & Hsent & Hdrawn & Hdel & Hr).
  rewrite Hq, Hst in Hr. simpl in Hr. subst r. eauto 10.
Qed.

(** C4, as amended. A 401 answer is never retried: each wrapper sends that
    one request and sleeps not at all. [get] sets the logged-in flag to false
    and returns the envelope {"status_code": 401}; [post] and [put] raise the
    ClientResponseError to the caller and leave the flag as it was. *)
Theorem unauthorized_not_retried (url vin : string) (tries : Z) (raw : bool)
    (s : conn) (q : response) :
  w_reply W (sent s) = Reply q -> status q = 401 ->
  (exists s', get W url vin tries s = (Ret (PJson (status_envelope 401)), s') /\
     session_logged_in s' = false /\
     sent s' = S (sent s) /\ delays (trace s') = delays (trace s)) /\
  (exists s', post W url vin tries raw s = (Raise (ClientResponseError 401), s') /\
     session_logged_in s' = session_logged_in s /\
     sent s' = S (sent s) /\ delays (trace s') = delays (trace s)) /\
  (exists s', put W url vin tries raw s = (Raise (ClientResponseError 401), s') /\
     session_logged_in s' = session_logged_in s /\
     sent s' = S (sent s) /\ delays (trace s') = delays (trace s)).
Proof.
  intros Hq Hst. repeat split.
  - destruct (request_unauthorized "GET" url false s q Hq Hst) as (s1 & Hreq & Hsame & Hsent & _ & Hdel).
    unfold get. destruct (depth tries); simpl;
      unfold get_body, try_except, _make_url; rewrite Hreq; simpl;
      (eexists; split; [reflexivity|]; simpl; repeat split; assumption).
  - destruct (request_unauthorized "POST" url raw s q Hq Hst) as (s1 & Hreq & Hsame & Hsent & _ & Hdel).
    unfold post. destruct (depth tries); simpl;
      unfold send_body, try_except, _make_url; rewrite Hreq; simpl;
      (eexists; split; [reflexivity|]; simpl; repeat split; try assumption; apply Hsame).
  - destruct (request_unauthorized "PUT" url raw s q Hq Hst) as (s1 & Hreq & Hsame & Hsent & _ & Hdel).
    unfold put. destruct (depth tries); simpl;
      unfold send_body, try_except, _make_url; rewrite Hreq; simpl;
      (eexists; split; [reflexivity|]; simpl; repeat split; try assumption; apply Hsame).
Qed.
End ExecutorProperties.

(** ** Login *)

Section LoginProperties.
Context (E : pyenv) (W : world).

Lemma redirects_cons s s' l locs :
  redirects W s (l :: locs) -> sent s' = S (sent s) ->
  (exists q, w_reply W (sent s) = Reply q /\ location q = Some l) /\
  redirects W s' locs.
Proof.
  intros H Hs. split.
  - destruct (H O l eq_refl) as (q & Hq & Hl). rewrite Nat.add_0_r in Hq. eauto.
  - intros i l' Hi. destruct (H (S i) l' Hi) as (q & Hq & Hl).
    exists q. split; [|exact Hl]. rewrite Hs, <- Hq. f_equal. lia.
Qed.

Lemma follow_redirects_exhausted (budget : nat) :
  forall (ref : string) (locs : list string) (s : conn),
  length locs = S budget ->
  redirects W s locs ->
  (forall i, (i <= budget)%nat ->
     startswith (ref_after E ref (take i locs)) (APP_URI E) = false) ->
  exists s',
    follow_redirects E W budget ref s =
      (Ret (ref_after E ref locs, Some (Exception_ "Too many redirects")), s') /\
    sent s' = (sent s + S budget)%nat.
Proof.
  induction budget as [|budget IH]; intros ref locs s Hlen Hred Hnot.
  - destruct locs as [|l [|]]; try discriminate.
    pose proof (Hnot O ltac:(lia)) as H0. simpl in H0.
    simpl. rewrite H0. unfold bind, gets, session_request.
    destruct (redirects_cons s (set_sent (S (sent s)) s) l [] Hred eq_refl)
      as [(q & Hq & Hl) _].
    destruct (session_fulldebug s); simpl; rewrite Hq, Hl; simpl;
      (eexists; split; [reflexivity|]; simpl; lia).
  - destruct locs as [|l locs]; try discriminate.
    pose proof (Hnot O ltac:(lia)) as H0. simpl in H0.
    simpl. rewrite H0. unfold bind, gets, session_request.
    destruct (redirects_cons s (set_sent (S (sent s)) s) l locs Hred eq_refl)
      as [(q & Hq & Hl) Hred'].
    assert (Hnot' : forall i, (i <= budget)%nat ->
              startswith (ref_after E (urljoin E ref l) (take i locs)) (APP_URI E) = false).
    { intros i Hi. apply (Hnot (S i)). lia. }
    destruct (session_fulldebug s); simpl; rewrite Hq, Hl; simpl.
    + match goal with |- context [follow_redirects E W budget _ ?s1] =>
        destruct (IH (urljoin E ref l) locs s1) as (s' & Hrun & Hsent);
          [simpl in Hlen; lia| exact Hred' | exact Hnot' |]
      end.
      rewrite Hrun. eexists; split; [reflexivity|]. simpl in Hsent. lia.
    + match goal with |- context [follow_redirects E W budget _ ?s1] =>
        destruct (IH (urljoin E ref l) locs s1) as (s' & Hrun & Hsent);
          [simpl in Hlen; lia| exact Hred' | exact Hnot' |]
      end.
      rewrite Hrun. eexists; split; [reflexivity|]. simpl in Hsent. lia.
Qed.

Lemma follow_redirects_no_location (budget : nat) (ref : string) (s : conn) (q : response) :
  startswith ref (APP_URI E) = false ->
  w_reply W (sent s) = Reply q -> location q = None ->
  exists s',
    follow_redirects E W budget ref s =
      (Ret (ref, Some (Exception_ "User appears unauthorized")), s') /\
    sent s' = S (sent s).
Proof.
  intros Hnot Hq Hl.
  destruct budget; simpl; rewrite Hnot; unfold bind, gets, session_request;
    destruct (session_fulldebug s); simpl; rewrite Hq, Hl; simpl;
    (eexists; split; [reflexivity|]; reflexivity).
Qed.

Lemma follow_redirects_unauthorized (locs : list string) :
  forall (budget : nat) (ref : string) (s : conn) (q : response),
  (length locs <= budget)%nat ->
  redirects W s locs ->
  w_reply W (sent s + length locs) = Reply q -> location q = None ->
  (forall i, (i <= length locs)%nat ->
     startswith (ref_after E ref (take i locs)) (APP_URI E) = false) ->
  exists s',
    follow_redirects E W budget ref s =
      (Ret (ref_after E ref locs, Some (Exception_ "User appears unauthorized")), s') /\
    sent s' = (sent s + S (length locs))%nat.
Proof.
  induction locs as [|l locs IH]; intros budget ref s q Hlen Hred Hq Hl Hnot.
  - simpl in Hq. rewrite Nat.add_0_r in Hq.
    destruct (follow_redirects_no_location budget ref s q (Hnot O (Nat.le_refl _)) Hq Hl)
      as (s' & H & Hs).
    exists s'. split; [exact H|]. simpl. lia.
  - destruct budget as [|budget]; [simpl in Hlen; lia|].
    pose proof (Hnot O ltac:(lia)) as H0. simpl in H0.
    simpl follow_redirects. rewrite H0. unfold bind, gets, session_request.
    destruct (redirects_cons s (set_sent (S (sent s)) s) l locs Hred eq_refl)
      as [(q0 & Hq0 & Hl0) Hred'].
    assert (Hnot' : forall i, (i <= length locs)%nat ->
              startswith (ref_after E (urljoin E ref l) (take i locs)) (APP_URI E) = false).
    { intros i Hi. apply (Hnot (S i)). simpl. lia. }
    assert (Hq' : w_reply W (S (sent s) + length locs) = Reply q).
    { rewrite <- Hq. f_equal. simpl. lia. }
    destruct (session_fulldebug s); simpl; rewrite Hq0, Hl0; simpl.
    + match goal with |- context [follow_redirects E W budget _ ?s1] =>
        destruct (IH budget (urljoin E ref l) s1 q) as (s' & Hrun & Hsent);
          [simpl in Hlen; lia| exact Hred' | exact Hq' | exact Hl | exact Hnot' |]
      end.
      rewrite Hrun. eexists; split; [reflexivity|]. simpl in Hsent. lia.
    + match goal with |- context [follow_redirects E W budget _ ?s1] =>
        destruct (IH budget (urljoin E ref l) s1 q) as (s' & Hrun & Hsent);
          [simpl in Hlen; lia| exact Hred' | exact Hq' | exact Hl | exact Hnot' |]
      end.
      rewrite Hrun. eexists; split; [reflexivity|]. simpl in Hsent. lia.
Qed.

(** The handler of line 298 lets the exception through when the last URL
    holds neither "error" nor "code". *)
Lemma redirect_failure_reraised (f : front) (ref : string) (e : exn) (s s' : conn) :
  redirect_block E W f s = (Ret (ref, Some e), s') ->
  contains "error" ref = false -> contains "code" ref = false ->
  login_redirects E W f s =
    (Raise e, emit (EvLog "debug" "Exception occurred while logging in.") s').
Proof.
  intros Hblock Herr Hcode.
  unfold login_redirects, bind. rewrite Hblock. simpl.
  unfold redirect_handler. rewrite Herr, Hcode. reflexivity.
Qed.

(** It replaces the exception when the last URL holds "error" (lines
    299-307). *)
Lemma redirect_failure_replaced (f : front) (ref : string) (e : exn) (s s' : conn) :
  redirect_block E W f s = (Ret (ref, Some e), s') ->
  contains "error" ref = true ->
  exists e' s'',
    login_redirects E W f s = (Raise e', s'') /\ sent s'' = sent s' /\
    (e' = IndexError \/
     exists msg, query_first E ref "error" = Ret msg /\ e' = AuthenticationException msg).
Proof.
  intros Hblock Herr.
  unfold login_redirects, bind. rewrite Hblock. simpl.
  unfold redirect_handler. rewrite Herr. unfold bind, lift, log, modify, raise.
  destruct (query_first E ref "error") as [msg|e0] eqn:Hmsg.
  2: { unfold query_first in Hmsg.
       destruct (parse_qs_get E ref "error") as [[|? ?]|]; try discriminate;
         injection Hmsg as <-; do 2 eexists; (split; [reflexivity|]); split; auto. }
  destruct (String.eqb msg "login.error.throttled").
  - destruct (query_first E ref "enableNextButtonAfterSeconds") as [t|e0] eqn:Ht.
    + do 2 eexists. split; [reflexivity|]. split; [reflexivity|]. right. eauto.
    + unfold query_first in Ht.
      destruct (parse_qs_get E ref "enableNextButtonAfterSeconds") as [[|? ?]|];
        try discriminate; injection Ht as <-;
        do 2 eexists; (split; [reflexivity|]); split; auto.
  - destruct (String.eqb msg "login.errors.password_invalid");
      do 2 eexists; (split; [reflexivity|]); (split; [reflexivity|]); right; eauto.
Qed.

(** It drops the exception when the last URL holds "code" and not "error"
    (lines 308-309): the flow goes on to line 315 and to the token exchange. *)
Lemma redirect_failure_dropped (f : front) (ref : string) (e : exn) (s s' : conn) :
  redirect_block E W f s = (Ret (ref, Some e), s') ->
  contains "error" ref = false -> contains "code" ref = true ->
  login_redirects E W f s =
    (Ret ref, emit (EvLog "debug" "Login successful, received authorization code.")
                (emit (EvLog "debug" "Got code") s')).
Proof.
  intros Hblock Herr Hcode.
  unfold login_redirects, bind. rewrite Hblock. simpl.
  unfold redirect_handler. rewrite Herr, Hcode. reflexivity.
Qed.

(** An exception that leaves lines 280-315 ends the attempt in the handler
    of line 352. *)
Lemma redirect_failure_aborts (client : string) (f : front) (e : exn) (s0 s s' : conn) :
  login_front E W s0 = (Ret (Some f), s) ->
  login_redirects E W f s = (Raise e, s') ->
  login_aborts E W client s0 e (sent s').
Proof.
  intros Hfront Hred.
  unfold login_aborts, _login, bind at 1, try_except. unfold bind at 1. rewrite Hfront.
  unfold bind at 1. rewrite Hred. simpl.
  eexists. split; [reflexivity|]. repeat split; reflexivity.
Qed.

(** [_login] then logs the exception, marks the session logged out and
    returns False. *)
Lemma redirect_failure_fails_login (client : string) (f : front) (ref : string) (e : exn)
    (s s1 s2 : conn) :
  login_front E W s = (Ret (Some f), s1) ->
  redirect_block E W f s1 = (Ret (ref, Some e), s2) ->
  contains "error" ref = false -> contains "code" ref = false ->
  exists s',
    _login E W client s = (Ret false, s') /\
    session_logged_in s' = false /\
    head (trace s') = Some (EvLogError "error" "Login failed for account" e).
Proof.
  intros Hfront Hblock Herr Hcode.
  pose proof (redirect_failure_reraised f ref e s1 s2 Hblock Herr Hcode) as Hred.
  destruct (redirect_failure_aborts client f e s s1 _ Hfront Hred) as (s' & H & Hl & Ht & _).
  exists s'. by repeat split.
Qed.

(** C6, as amended. Let the first part of [_login] reach the redirect phase
    (lines 280-315) with a password response that carries a Location header.
    When the next ten answers are redirects and none of the ten URLs requested
    begins with APP_URI, the block of lines 280-297 raises
    Exception("Too many redirects") after exactly ten requests; when fewer
    than ten redirects are followed by an answer without Location, it raises
    Exception("User appears unauthorized") at that hop. In both cases the
    login attempt aborts with that exception, without a further request, if
    the last URL holds neither "error" nor "code". For every exception that
    ends the block: if the last URL holds "error" the attempt aborts with
    another exception (AuthenticationException, or the IndexError of a missing
    query parameter); if it holds "code" and not "error" the exception is
    dropped and the flow goes on to the token exchange with that URL. *)
Theorem redirect_hop_budget (client : string) (s0 s : conn) (f : front) (l0 : string) :
  login_front E W s0 = (Ret (Some f), s) ->
  headers (f_req f) !! "Location" = Some l0 ->
  let ref0 := urljoin E (f_pw_url f) l0 in
  (forall locs : list string,
     length locs = 10%nat ->
     redirects W s locs ->
     (forall i, (i < 10)%nat ->
        startswith (ref_after E ref0 (take i locs)) (APP_URI E) = false) ->
     let ref := ref_after E ref0 locs in
     exists s',
       redirect_block E W f s = (Ret (ref, Some (Exception_ "Too many redirects")), s') /\
       sent s' = (sent s + 10)%nat /\
       (contains "error" ref = false -> contains "code" ref = false ->
          login_aborts E W client s0 (Exception_ "Too many redirects") (sent s + 10))) /\
  (forall (locs : list string) (q : response),
     (length locs < 10)%nat ->
     redirects W s locs ->
     w_reply W (sent s + length locs) = Reply q -> location q = None ->
     (forall i, (i <= length locs)%nat ->
        startswith (ref_after E ref0 (take i locs)) (APP_URI E) = false) ->
     let ref := ref_after E ref0 locs in
     exists s',
       redirect_block E W f s = (Ret (ref, Some (Exception_ "User appears unauthorized")), s') /\
       sent s' = (sent s + S (length locs))%nat /\
       (contains "error" ref = false -> contains "code" ref = false ->
          login_aborts E W client s0 (Exception_ "User appears unauthorized")
            (sent s + S (length locs)))) /\
  (forall (ref : string) (e : exn) (s' : conn),
     redirect_block E W f s = (Ret (ref, Some e), s') ->
     (contains "error" ref = true ->
        exists e', login_aborts E W client s0 e' (sent s') /\
          (e' = IndexError \/
           exists msg, query_first E ref "error" = Ret msg /\
                       e' = AuthenticationException msg)) /\
     (contains "error" ref = false -> contains "code" ref = true ->
        login_redirects E W f s =
          (Ret ref, emit (EvLog "debug" "Login successful, received authorization code.")
                      (emit (EvLog "debug" "Got code") s')))).
Proof.
  intros Hfront Hloc ref0.
  assert (Habort : forall ref e s',
            redirect_block E W f s = (Ret (ref, Some e), s') ->
            contains "error" ref = false -> contains "code" ref = false ->
            login_aborts E W client s0 e (sent s')).
  { intros ref e s' Hblock Herr Hcode.
    pose proof (redirect_failure_reraised f ref e s s' Hblock Herr Hcode) as Hred.
    apply (redirect_failure_aborts client f e s0 s _ Hfront Hred). }
  split; [|split].
  - intros locs Hlen Hred Hnot ref.
    destruct (follow_redirects_exhausted 9 ref0 locs s Hlen Hred) as (s' & Hrun & Hsent).
    { intros i Hi. apply Hnot. lia. }
    exists s'. split; [unfold redirect_block; rewrite Hloc; exact Hrun|].
    split; [exact Hsent|].
    intros Herr Hcode. rewrite <- Hsent.
    apply (Habort ref _ s'); [unfold redirect_block; rewrite Hloc; exact Hrun|exact Herr|exact Hcode].
  - intros locs q Hlen Hred Hq Hl Hnot ref.
    destruct (follow_redirects_unauthorized locs 9 ref0 s q) as (s' & Hrun & Hsent);
      [unfold max_depth; lia|exact Hred|exact Hq|exact Hl|exact Hnot|].
    exists s'. split; [unfold redirect_block; rewrite Hloc; exact Hrun|].
    split; [exact Hsent|].
    intros Herr Hcode. rewrite <- Hsent.
    apply (Habort ref _ s'); [unfold redirect_block; rewrite Hloc; exact Hrun|exact Herr|exact Hcode].
  - intros ref e s' Hblock. split.
    + intros Herr.
      destruct (redirect_failure_replaced f ref e s s' Hblock Herr) as (e' & s'' & Hred & Hs & He).
      exists e'. split; [|exact He]. rewrite <- Hs.
      apply (redirect_failure_aborts client f e' s0 s _ Hfront Hred).
    + apply (redirect_failure_dropped f ref e s s' Hblock).
Qed.

Lemma login_exchange_run (client : string) (turl ref code : string) (codes : list string)
    (s : conn) (r jwks : response) (B : gmap string jvalue) (keys : jvalue) :
  parse_qs_get E ref "code" = Some (code :: codes) ->
  w_reply W (sent s) = Reply r -> status r = 200 -> json r = Some (JObj B) ->
  B !! "error" = None ->
  w_reply W (S (sent s)) = Reply jwks -> json jwks = Some keys ->
  let verified := jwt_verify E keys (default (JStr "") (B !! "id_token")) in
  exists s',
    login_exchange E W client (JStr turl) ref s = (Ret tt, s') /\
    session_tokens s' = <[client := JObj B]> (session_tokens s) /\
    session_headers s' = session_headers s /\
    session_logged_in s' = (if verified then true else session_logged_in s) /\
    (verified = false ->
       head (trace s') = Some (EvLog "warning" "User identity token could not be verified!")).
Proof.
  intros Hcode Hw Hst Hjson Herr Hw2 Hkeys verified.
  unfold login_exchange, bind, lift, log, modify, gets, session_request.
  rewrite Hcode; simpl. rewrite Hw; simpl. rewrite Hst; simpl.
  unfold response_json at 1. rewrite Hjson; simpl.
  assert (Hin : bool_decide (is_Some (B !! "error")) = false).
  { apply bool_decide_eq_false. rewrite Herr. by intros [? ?]. }
  rewrite Hin; simpl.
  unfold verify_tokens, bind, session_request, response_json, log, modify; simpl.
  assert (Hfd : forall s0 : conn,
            (if session_fulldebug s then (fun s1 => (Ret tt, emit (EvLog "debug" "Got token") s1))
             else ret tt) s0 =
            (Ret tt, if session_fulldebug s then emit (EvLog "debug" "Got token") s0 else s0)).
  { intros; destruct (session_fulldebug s); reflexivity. }
  rewrite Hfd.
  assert (Hsent : forall s0 : conn,
            sent (if session_fulldebug s then emit (EvLog "debug" "Got token") s0 else s0) = sent s0).
  { intros; destruct (session_fulldebug s); reflexivity. }
  rewrite Hsent; simpl. rewrite Hw2; simpl. rewrite Hkeys; simpl.
  fold verified.
  destruct verified; simpl; (eexists; split; [reflexivity|]);
    destruct (session_fulldebug s); simpl; repeat split; try discriminate; reflexivity.
Qed.

(** The fetch of the JWKS document is not part of what is advisory: it
    happens before the [try] block of [verify_tokens], and when it raises the
    login attempt fails. *)
Lemma login_fails_without_jwks (s : conn) (f : front)
    (s1 s2 : conn) (turl ref code : string) (codes : list string)
    (r : response) (B : gmap string jvalue) (e : exn) :
  login_front E W s = (Ret (Some f), s1) ->
  login_redirects E W f s1 = (Ret ref, s2) ->
  f_token_endpoint f = JStr turl ->
  parse_qs_get E ref "code" = Some (code :: codes) ->
  w_reply W (sent s2) = Reply r -> status r = 200 -> json r = Some (JObj B) ->
  B !! "error" = None ->
  w_reply W (S (sent s2)) = Fails e ->
  exists s',
    _login E W "Legacy" s = (Ret false, s') /\
    session_logged_in s' = false /\
    head (trace s') = Some (EvLogError "error" "Login failed for account" e).
Proof.
  intros Hfront Hred Hturl Hcode Hw Hst Hjson Herr Hw2.
  unfold _login, bind at 1, try_except. unfold bind at 1. rewrite Hfront.
  unfold bind at 1. rewrite Hred. rewrite Hturl.
  unfold login_exchange, bind, lift, log, modify, gets, session_request.
  rewrite Hcode; simpl. rewrite Hw; simpl. rewrite Hst; simpl.
  unfold response_json at 1. rewrite Hjson; simpl.
  assert (Hin : bool_decide (is_Some (B !! "error")) = false).
  { apply bool_decide_eq_false. rewrite Herr. by intros [? ?]. }
  rewrite Hin; simpl.
  unfold verify_tokens, bind, session_request, response_json, log, modify; simpl.
  destruct (session_fulldebug s2); simpl; rewrite Hw2; simpl;
    (eexists; split; [reflexivity|]; split; reflexivity).
Qed.

(** C9, as amended. Let the login flow reach the token exchange, the token
    endpoint answer 200 with a token set [B] that has no "error" field and a
    string access token, and the JWKS document be served. Then for either outcome of
    the verification of the identity token, [doLogin] gets past its login
    phase: the session is marked logged in, [B] is stored under "Legacy" and
    mirrored under "identity", and Authorization is "Bearer " followed by the
    access token. A failed verification only leaves a warning in the log. *)
Theorem login_verification_is_advisory (tries : Z) (s : conn) (f : front)
    (s1 s2 : conn) (turl ref code : string) (codes : list string)
    (r jwks : response) (B : gmap string jvalue) (keys : jvalue) (a : string) :
  1 <= tries ->
  (* the flow reaches the token exchange *)
  login_front E W (emit (EvLog "debug" "Initiating new login") s) = (Ret (Some f), s1) ->
  login_redirects E W f s1 = (Ret ref, s2) ->
  f_token_endpoint f = JStr turl ->
  parse_qs_get E ref "code" = Some (code :: codes) ->
  (* the exchange succeeds with the token set B *)
  w_reply W (sent s2) = Reply r -> status r = 200 -> json r = Some (JObj B) ->
  B !! "error" = None -> B !! "access_token" = Some (JStr a) ->
  (* the JWKS document is served; the verification outcome is free *)
  w_reply W (S (sent s2)) = Reply jwks -> json jwks = Some keys ->
  let verified := jwt_verify E keys (default (JStr "") (B !! "id_token")) in
  exists s',
    doLogin_session E W tries s = (Ret true, s') /\
    session_logged_in s' = true /\
    session_tokens s' !! "Legacy" = Some (JObj B) /\
    session_tokens s' !! "identity" = Some (JObj B) /\
    session_headers s' !! "Authorization" = Some ("Bearer " ++ a) /\
    (verified = false ->
       In (EvLog "warning" "User identity token could not be verified!") (trace s')).
Proof.
  intros Htries Hfront Hred Hturl Hcode Hw Hst Hjson Herr Hacc Hw2 Hkeys verified.
  destruct (login_exchange_run "Legacy" turl ref code codes s2 r jwks B keys
              Hcode Hw Hst Hjson Herr Hw2 Hkeys)
    as (s3 & Hex & Htok & Hhead & Hlog & Hwarn).
  fold verified in Hlog, Hwarn.
  assert (Hlogin : _login E W "Legacy" (emit (EvLog "debug" "Initiating new login") s) =
            (Ret true,
             set_headers (<["Authorization" := "Bearer " ++ a]> (session_headers s3)) s3)).
  { unfold _login, bind at 1, try_except. unfold bind at 1. rewrite Hfront.
    unfold bind at 1. rewrite Hred. rewrite Hturl.
    unfold bind at 1. rewrite Hex. simpl.
    unfold bind, gets, lift, modify, dict_item; simpl.
    rewrite Htok, lookup_insert_eq; simpl.
    unfold dict_item. rewrite Hacc; simpl. reflexivity. }
  destruct (Z.to_nat tries) as [|n] eqn:Hn; [lia|].
  eexists. split.
  - unfold doLogin_session, bind at 1, log, modify at 1.
    rewrite Hn. simpl login_attempts.
    unfold bind at 1. unfold bind at 1. rewrite Hlogin. simpl.
    unfold bind, gets, lift, modify, dict_item; simpl.
    rewrite Htok, lookup_insert_eq; simpl. reflexivity.
  - simpl.
    split; [reflexivity|].
    split; [by rewrite lookup_insert_ne, lookup_insert_eq|].
    split; [by rewrite lookup_insert_eq|].
    split; [by rewrite lookup_insert_eq|].
    intros Hv. specialize (Hwarn Hv).
    right. destruct (trace s3) as [|ev t]; [discriminate|].
    injection Hwarn as ->. left. reflexivity.
Qed.

End LoginProperties.

(** ** Actions *)

Section ActionProperties.
Context (E : pyenv) (W : world).

(** The handler yields the sentinel exactly when the decoded body of the
    response, not its status, is the number 429. *)
Lemma handle_action_result_throttled (r : response) (s : conn) :
  fst (_handle_action_result E (PResp r) s) = Ret throttled <->
  json r = Some (JNum 429).
Proof.
  unfold _handle_action_result, bind, response_json.
  destruct (json r) as [v|]; simpl; [|split; discriminate].
  destruct (truthy v) eqn:Ht; simpl; [|split; [discriminate|]].
  2: { intros [= ->]. discriminate. }
  destruct (py_eq_int v 429) eqn:H429.
  - split; [intros _|reflexivity].
    destruct v as [|b|z| | |]; try discriminate.
    + destruct b; discriminate.
    + simpl in H429. apply Z.eqb_eq in H429. by subst z.
  - split; [|intros [= ->]; discriminate].
    unfold lift, log, modify, ret, py_get.
    destruct v; simpl; try discriminate.
    destruct (default (JObj ∅) (m !! "data")); simpl; discriminate.
Qed.

Lemma action_throttled_raises (name : string) (call : M pyval) (s s' : conn) :
  call s = (Raise (ClientResponseError 429), s') ->
  action E name call s =
    (Raise (RaisedFrom ("Unknown error during " ++ name) (ClientResponseError 429)), s').
Proof.
  intros Hcall. unfold action, try_except, bind. rewrite Hcall. reflexivity.
Qed.

(** C8, the behaviour of the code. When the server answers 429 to an action
    and to its three retries, [post] and [put] raise before the handler is
    reached: the action raises Exception("Unknown error during <action>")
    and no sentinel is returned. *)
Theorem action_429_is_not_throttled (vin : string) (start : bool) (s : conn) :
  throttles W s 3 ->
  (exists s', setClimater E W vin start s =
     (Raise (RaisedFrom "Unknown error during setClimater" (ClientResponseError 429)), s')) /\
  (exists s', setClimaterSettings E W vin s =
     (Raise (RaisedFrom "Unknown error during setClimaterSettings" (ClientResponseError 429)), s')) /\
  (exists s', setCharging E W vin start s =
     (Raise (RaisedFrom "Unknown error during setCharging" (ClientResponseError 429)), s')).
Proof.
  intros Hthr. repeat split.
  - unfold setClimater.
    match goal with |- context [post W ?u ?v 0 true] =>
      destruct (send_rec_exhausted W "POST" u v true 3 0 s eq_refl ltac:(lia) Hthr)
        as (s' & Hrun & _)
    end.
    exists s'. apply (action_throttled_raises "setClimater"). exact Hrun.
  - unfold setClimaterSettings.
    match goal with |- context [put W ?u ?v 0 true] =>
      destruct (send_rec_exhausted W "PUT" u v true 3 0 s eq_refl ltac:(lia) Hthr)
        as (s' & Hrun & _)
    end.
    exists s'. apply (action_throttled_raises "setClimaterSettings"). exact Hrun.
  - unfold setCharging.
    match goal with |- context [post W ?u ?v 0 true] =>
      destruct (send_rec_exhausted W "POST" u v true 3 0 s eq_refl ltac:(lia) Hthr)
        as (s' & Hrun & _)
    end.
    exists s'. apply (action_throttled_raises "setCharging"). exact Hrun.
Qed.

End ActionProperties.

(** * Further properties

    Properties of the executor, the token handling and the login beyond
    those above, and of the rest of [Connection]. *)

(** ** The request executor: the outcomes of [_request] *)

Section RequestProperties.
Context (W : world).

Lemma update_service_status_only url code s :
  exists s', update_service_status url code s = (Ret tt, s') /\
    requests_only 0 s s' /\ service_status s' = recorded url code (service_status s).
Proof.
  unfold update_service_status, recorded.
  destruct (status_category url); eexists; (split; [reflexivity|]);
    (split; [|reflexivity]); repeat split; simpl; lia.
Qed.

Ltac record_status :=
  match goal with |- context [update_service_status ?u ?c ?s0] =>
    let su := fresh "su" in
    let Hq := fresh "Hq" in
    let Hst := fresh "Hst" in
    destruct (update_service_status_only u c s0) as (su & -> & Hq & Hst);
    destruct Hq as ((?&?&?&?&?&?) & ? & ? & ? & ? & ?); simpl in *
  end.

Ltac close_request :=
  eexists; (split; [|split]); cycle 2;
  [ first [reflexivity | match goal with b : bool |- _ => destruct b; reflexivity end]
  | repeat split; simpl; try congruence; try lia
  | simpl; congruence ].

Lemma request_spec (method url : string) (raw : bool) (s : conn) :
  exists s', requests_only 1 s s' /\
    match w_reply W (sent s) with
    | Reply q =>
        service_status s' = recorded url (status q) (service_status s) /\
        _request W method url raw s =
          (if 400 <=? status q then Raise (ClientResponseError (status q))
           else Ret (request_value raw q), s')
    | Fails e =>
        service_status s' =
          recorded url (match e with ClientResponseError c => c | _ => 1000 end)
            (service_status s) /\
        _request W method url raw s = (Raise e, s')
    end.
Proof.
  unfold _request, bind, try_except, log, modify, session_request, request_value; simpl.
  destruct (w_reply W (sent s)) as [q|e]; simpl.
  - destruct (400 <=? status q) eqn:H400; simpl.
    + record_status. close_request.
    + record_status.
      assert (Hor : (200 <=? status q) || (status q <=? 300) = true).
      { apply orb_true_iff. lia. }
      destruct (status q =? 204) eqn:H204; simpl.
      { close_request. }
      rewrite Hor; simpl. unfold response_json.
      destruct (json q) as [v|]; simpl; close_request.
  - destruct e; record_status; close_request.
Qed.

End RequestProperties.

(** ** [_request] and [get] on a single answer *)

Section GetProperties.
Context (W : world).

Lemma request_reply (method url : string) (raw : bool) (s : conn) (q : response) :
  w_reply W (sent s) = Reply q ->
  exists s', requests_only 1 s s' /\
    service_status s' = recorded url (status q) (service_status s) /\
    _request W method url raw s =
      (if 400 <=? status q then Raise (ClientResponseError (status q))
       else Ret (request_value raw q), s').
Proof.
  intros Hq. destruct (request_spec W method url raw s) as (s' & Hs & H).
  rewrite Hq in H. exists s'. tauto.
Qed.

Lemma request_fails (method url : string) (raw : bool) (s : conn) (e : exn) :
  w_reply W (sent s) = Fails e ->
  exists s', requests_only 1 s s' /\
    service_status s' =
      recorded url (match e with ClientResponseError c => c | _ => 1000 end)
        (service_status s) /\
    _request W method url raw s = (Raise e, s').
Proof.
  intros Hq. destruct (request_spec W method url raw s) as (s' & Hs & H).
  rewrite Hq in H. exists s'. tauto.
Qed.

(** X1. [_request] on a response whose status is below 400 raises nothing. With
    [return_raw] it returns the response object itself; otherwise it returns
    {"status_code": 204} for a 204 and, for every other status (1xx and 3xx
    included: the test of line 427 holds for every integer), the decoded body,
    or {} when the body cannot be decoded. One request is sent, the session
    proper is untouched and the status is recorded for the service of the
    URL. *)
Theorem request_below_400 (method url : string) (raw : bool) (s : conn) (q : response) :
  w_reply W (sent s) = Reply q -> status q < 400 ->
  exists s',
    _request W method url raw s =
      (Ret (if raw then PResp q
            else PJson (if status q =? 204 then status_envelope 204
                        else default (JObj ∅) (json q))), s') /\
    requests_only 1 s s' /\
    service_status s' = recorded url (status q) (service_status s).
Proof.
  intros Hq Hlt. destruct (request_reply method url raw s q Hq) as (s' & Hs & Hst & Hr).
  exists s'. split; [|by split].
  rewrite Hr. destruct (Z.leb_spec 400 (status q)); [lia|].
  unfold request_value. destruct (Z.eqb_spec (status q) 204) as [->|]; reflexivity.
Qed.

(** X2. [_request] on a status of 400 or more raises ClientResponseError with
    that status, after recording the status for the service of the URL. On a
    transport failure it raises the failure itself and records the code 1000,
    so that the service reads "Error". *)
Theorem request_failure_recorded (method url : string) (raw : bool) (s : conn) :
  (forall q, w_reply W (sent s) = Reply q -> 400 <= status q ->
     exists s', _request W method url raw s = (Raise (ClientResponseError (status q)), s') /\
       requests_only 1 s s' /\
       service_status s' = recorded url (status q) (service_status s)) /\
  (forall e, w_reply W (sent s) = Fails e -> is_ClientResponseError e = false ->
     exists s', _request W method url raw s = (Raise e, s') /\
       requests_only 1 s s' /\
       service_status s' = recorded url 1000 (service_status s) /\
       forall key, status_category url = Some key -> service_status s' !! key = Some "Error").
Proof.
  split.
  - intros q Hq Hge. destruct (request_reply method url raw s q Hq) as (s' & Hs & Hst & Hr).
    exists s'. split; [|by split].
    rewrite Hr. destruct (Z.leb_spec 400 (status q)); [reflexivity|lia].
  - intros e He Hne. destruct (request_fails method url raw s e He) as (s' & Hs & Hst & Hr).
    exists s'. split; [exact Hr|]. split; [exact Hs|].
    assert (Hst' : service_status s' = recorded url 1000 (service_status s)).
    { rewrite Hst. destruct e; try reflexivity. discriminate. }
    split; [exact Hst'|].
    intros key Hkey. rewrite Hst'. unfold recorded. rewrite Hkey.
    by rewrite lookup_insert_eq.
Qed.

Lemma get_refused (url vin : string) (tries : Z) (s : conn) (q : response) :
  w_reply W (sent s) = Reply q -> 400 <= status q ->
  status q <> 429 \/ 3 <= tries ->
  exists s',
    get W url vin tries s = (Ret (PJson (status_envelope (status q))), s') /\
    sent s' = S (sent s) /\ drawn s' = drawn s /\
    delays (trace s') = delays (trace s) /\
    session_logged_in s' = (if status q =? 401 then false else session_logged_in s) /\
    session_tokens s' = session_tokens s /\
    session_headers s' = session_headers s /\
    service_status s' = recorded url (status q) (service_status s).
Proof.
  intros Hq Hge Hnot.
  rewrite get_unfold. unfold get_body, try_except, _make_url.
  destruct (request_reply "GET" url false s q Hq) as (s1 & Hs & Hst & Hr).
  rewrite Hr. destruct (Z.leb_spec 400 (status q)); [|lia]. simpl.
  destruct Hs as ((?&?&?&?&?&?) & ? & ? & ? & ? & ?).
  assert (Hretry : (status q =? 429) && (tries <? MAX_RETRIES_ON_RATE_LIMIT) = false).
  { unfold MAX_RETRIES_ON_RATE_LIMIT. apply andb_false_iff.
    destruct Hnot; [left|right]; lia. }
  destruct (Z.eqb_spec (status q) 400) as [E400|]; simpl.
  { eexists; split; [reflexivity|]. simpl.
    destruct (Z.eqb_spec (status q) 401); [lia|]. repeat split; try congruence; lia. }
  destruct (Z.eqb_spec (status q) 401) as [E401|]; simpl.
  { eexists; split; [reflexivity|]. simpl. repeat split; try congruence; lia. }
  rewrite Hretry.
  destruct (status q =? 500); simpl;
    [eexists; split; [reflexivity|]; simpl; repeat split; try congruence; lia|].
  destruct (status q =? 502); simpl;
    eexists; (split; [reflexivity|]); simpl; repeat split; try congruence; lia.
Qed.

Lemma get_answered (url vin : string) (tries : Z) (s : conn) (q : response) :
  w_reply W (sent s) = Reply q -> status q < 400 ->
  exists s', get W url vin tries s = (Ret (request_value false q), s') /\
    requests_only 1 s s' /\
    service_status s' = recorded url (status q) (service_status s).
Proof.
  intros Hq Hlt.
  rewrite get_unfold. unfold get_body, try_except, _make_url.
  destruct (request_reply "GET" url false s q Hq) as (s1 & Hs & Hst & ->).
  destruct (Z.leb_spec 400 (status q)); [lia|].
  exists s1. split; [reflexivity|]. by split.
Qed.

Lemma get_unanswered (url vin : string) (tries : Z) (s : conn) (e : exn) :
  w_reply W (sent s) = Fails e -> is_ClientResponseError e = false ->
  exists s', get W url vin tries s = (Raise e, s') /\
    requests_only 1 s s' /\
    service_status s' = recorded url 1000 (service_status s).
Proof.
  intros He Hne.
  rewrite get_unfold. unfold get_body, try_except, _make_url.
  destruct (request_fails "GET" url false s e He) as (s1 & Hs & Hst & ->).
  rewrite Hne. exists s1. split; [reflexivity|]. split; [exact Hs|].
  rewrite Hst. destruct e; try reflexivity. discriminate.
Qed.

(** X3. For every error status that is not retried (any status from 400 other
    than 429, or 429 once [tries] has reached 3) [get] returns
    {"status_code": status} after a single request, without drawing a delay or
    sleeping. Only 401 clears the logged-in flag; the tokens and the headers
    are untouched, and [get_service_status] then reports the status recorded
    for the URL. *)
Theorem get_error_status_envelope (url vin : string) (tries : Z) (s : conn) (q : response) :
  w_reply W (sent s) = Reply q -> 400 <= status q ->
  status q <> 429 \/ 3 <= tries ->
  exists s',
    get W url vin tries s = (Ret (PJson (status_envelope (status q))), s') /\
    sent s' = S (sent s) /\ drawn s' = drawn s /\
    delays (trace s') = delays (trace s) /\
    session_logged_in s' = (if status q =? 401 then false else session_logged_in s) /\
    session_tokens s' = session_tokens s /\
    session_headers s' = session_headers s /\
    fst (get_service_status s') = Ret (recorded url (status q) (service_status s)).
Proof.
  intros Hq Hge Hnot.
  destruct (get_refused url vin tries s q Hq Hge Hnot)
    as (s' & Hget & Hsent & Hdr & Hdel & Hli & Htok & Hhd & Hst).
  exists s'. repeat split; try assumption.
  unfold get_service_status, bind, log, modify, gets. simpl. by rewrite Hst.
Qed.

End GetProperties.

(** ** What [get] raises *)

Section TransportProperties.
Context (W : world).

Lemma randint_ok (a b : Z) (s : conn) :
  a <= b -> exists d, a <= d <= b /\ randint W a b s = (Ret d, set_drawn (S (drawn s)) s).
Proof.
  intros Hab. destruct (randint_run W a b s) as [[Hlt _]|[_ H]]; [lia|exact H].
Qed.

(** What a failing [get_rec] raises: the transport failure of one of its
    requests. *)
Lemma get_rec_raises (url vin : string) (n : nat) :
  forall tries s e s', depth tries = n -> 0 <= tries ->
  get_rec W n url vin tries s = (Raise e, s') ->
  is_ClientResponseError e = false /\
  exists i, (i <= n)%nat /\ w_reply W (sent s + i) = Fails e.
Proof.
  induction n as [|n IH]; intros tries s e s' Hdepth Htries.
  - simpl. unfold get_body, try_except, _make_url.
    destruct (request_spec W "GET" url false s) as (s1 & Hs & Hspec).
    destruct (w_reply W (sent s)) as [q|e0] eqn:Hw.
    + destruct Hspec as [_ ->]. destruct (400 <=? status q); [|discriminate].
      simpl. rewrite (depth_O _ Hdepth), andb_false_r.
      repeat match goal with |- context [?a =? ?b] => destruct (a =? b) end; discriminate.
    + destruct Hspec as [_ ->].
      destruct e0; simpl; try (intros [= <- <-]; split; [reflexivity|];
        exists O; split; [lia|]; by rewrite Nat.add_0_r).
      rewrite (depth_O _ Hdepth), andb_false_r.
      repeat match goal with |- context [?a =? ?b] => destruct (a =? b) end; discriminate.
  - destruct (depth_S _ _ Hdepth) as [Hlt Hd'].
    simpl. unfold get_body, try_except, _make_url.
    destruct (request_spec W "GET" url false s) as (s1 & Hs & Hspec).
    assert (Hretry : forall st,
      (if st =? 400 then
         log "error" "Got HTTP 400 Bad Request from server" ;;;
         ret (PJson (status_envelope st))
       else if st =? 401 then
         log_error "warning" "Received unauthorized error while fetching data"
           (ClientResponseError st) ;;;
         modify (set_logged_in false) ;;;
         ret (PJson (status_envelope st))
       else if (st =? 429) && (tries <? MAX_RETRIES_ON_RATE_LIMIT) then
         delay <- randint W 1 (3 + tries * 2) ;;
         log "debug" "Server side throttled. Waiting" ;;;
         sleep delay ;;;
         get_rec W n url vin (tries + 1)
       else if st =? 500 then
         log "info" "Got HTTP 500 from server" ;;;
         ret (PJson (status_envelope st))
       else if st =? 502 then
         log "info" "Got HTTP 502 from server" ;;;
         ret (PJson (status_envelope st))
       else
         log "error" "Got unhandled error from server" ;;;
         ret (PJson (status_envelope st))) s1 = (Raise e, s') ->
      is_ClientResponseError e = false /\
      exists i, (i <= n)%nat /\ w_reply W (sent s1 + i) = Fails e).
    { intros st.
      destruct (st =? 400); [discriminate|].
      destruct (st =? 401); [discriminate|].
      destruct ((st =? 429) && (tries <? MAX_RETRIES_ON_RATE_LIMIT)).
      - unfold bind.
        destruct (randint_ok 1 (3 + tries * 2) s1) as (d & _ & ->); [lia|].
        simpl. intros Hrec.
        apply IH in Hrec; [|exact Hd'|lia]. exact Hrec.
      - destruct (st =? 500); [discriminate|].
        destruct (st =? 502); discriminate. }
    assert (Hsent : sent s1 = S (sent s)).
    { destruct Hs as (_ & Hsent & _). lia. }
    assert (Hshift : forall e0,
      (exists i, (i <= n)%nat /\ w_reply W (sent s1 + i) = Fails e0) ->
      exists i, (i <= S n)%nat /\ w_reply W (sent s + i) = Fails e0).
    { intros e0 (i & Hi & Hf). exists (S i). split; [lia|].
      rewrite <- Hf. f_equal. lia. }
    destruct (w_reply W (sent s)) as [q|e0] eqn:Hw.
    + destruct Hspec as [_ ->]. destruct (400 <=? status q); [|discriminate].
      simpl. intros H. destruct (Hretry _ H) as [Hne Hex]. split; [exact Hne|].
      by apply Hshift.
    + destruct Hspec as [_ ->].
      destruct e0; simpl; try (intros [= <- <-]; split; [reflexivity|];
        exists O; split; [lia|]; by rewrite Nat.add_0_r).
      intros H. destruct (Hretry _ H) as [Hne Hex]. split; [exact Hne|].
      by apply Hshift.
Qed.

(** X4. Whatever [get] raises is not an HTTP error: with [tries] not negative,
    an exception that leaves [get] is the transport failure of one of its at
    most four requests. *)
Theorem get_raises_only_transport_failures (url vin : string) (tries : Z)
    (s s' : conn) (e : exn) :
  0 <= tries ->
  get W url vin tries s = (Raise e, s') ->
  is_ClientResponseError e = false /\
  exists i, (i <= 3)%nat /\ w_reply W (sent s + i) = Fails e.
Proof.
  intros Htries Hget. unfold get in Hget.
  apply get_rec_raises in Hget; [|reflexivity|exact Htries].
  destruct Hget as [Hne (i & Hi & Hf)]. split; [exact Hne|].
  exists i. split; [|exact Hf].
  unfold depth, MAX_RETRIES_ON_RATE_LIMIT in Hi. lia.
Qed.

End TransportProperties.

(** ** Retries that recover, and what [post] and [put] raise *)

Section RetryProperties.
Context (W : world).

Lemma throttled_for_next s s' k :
  throttled_for W s (S k) -> sent s' = S (sent s) ->
  (exists q, w_reply W (sent s) = Reply q /\ status q = 429) /\ throttled_for W s' k.
Proof.
  intros H Hs. split.
  - destruct (H O) as (q & Hq & Hst); [lia|]. rewrite Nat.add_0_r in Hq. eauto.
  - intros i Hi. destruct (H (S i)) as (q & Hq & Hst); [lia|].
    exists q. split; [|exact Hst]. rewrite Hs, <- Hq. f_equal. lia.
Qed.

Lemma get_recovers (url vin : string) (q : response) (k : nat) :
  forall tries s,
  0 <= tries -> tries + Z.of_nat k <= 3 ->
  throttled_for W s k ->
  w_reply W (sent s + k) = Reply q -> status q < 400 ->
  exists s', get W url vin tries s = (Ret (request_value false q), s') /\ retried k s s'.
Proof.
  induction k as [|k IH]; intros tries s Htries Hbound Hthr Hq Hlt.
  - rewrite Nat.add_0_r in Hq.
    rewrite get_unfold. unfold get_body, try_except, _make_url.
    destruct (request_reply W "GET" url false s q Hq) as (s1 & Hs & _ & ->).
    destruct (Z.leb_spec 400 (status q)); [lia|].
    exists s1. split; [reflexivity|].
    destruct Hs as (Hsame & ? & ? & ? & Hdel & ?).
    repeat split; try apply Hsame; try lia. rewrite Hdel. lia.
  - rewrite get_unfold. unfold get_body, try_except, _make_url.
    destruct (request_spec W "GET" url false s) as (s1 & Hs & Hspec).
    destruct Hs as (Hsame & Hsent & Hdrawn & _ & Hdel & _).
    destruct (throttled_for_next s s1 k Hthr ltac:(lia)) as [(r & Hr & Hst) Hthr'].
    rewrite Hr in Hspec. destruct Hspec as [_ ->]. rewrite Hst. simpl.
    assert (Hlt3 : (tries <? MAX_RETRIES_ON_RATE_LIMIT) = true).
    { unfold MAX_RETRIES_ON_RATE_LIMIT. lia. }
    rewrite Hlt3. simpl. unfold bind.
    destruct (randint_ok W 1 (3 + tries * 2) s1) as (d & _ & ->); [lia|]. simpl.
    match goal with |- context [get W url vin (tries + 1) ?s2] =>
      destruct (IH (tries + 1) s2) as (s' & -> & Hsame' & Hsent' & Hdrawn' & Hdel')
    end; try lia.
    { exact Hthr'. }
    { simpl. rewrite <- Hq. f_equal. lia. }
    exists s'. split; [reflexivity|]. simpl in *.
    split; [eapply same_session_trans; [exact Hsame|]; exact Hsame'|].
    rewrite Hdel, length_app in Hdel'. simpl in Hdel'.
    repeat split; lia.
Qed.

Lemma send_recovers (method url vin : string) (raw : bool) (q : response) (k : nat) :
  forall tries s,
  0 <= tries -> tries + Z.of_nat k <= 3 ->
  throttled_for W s k ->
  w_reply W (sent s + k) = Reply q -> status q < 400 ->
  exists s', send_rec W method (depth tries) url vin tries raw s =
               (Ret (request_value raw q), s') /\ retried k s s'.
Proof.
  induction k as [|k IH]; intros tries s Htries Hbound Hthr Hq Hlt.
  - rewrite Nat.add_0_r in Hq.
    rewrite send_unfold. unfold send_body, try_except, _make_url.
    destruct (request_reply W method url raw s q Hq) as (s1 & Hs & _ & ->).
    destruct (Z.leb_spec 400 (status q)); [lia|].
    exists s1. split; [reflexivity|].
    destruct Hs as (Hsame & ? & ? & ? & Hdel & ?).
    repeat split; try apply Hsame; try lia. rewrite Hdel. lia.
  - rewrite send_unfold. unfold send_body, try_except, _make_url.
    destruct (request_spec W method url raw s) as (s1 & Hs & Hspec).
    destruct Hs as (Hsame & Hsent & Hdrawn & _ & Hdel & _).
    destruct (throttled_for_next s s1 k Hthr ltac:(lia)) as [(r & Hr & Hst) Hthr'].
    rewrite Hr in Hspec. destruct Hspec as [_ ->]. rewrite Hst. simpl.
    assert (Hlt3 : (tries <? MAX_RETRIES_ON_RATE_LIMIT) = true).
    { unfold MAX_RETRIES_ON_RATE_LIMIT. lia. }
    rewrite Hlt3. simpl. unfold bind.
    destruct (randint_ok W 1 (3 + tries * 2) s1) as (d & _ & ->); [lia|]. simpl.
    match goal with |- context [send_rec W method _ url vin (tries + 1) raw ?s2] =>
      destruct (IH (tries + 1) s2) as (s' & -> & Hsame' & Hsent' & Hdrawn' & Hdel')
    end; try lia.
    { exact Hthr'. }
    { simpl. rewrite <- Hq. f_equal. lia. }
    exists s'. split; [reflexivity|]. simpl in *.
    split; [eapply same_session_trans; [exact Hsame|]; exact Hsame'|].
    rewrite Hdel, length_app in Hdel'. simpl in Hdel'.
    repeat split; lia.
Qed.

(** X5. A throttled call recovers: when the server answers 429 to the next [k]
    requests, with [tries + k <= 3], and then with a status below 400, each of
    [get], [post] and [put] returns what [_request] returns for that last
    response, after [k + 1] requests, [k] random draws and [k] sleeps, the
    session proper being untouched. *)
Theorem retry_recovers (url vin : string) (raw : bool) (k : nat) (tries : Z)
    (s : conn) (q : response) :
  0 <= tries -> tries + Z.of_nat k <= 3 ->
  throttled_for W s k ->
  w_reply W (sent s + k) = Reply q -> status q < 400 ->
  (exists s', get W url vin tries s = (Ret (request_value false q), s') /\
     retried k s s') /\
  (exists s', post W url vin tries raw s = (Ret (request_value raw q), s') /\
     retried k s s') /\
  (exists s', put W url vin tries raw s = (Ret (request_value raw q), s') /\
     retried k s s').
Proof.
  intros. split; [by apply get_recovers|].
  split; by apply send_recovers.
Qed.

(** X6. [post] and [put] re-raise every error status they do not retry (any
    status from 400 other than 429, or 429 once [tries] has reached 3) and
    every transport failure, after a single request and without touching the
    session proper. *)
Theorem send_error_raised (url vin : string) (tries : Z) (raw : bool) (s : conn) :
  (forall q, w_reply W (sent s) = Reply q -> 400 <= status q ->
     status q <> 429 \/ 3 <= tries ->
     (exists s', post W url vin tries raw s = (Raise (ClientResponseError (status q)), s') /\
        requests_only 1 s s') /\
     (exists s', put W url vin tries raw s = (Raise (ClientResponseError (status q)), s') /\
        requests_only 1 s s')) /\
  (forall e, w_reply W (sent s) = Fails e -> is_ClientResponseError e = false ->
     (exists s', post W url vin tries raw s = (Raise e, s') /\ requests_only 1 s s') /\
     (exists s', put W url vin tries raw s = (Raise e, s') /\ requests_only 1 s s')).
Proof.
  split.
  - intros q Hq Hge Hnot.
    assert (Hretry : (status q =? 429) && (tries <? MAX_RETRIES_ON_RATE_LIMIT) = false).
    { unfold MAX_RETRIES_ON_RATE_LIMIT. apply andb_false_iff.
      destruct Hnot; [left|right]; lia. }
    split.
    + rewrite post_unfold. unfold send_body, try_except, _make_url.
      destruct (request_reply W "POST" url raw s q Hq) as (s1 & Hs & _ & ->).
      destruct (Z.leb_spec 400 (status q)); [|lia]. simpl. rewrite Hretry.
      exists s1. by split.
    + rewrite put_unfold. unfold send_body, try_except, _make_url.
      destruct (request_reply W "PUT" url raw s q Hq) as (s1 & Hs & _ & ->).
      destruct (Z.leb_spec 400 (status q)); [|lia]. simpl. rewrite Hretry.
      exists s1. by split.
  - intros e He Hne. split.
    + rewrite post_unfold. unfold send_body, try_except, _make_url.
      destruct (request_fails W "POST" url raw s e He) as (s1 & Hs & _ & ->).
      rewrite Hne. exists s1. by split.
    + rewrite put_unfold. unfold send_body, try_except, _make_url.
      destruct (request_fails W "PUT" url raw s e He) as (s1 & Hs & _ & ->).
      rewrite Hne. exists s1. by split.
Qed.

End RetryProperties.

(** ** Token validation at its edges *)

Section ExpiryProperties.
Context (E : pyenv) (W : world).

(** X7. When both tokens are still valid at the time of the call, one of
    them expires within the refresh interval and [now + refreshInterval] is
    a datetime, [validate_tokens] enters [refresh_tokens] exactly once and
    returns what the refresh returned. *)
Theorem validate_tokens_about_to_expire (s : conn) (id_dt at_dt : Z) :
  token_expiries E s = (Ret (id_dt, at_dt), s) ->
  let now := w_now W (clock s) in
  let later := now + session_refresh_interval s in
  let s1 := emit (EvLog "debug" "Tokens about to expire. Try to fetch new tokens.")
              (set_clock (S (clock s)) s) in
  DATETIME_MIN <= later <= DATETIME_MAX ->
  now < id_dt -> now < at_dt -> id_dt <= later \/ at_dt <= later ->
  exists ok s2,
    refresh_tokens E W s1 = (Ret ok, s2) /\
    validate_tokens E W s =
      (Ret ok, if ok then emit (EvLog "debug" "Successfully refreshed tokens") s2 else s2) /\
    calls "refresh_tokens" (trace (snd (validate_tokens E W s))) =
      S (calls "refresh_tokens" (trace s)).
Proof.
  intros Hexp now0 later s1 Hrange H1 H2 Hsoon.
  destruct (refresh_tokens_run E W s1) as (ok & s2 & Hr & Hcalls).
  exists ok, s2. split; [exact Hr|].
  assert (Hv : validate_tokens E W s =
       (Ret ok, if ok then emit (EvLog "debug" "Successfully refreshed tokens") s2 else s2)).
  { rewrite (validate_tokens_after_expiries E W s id_dt at_dt Hexp). cbv zeta.
    fold now0. rewrite (datetime_add_in_range _ _ Hrange). fold later.
    assert (Ha : (id_dt <=? now0) || (at_dt <=? now0) = false).
    { apply orb_false_iff. lia. }
    assert (Hb : (id_dt <=? later) || (at_dt <=? later) = true).
    { apply orb_true_iff. lia. }
    rewrite Ha, Hb. unfold bind at 1, log, modify. unfold bind at 1. fold s1. rewrite Hr.
    destruct ok; reflexivity. }
  split; [exact Hv|]. rewrite Hv. simpl in *.
  destruct ok; simpl; exact Hcalls.
Qed.

(** X8. [validate_tokens] does not guard the decoding of the tokens: a token
    that [jwt.decode] rejects makes it raise DecodeError, and an identity
    token without "exp" claim makes it raise TypeError (the [int(None)] of line
    869), the session being left as it was. [validate_login], which handles
    OSError only, raises the same exception. *)
Theorem validate_tokens_unreadable_expiry (s : conn) (identity idtoken atoken : jvalue) :
  session_tokens s !! "identity" = Some identity ->
  subscript identity "id_token" = Ret idtoken ->
  subscript identity "access_token" = Ret atoken ->
  (jwt_decode E idtoken = None \/ jwt_decode E atoken = None ->
     validate_tokens E W s = (Raise DecodeError, s) /\
     validate_login E W s = (Raise DecodeError, s)) /\
  (forall id_claims at_claims,
     jwt_decode E idtoken = Some id_claims -> jwt_decode E atoken = Some at_claims ->
     id_claims !! "exp" = None ->
     validate_tokens E W s = (Raise TypeError, s) /\
     validate_login E W s = (Raise TypeError, s)).
Proof.
  intros Hid Hidt Hat.
  assert (Hlogin : forall e, is_OSError e = false ->
            validate_tokens E W s = (Raise e, s) -> validate_login E W s = (Raise e, s)).
  { intros e He Hv. unfold validate_login, try_except, bind. rewrite Hv, He. reflexivity. }
  split.
  - intros Hnone.
    assert (Hv : validate_tokens E W s = (Raise DecodeError, s)).
    { unfold validate_tokens, token_expiries, bind, gets, lift, dict_item, decode_exp.
      rewrite Hid, Hidt, Hat.
      destruct Hnone as [-> | Ha]; [reflexivity|].
      rewrite Ha. destruct (jwt_decode E idtoken); reflexivity. }
    split; [exact Hv|]. by apply Hlogin.
  - intros c1 c2 H1 H2 Hexp.
    assert (Hv : validate_tokens E W s = (Raise TypeError, s)).
    { unfold validate_tokens, token_expiries, bind, gets, lift, dict_item, decode_exp.
      rewrite Hid, Hidt, Hat, H1, H2, Hexp. reflexivity. }
    split; [exact Hv|]. by apply Hlogin.
Qed.

End ExpiryProperties.

(** ** Token refresh *)

Section RefreshProperties.
Context (E : pyenv) (W : world).

Lemma refresh_tokens_frame (s : conn) :
  exists b s', refresh_tokens E W s = (Ret b, s') /\
    (sent s <= sent s' <= sent s + 2)%nat /\
    drawn s' = drawn s /\ clock s' = clock s /\
    session_logged_in s' = session_logged_in s /\
    session_auth_headers s' = session_auth_headers s /\
    (forall k, k <> "identity" -> session_tokens s' !! k = session_tokens s !! k) /\
    (b = false -> session_headers s' = session_headers s) /\
    ((forall r, w_reply W (sent s) = Reply r -> status r <> 200) ->
       b = false /\ session_tokens s' = session_tokens s /\ (sent s' <= sent s + 1)%nat).
Proof.
  unfold refresh_tokens, bind, try_except, modify, gets, lift, session_request; simpl.
  destruct (dict_item (session_tokens s) "identity") as [identity|e]; simpl.
  2: { do 2 eexists; split; [reflexivity|]. simpl. repeat split; lia. }
  destruct (subscript identity "refresh_token") as [rt|e]; simpl.
  2: { do 2 eexists; split; [reflexivity|]. simpl. repeat split; lia. }
  destruct (w_reply W (sent s)) as [r|e] eqn:Hw; simpl.
  2: { do 2 eexists; split; [reflexivity|]. simpl. repeat split; lia. }
  destruct (Z.eqb_spec (status r) 200) as [H200|H200]; simpl.
  2: { do 2 eexists; split; [reflexivity|]. simpl. repeat split; lia. }
  assert (Hno : ~ (forall r0, Reply r = Reply r0 -> status r0 <> 200)).
  { intros H. by apply (H r). }
  unfold response_json.
  destruct (json r) as [tokens|]; simpl.
  2: { do 2 eexists; split; [reflexivity|]. simpl. repeat split; try lia; by intros. }
  destruct (subscript tokens "id_token") as [id_token|e]; simpl.
  2: { do 2 eexists; split; [reflexivity|]. simpl. repeat split; try lia; by intros. }
  match goal with |- context [verify_tokens E W id_token "identity" ?s1] =>
    destruct (verify_identity_run E W id_token s1) as (rv & sv & Hv & Hsame & _ & Hsent & _ & _);
    rewrite Hv; simpl in Hsame, Hsent
  end.
  assert (Hdc : drawn sv = drawn s /\ clock sv = clock s).
  { revert Hv. unfold verify_tokens, bind, session_request, response_json, log, modify; simpl.
    destruct (w_reply W (S (sent s))) as [q|e0]; simpl.
    - destruct (json q); simpl; [destruct (jwt_verify E j id_token)|]; simpl;
        intros [= _ <-]; by split.
    - intros [= _ <-]; by split. }
  destruct Hdc as [Hdr Hcl].
  destruct Hsame as (Hli & Htok & Hhd & Hah & _ & _). simpl in *.
  destruct rv as [ok|e]; simpl.
  2: { do 2 eexists; split; [reflexivity|]. simpl.
       repeat split; try lia; try congruence; try (by intros); try (intros; by rewrite Htok). }
  assert (Hc2 : forall s0 : conn,
            (if negb ok then log "warning" "Token could not be verified!" else ret ()) s0
             = (Ret tt, if negb ok then emit (EvLog "warning" "Token could not be verified!") s0 else s0)).
  { intros; destruct ok; reflexivity. }
  rewrite Hc2.
  set (s2 := if negb ok then _ else sv).
  assert (Hs2 : sent s2 = sent sv /\ drawn s2 = drawn sv /\ clock s2 = clock sv /\
                session_logged_in s2 = session_logged_in sv /\
                session_tokens s2 = session_tokens sv /\
                session_headers s2 = session_headers sv /\
                session_auth_headers s2 = session_auth_headers sv).
  { subst s2. destruct ok; simpl; repeat split. }
  clearbody s2. destruct Hs2 as (Hs2a & Hs2b & Hs2c & Hs2d & Hs2e & Hs2f & Hs2g).
  destruct (dict_item (session_tokens s2) "identity") as [identity2|e]; simpl.
  2: { do 2 eexists; split; [reflexivity|]. simpl.
       repeat split; try lia; try congruence; try (by intros). }
  assert (Hframe : forall x k, k <> "identity" ->
            <["identity" := x]> (session_tokens s2) !! k = session_tokens s !! k).
  { intros x k Hk. rewrite lookup_insert_ne by done. congruence. }
  destruct tokens; simpl;
    try (do 2 eexists; split; [reflexivity|]; simpl;
         repeat split; try lia; try congruence; try (by intros); fail).
  destruct identity2; simpl;
    try (do 2 eexists; split; [reflexivity|]; simpl;
         repeat split; try lia; try congruence; try (by intros); fail).
  unfold dict_item at 1. rewrite lookup_insert_eq. simpl.
  match goal with |- context [dict_item ?m "access_token"] =>
    destruct (dict_item m "access_token") as [a|e] end; simpl.
  2: { do 2 eexists; split; [reflexivity|]. simpl.
       repeat split; try lia; try congruence; try (by intros); by apply Hframe. }
  destruct (bearer a); simpl; do 2 eexists; (split; [reflexivity|]); simpl;
    repeat split; try lia; try congruence; try (by intros); try (by apply Hframe);
    discriminate.
Qed.

(** X12. The loop of lines 944-945 is a left-biased union: merging [tokens] into
    [identity] gives [tokens ∪ identity]. Merging nothing changes nothing, and
    merging the same answer twice is the same as merging it once. *)
Theorem merge_tokens_union (tokens identity : gmap string jvalue) :
  merge_tokens tokens identity = tokens ∪ identity /\
  merge_tokens ∅ identity = identity /\
  merge_tokens tokens (merge_tokens tokens identity) = merge_tokens tokens identity.
Proof.
  assert (Hu : forall a b : gmap string jvalue, merge_tokens a b = a ∪ b).
  { intros a b. apply map_eq. intros k.
    rewrite merge_tokens_lookup, lookup_union.
    destruct (a !! k), (b !! k); reflexivity. }
  split; [apply Hu|]. split.
  - rewrite Hu. apply (left_id ∅ (∪)).
  - rewrite !Hu. rewrite (assoc_L (∪)). by rewrite (idemp_L (∪)).
Qed.

(** X9. [refresh_tokens] never raises, whatever the session holds and the
    server answers. It sends at most two requests (the token endpoint and the
    JWKS document), leaves the logged-in flag and every token set other than
    "identity" as they were, and changes the headers only when it returns
    True. *)
Theorem refresh_tokens_never_raises (s : conn) :
  exists b s', refresh_tokens E W s = (Ret b, s') /\
    (sent s <= sent s' <= sent s + 2)%nat /\
    session_logged_in s' = session_logged_in s /\
    (forall k, k <> "identity" -> session_tokens s' !! k = session_tokens s !! k) /\
    (b = false -> session_headers s' = session_headers s).
Proof.
  destruct (refresh_tokens_frame s) as (b & s' & H & Hs & _ & _ & Hl & _ & Ht & Hh & _).
  exists b, s'. repeat split; try assumption; lia.
Qed.

(** X10. Let [now + refreshInterval] be a datetime. When the tokens are due
    for a refresh (expired, or expiring within the refresh interval) and the
    token endpoint fails or answers anything but 200, [validate_tokens] and
    [validate_login] return False without raising; tokens, headers and
    logged-in flag are kept and at most one request is sent. When
    [now + refreshInterval] is no datetime, the OverflowError of line 872 is
    no OSError: [validate_login] raises it, having sent nothing. *)
Theorem validate_login_unreachable_endpoint (s : conn) (id_dt at_dt : Z) :
  token_expiries E s = (Ret (id_dt, at_dt), s) ->
  let now := w_now W (clock s) in
  let later := now + session_refresh_interval s in
  (DATETIME_MIN <= later <= DATETIME_MAX ->
   id_dt <= now \/ at_dt <= now \/ id_dt <= later \/ at_dt <= later ->
   (forall r, w_reply W (sent s) = Reply r -> status r <> 200) ->
   exists s', validate_login E W s = (Ret false, s') /\
     validate_tokens E W s = (Ret false, s') /\
     session_tokens s' = session_tokens s /\
     session_headers s' = session_headers s /\
     session_logged_in s' = session_logged_in s /\
     (sent s' <= sent s + 1)%nat) /\
  (later < DATETIME_MIN \/ DATETIME_MAX < later ->
   validate_login E W s = (Raise OverflowError, set_clock (S (clock s)) s)).
Proof.
  intros Hexp now0 later.
  pose proof (validate_tokens_after_expiries E W s id_dt at_dt Hexp) as Hunfold.
  cbv zeta in Hunfold. fold now0 in Hunfold.
  split.
  2: { intros Hout.
       unfold validate_login, try_except, bind.
       rewrite Hunfold, (datetime_add_out_of_range _ _ Hout). reflexivity. }
  intros Hrange Hdue Hreply.
  assert (Hrun : forall msg,
    exists s', refresh_tokens E W (emit (EvLog "debug" msg) (set_clock (S (clock s)) s))
                 = (Ret false, s') /\
      session_tokens s' = session_tokens s /\
      session_headers s' = session_headers s /\
      session_logged_in s' = session_logged_in s /\
      (sent s' <= sent s + 1)%nat).
  { intros msg.
    destruct (refresh_tokens_frame (emit (EvLog "debug" msg) (set_clock (S (clock s)) s)))
      as (b & s' & H & _ & _ & _ & Hl & _ & _ & Hh & Hfail).
    destruct (Hfail Hreply) as (-> & Ht & Hsent).
    exists s'. split; [exact H|]. simpl in *. repeat split; auto. }
  assert (Hv : exists s', validate_tokens E W s = (Ret false, s') /\
      session_tokens s' = session_tokens s /\
      session_headers s' = session_headers s /\
      session_logged_in s' = session_logged_in s /\
      (sent s' <= sent s + 1)%nat).
  { rewrite Hunfold, (datetime_add_in_range _ _ Hrange). fold later.
    destruct ((id_dt <=? now0) || (at_dt <=? now0)) eqn:Ha.
    - destruct (Hrun "Tokens have expired. Try to fetch new tokens.") as (s' & Hr & H).
      unfold bind at 1, log, modify. unfold bind at 1. rewrite Hr. exists s'. by split.
    - assert (Hb : (id_dt <=? later) || (at_dt <=? later) = true).
      { apply orb_false_iff in Ha. apply orb_true_iff. lia. }
      rewrite Hb.
      destruct (Hrun "Tokens about to expire. Try to fetch new tokens.") as (s' & Hr & H).
      unfold bind at 1, log, modify. unfold bind at 1. rewrite Hr. exists s'. by split. }
  destruct Hv as (s' & Hv & H). exists s'. split; [|by split].
  unfold validate_login, try_except, bind. rewrite Hv. reflexivity.
Qed.

(** X11. [verify_tokens] returns False without any request for every type other
    than "identity". For "identity" it first fetches the JWKS document,
    outside its [try] block: a transport failure or an undecodable document is
    raised to the caller; once the document is decoded the result is the
    outcome of the verification, which never raises. *)
Theorem verify_tokens_fetches_keys_first (token : jvalue) (type : string) (s : conn) :
  (type <> "identity" ->
     verify_tokens E W token type s = (Ret false, emit (EvLog "debug" "Not implemented") s)) /\
  (forall e, w_reply W (sent s) = Fails e ->
     exists s', verify_tokens E W token "identity" s = (Raise e, s') /\ sent s' = S (sent s)) /\
  (forall q, w_reply W (sent s) = Reply q -> json q = None ->
     exists s', verify_tokens E W token "identity" s = (Raise JSONError, s') /\
       sent s' = S (sent s)) /\
  (forall q keys, w_reply W (sent s) = Reply q -> json q = Some keys ->
     exists s', verify_tokens E W token "identity" s = (Ret (jwt_verify E keys token), s') /\
       sent s' = S (sent s)).
Proof.
  split; [|split; [|split]].
  - intros Hne. unfold verify_tokens.
    destruct (String.eqb_spec type "identity"); [contradiction|]. reflexivity.
  - intros e He. unfold verify_tokens, bind, session_request; simpl. rewrite He.
    eexists; split; reflexivity.
  - intros q Hq Hj. unfold verify_tokens, bind, session_request, response_json; simpl.
    rewrite Hq; simpl. rewrite Hj. eexists; split; reflexivity.
  - intros q keys Hq Hj. unfold verify_tokens, bind, session_request, response_json; simpl.
    rewrite Hq; simpl. rewrite Hj; simpl.
    destruct (jwt_verify E keys token); eexists; split; reflexivity.
Qed.

End RefreshProperties.

(** ** What a login leaves untouched *)

Section Frames.
Context (R : conn -> conn -> Prop).
Hypothesis R_refl : forall s, R s s.
Hypothesis R_trans : forall s1 s2 s3, R s1 s2 -> R s2 s3 -> R s1 s3.

Lemma keeps_ret {A} (a : A) : keeps R (ret a).
Proof. intros s. apply R_refl. Qed.

Lemma keeps_raise {A} (e : exn) : keeps R (@raise A e).
Proof. intros s. apply R_refl. Qed.

Lemma keeps_lift {A} (r : result A) : keeps R (lift r).
Proof. intros s. apply R_refl. Qed.

Lemma keeps_gets {A} (f : conn -> A) : keeps R (gets f).
Proof. intros s. apply R_refl. Qed.

Lemma keeps_modify (f : conn -> conn) : (forall s, R s (f s)) -> keeps R (modify f).
Proof. intros H s. apply H. Qed.

Lemma keeps_bind {A B} (m : M A) (k : A -> M B) :
  keeps R m -> (forall a, keeps R (k a)) -> keeps R (bind m k).
Proof.
  intros Hm Hk s. unfold bind. specialize (Hm s).
  destruct (m s) as [[a|e] s1]; simpl in *; [|exact Hm].
  eapply R_trans; [exact Hm|apply Hk].
Qed.

Lemma keeps_try {A} (m : M A) (handles : exn -> bool) (h : exn -> M A) :
  keeps R m -> (forall e, keeps R (h e)) -> keeps R (try_except m handles h).
Proof.
  intros Hm Hh s. unfold try_except. specialize (Hm s).
  destruct (m s) as [[a|e] s1]; simpl in *; [exact Hm|].
  destruct (handles e); [|exact Hm].
  eapply R_trans; [exact Hm|apply Hh].
Qed.

End Frames.

Section LoginFrames.
Context (E : pyenv) (W : world).

Lemma other_tokens_kept_refl client s : other_tokens_kept client s s.
Proof. by repeat split. Qed.

Lemma other_tokens_kept_trans client s1 s2 s3 :
  other_tokens_kept client s1 s2 -> other_tokens_kept client s2 s3 ->
  other_tokens_kept client s1 s3.
Proof.
  intros (H1 & H2 & H3 & H4) (H1' & H2' & H3' & H4').
  repeat split; try congruence. intros k Hk. rewrite H1' by done. by apply H1.
Qed.

Ltac frame_step client :=
  match goal with
  | |- keeps _ (bind _ _) =>
      apply (keeps_bind _ (other_tokens_kept_trans client)); [|intros]
  | |- keeps _ (try_except _ _ _) =>
      apply (keeps_try _ (other_tokens_kept_trans client)); [|intros]
  | |- keeps _ (ret _) => apply (keeps_ret _ (other_tokens_kept_refl client))
  | |- keeps _ (raise _) => apply (keeps_raise _ (other_tokens_kept_refl client))
  | |- keeps _ (lift _) => apply (keeps_lift _ (other_tokens_kept_refl client))
  | |- keeps _ (gets _) => apply (keeps_gets _ (other_tokens_kept_refl client))
  | |- keeps _ (modify _) =>
      apply keeps_modify; intros;
      first [ by repeat split
            | split; [intros ? ?; simpl; by rewrite lookup_insert_ne|by repeat split] ]
  | |- keeps _ (log _ _) => apply keeps_modify; intros; by repeat split
  | |- keeps _ (log_error _ _ _) => apply keeps_modify; intros; by repeat split
  | |- keeps _ (response_json ?r) => unfold response_json; destruct (json r)
  | |- keeps _ (session_request _ _ _) =>
      let s := fresh "s" in
      intros s; unfold session_request; destruct (w_reply _ (sent s)); by repeat split
  | |- keeps _ (if ?b then _ else _) => destruct b
  | |- keeps _ (match ?x with _ => _ end) => destruct x
  end.

Lemma login_front_frame client : keeps (other_tokens_kept client) (login_front E W).
Proof. unfold login_front. repeat frame_step client. Qed.

Lemma follow_redirects_frame client (budget : nat) :
  forall ref, keeps (other_tokens_kept client) (follow_redirects E W budget ref).
Proof.
  induction budget as [|budget IH]; intros ref; simpl.
  - destruct (startswith ref (APP_URI E)); [frame_step client|].
    repeat frame_step client.
    intros s. unfold session_request.
    destruct (w_reply W (sent s)) as [q|e]; [|by repeat split].
    destruct (location q); by repeat split.
  - destruct (startswith ref (APP_URI E)); [frame_step client|].
    repeat frame_step client.
    intros s. unfold session_request.
    destruct (w_reply W (sent s)) as [q|e]; [|by repeat split].
    destruct (location q); [|by repeat split].
    eapply other_tokens_kept_trans; [|apply IH]. by repeat split.
Qed.

Lemma login_redirects_frame client f :
  keeps (other_tokens_kept client) (login_redirects E W f).
Proof.
  unfold login_redirects, redirect_block, redirect_handler.
  apply (keeps_bind _ (other_tokens_kept_trans client)).
  - destruct (headers (f_req f) !! "Location");
      [apply follow_redirects_frame|frame_step client].
  - intros. repeat frame_step client.
Qed.

Lemma verify_tokens_frame client token type :
  keeps (other_tokens_kept client) (verify_tokens E W token type).
Proof. unfold verify_tokens. repeat frame_step client. Qed.

Lemma login_exchange_frame client token_endpoint ref :
  keeps (other_tokens_kept client) (login_exchange E W client token_endpoint ref).
Proof.
  unfold login_exchange.
  repeat first [apply verify_tokens_frame | frame_step client].
Qed.

Lemma login_frame client : keeps (other_tokens_kept client) (_login E W client).
Proof.
  unfold _login.
  repeat first [apply login_front_frame | apply login_redirects_frame
               | apply login_exchange_frame | frame_step client].
Qed.

End LoginFrames.

(** ** Failures of [_login] *)

Section LoginFailureProperties.
Context (E : pyenv) (W : world).

Lemma login_front_first_reply (s : conn) :
  exists s1,
    sent s1 = S (sent s) /\ drawn s1 = drawn s /\
    session_logged_in s1 = session_logged_in s /\
    session_tokens s1 = session_tokens s /\
    session_headers s1 = HEADERS_SESSION E /\
    match w_reply W (sent s) with
    | Fails e => login_front E W s = (Raise e, s1)
    | Reply q =>
        status q <> 200 ->
        login_front E W s = (Ret None, emit (EvLog "debug" "OpenId config error") s1)
    end.
Proof.
  unfold login_front, bind, modify, gets, log, session_request; simpl.
  destruct (session_fulldebug s); simpl;
    destruct (w_reply W (sent s)) as [q|e]; simpl.
  - eexists; (repeat apply conj);
      [ idtac ..
      | intros Hne; destruct (Z.eqb_spec (status q) 200); [contradiction|]; reflexivity ];
      reflexivity.
  - eexists; (repeat apply conj); [ idtac .. | reflexivity ]; reflexivity.
  - eexists; (repeat apply conj);
      [ idtac ..
      | intros Hne; destruct (Z.eqb_spec (status q) 200); [contradiction|]; reflexivity ];
      reflexivity.
  - eexists; (repeat apply conj); [ idtac .. | reflexivity ]; reflexivity.
Qed.

(** X14. The first request of [_login]. When the OpenID configuration is answered
    with a status other than 200, [_login] returns False after that single
    request and leaves the logged-in flag as it was (line 161 returns inside
    the [try] block); when the request fails in the transport, [_login]
    returns False and clears the flag. In both cases the session headers have
    been reset to HEADERS_SESSION and the tokens are untouched. *)
Theorem login_discovery_unavailable (client : string) (s : conn) :
  (forall q, w_reply W (sent s) = Reply q -> status q <> 200 ->
     exists s', _login E W client s = (Ret false, s') /\
       sent s' = S (sent s) /\
       session_logged_in s' = session_logged_in s /\
       session_headers s' = HEADERS_SESSION E /\
       session_tokens s' = session_tokens s) /\
  (forall e, w_reply W (sent s) = Fails e ->
     exists s', _login E W client s = (Ret false, s') /\
       sent s' = S (sent s) /\
       session_logged_in s' = false /\
       session_headers s' = HEADERS_SESSION E /\
       session_tokens s' = session_tokens s).
Proof.
  destruct (login_front_first_reply s) as (s1 & Hsent & _ & Hli & Htok & Hhd & Hrun).
  split.
  - intros q Hq Hne. rewrite Hq in Hrun. specialize (Hrun Hne).
    unfold _login, bind, try_except. rewrite Hrun. simpl.
    eexists. split; [reflexivity|]. simpl. by repeat split.
  - intros e He. rewrite He in Hrun.
    unfold _login, bind, try_except. rewrite Hrun. simpl.
    eexists. split; [reflexivity|]. simpl. by repeat split.
Qed.

(** A handler for every exception that returns leaves nothing raised. *)
Lemma try_except_returns {A} (m : M A) (h : exn -> M A) (s : conn) :
  (forall e s0, exists a s', h e s0 = (Ret a, s')) ->
  exists a s', try_except m is_Exception h s = (Ret a, s').
Proof.
  intros Hh. unfold try_except. destruct (m s) as [[a|e] s1]; [by eauto|].
  simpl. apply Hh.
Qed.

(** X13. The only exceptions that leave [_login] come from line 357, after the
    [try] block: KeyError for the client label or for "access_token", or
    TypeError. In particular no AuthenticationException and no transport
    failure leaves it. *)
Theorem login_raises_only_at_header_update (client : string) (s s' : conn) (e : exn) :
  _login E W client s = (Raise e, s') ->
  e = KeyError client \/ e = KeyError "access_token" \/ e = TypeError.
Proof.
  unfold _login. unfold bind at 1.
  match goal with |- context [try_except ?m is_Exception ?h s] =>
    destruct (try_except_returns m h s) as (completed & s1 & ->)
  end.
  { intros e0 s0. do 2 eexists. reflexivity. }
  destruct completed; [|discriminate].
  unfold bind, gets, lift, modify, dict_item.
  destruct (session_tokens s1 !! client) as [tokens|]; simpl;
    [|intros [= <- _]; by left].
  unfold subscript, dict_item.
  destruct tokens; simpl; try (intros [= <- _]; by right; right).
  destruct (m !! "access_token") as [access|]; simpl;
    [|intros [= <- _]; by right; left].
  destruct access; simpl; try (intros [= <- _]; by right; right).
Qed.

(** X15. [_login] writes the token set of its client label only: every other
    token set (so "identity", when the client is "Legacy"), the service status
    and the refresh interval are as before, however the login ends. *)
Theorem login_keeps_other_tokens (client : string) (s : conn) :
  other_tokens_kept client s (snd (_login E W client s)).
Proof. apply login_frame. Qed.

End LoginFailureProperties.

(** ** The token exchange, and login attempts *)

Section LoginAttemptProperties.
Context (E : pyenv) (W : world).

(** X16. The token exchange of [_login]. When the token endpoint answers with a
    status other than 200, [_login] returns False, marks the session logged
    out and leaves the tokens as they were. When it answers 200 with a body
    that holds "error", [_login] returns False and marks the session logged
    out as well, but the body has already been stored under the client label.
    The Authorization header is set in neither case. *)
Theorem login_exchange_rejected (client : string) (s : conn) (f : front)
    (s1 s2 : conn) (turl ref code : string) (codes : list string) (r : response) :
  login_front E W s = (Ret (Some f), s1) ->
  login_redirects E W f s1 = (Ret ref, s2) ->
  f_token_endpoint f = JStr turl ->
  parse_qs_get E ref "code" = Some (code :: codes) ->
  w_reply W (sent s2) = Reply r ->
  (status r <> 200 ->
     exists s', _login E W client s = (Ret false, s') /\
       session_logged_in s' = false /\
       session_tokens s' = session_tokens s2 /\
       session_headers s' = session_headers s2) /\
  (forall B, status r = 200 -> json r = Some (JObj B) -> is_Some (B !! "error") ->
     exists s', _login E W client s = (Ret false, s') /\
       session_logged_in s' = false /\
       session_tokens s' = <[client := JObj B]> (session_tokens s2) /\
       session_headers s' = session_headers s2).
Proof.
  intros Hfront Hred Hturl Hcode Hw. split.
  - intros Hst.
    unfold _login, bind at 1, try_except. unfold bind at 1. rewrite Hfront.
    unfold bind at 1. rewrite Hred. rewrite Hturl.
    unfold login_exchange, bind, lift, log, modify, gets, session_request.
    rewrite Hcode; simpl. rewrite Hw; simpl.
    destruct (Z.eqb_spec (status r) 200); [contradiction|]. simpl.
    eexists. split; [reflexivity|]. by repeat split.
  - intros B Hst Hjson Herr.
    unfold _login, bind at 1, try_except. unfold bind at 1. rewrite Hfront.
    unfold bind at 1. rewrite Hred. rewrite Hturl.
    unfold login_exchange, bind, lift, log, modify, gets, session_request.
    rewrite Hcode; simpl. rewrite Hw; simpl. rewrite Hst; simpl.
    unfold response_json at 1. rewrite Hjson; simpl.
    rewrite (bool_decide_eq_true_2 _ Herr); simpl.
    destruct (bool_decide (is_Some (B !! "error_description"))); simpl;
      (eexists; split; [reflexivity|]; by repeat split).
Qed.

Lemma login_unreachable (client : string) (s : conn) (e : exn) :
  w_reply W (sent s) = Fails e ->
  exists s', _login E W client s = (Ret false, s') /\
    sent s' = S (sent s) /\
    random_sleeps (trace s') = random_sleeps (trace s) /\
    session_tokens s' = session_tokens s.
Proof.
  intros He.
  unfold _login, bind at 1, try_except. unfold bind at 1.
  unfold login_front, bind, modify, gets, log, session_request; simpl.
  destruct (session_fulldebug s); simpl; rewrite He; simpl;
    (eexists; split; [reflexivity|]; by repeat split).
Qed.

Lemma login_attempts_unreachable (n : nat) :
  forall s, unreachable W s n ->
  exists s', login_attempts E W n s = (Ret tt, s') /\
    sent s' = (sent s + n)%nat /\
    random_sleeps (trace s') = (random_sleeps (trace s) + n)%nat /\
    session_tokens s' = session_tokens s /\
    session_logged_in s' = (match n with O => session_logged_in s | S _ => false end).
Proof.
  induction n as [|n IH]; intros s Hun.
  - exists s. simpl. repeat split; lia.
  - destruct (Hun O) as (e & He); [lia|]. rewrite Nat.add_0_r in He.
    destruct (login_unreachable "Legacy" s e He) as (s1 & Hl & Hsent & Hsl & Htok).
    simpl. unfold bind at 1. rewrite Hl.
    unfold bind, modify, log, sleep_random; simpl.
    match goal with |- context [login_attempts E W n ?s2] =>
      destruct (IH s2) as (s' & -> & Hsent' & Hsl' & Htok' & Hli')
    end.
    { intros i Hi. destruct (Hun (S i)) as (e' & He'); [lia|]. exists e'.
      simpl. rewrite Hsent, <- He'. f_equal. lia. }
    exists s'. split; [reflexivity|]. simpl in *.
    split; [lia|]. split; [lia|]. split; [congruence|].
    destruct n; exact Hli'.
Qed.

(** X17. Against a server that cannot be reached, [doLogin] makes exactly
    [tries] login attempts, each of one request and each followed by one
    random sleep, and returns False with the session logged out and the tokens
    untouched. With [tries <= 0] it makes no attempt at all and returns False
    when the session was not logged in. *)
Theorem doLogin_unreachable (add_vehicles : jvalue -> M unit) (update : M bool)
    (tries : Z) (s : conn) :
  unreachable W s (Z.to_nat tries) ->
  session_logged_in s = false \/ 1 <= tries ->
  exists s', doLogin E W add_vehicles update tries s = (Ret false, s') /\
    sent s' = (sent s + Z.to_nat tries)%nat /\
    random_sleeps (trace s') = (random_sleeps (trace s) + Z.to_nat tries)%nat /\
    session_logged_in s' = false /\
    session_tokens s' = session_tokens s.
Proof.
  intros Hun Hout.
  destruct (login_attempts_unreachable (Z.to_nat tries)
              (emit (EvLog "debug" "Initiating new login") s) Hun)
    as (s' & Hrun & Hsent & Hsl & Htok & Hli).
  assert (Hfalse : session_logged_in s' = false).
  { rewrite Hli. destruct (Z.to_nat tries) eqn:Hn; [|reflexivity].
    destruct Hout; [assumption|lia]. }
  unfold doLogin, doLogin_session, bind, log, modify, gets. rewrite Hrun. rewrite Hfalse.
  simpl. exists s'. by repeat split.
Qed.

End LoginAttemptProperties.

(** ** The vehicle list of [doLogin] *)

Section VehicleListingProperties.
Context (E : pyenv) (W : world).

Lemma doLogin_session_true (tries : Z) (s s1 : conn) :
  doLogin_session E W tries s = (Ret true, s1) -> session_logged_in s1 = true.
Proof.
  unfold doLogin_session, bind, log, modify, gets, lift.
  destruct (login_attempts E W (Z.to_nat tries) _) as [[[]|e] s0]; [|discriminate].
  destruct (session_logged_in s0) eqn:Hli; simpl; [|discriminate].
  destruct (dict_item (session_tokens s0) "Legacy") as [legacy|e]; simpl; [|discriminate].
  destruct (py_copy legacy); simpl; [|discriminate].
  intros [= <-]. exact Hli.
Qed.

(** X18. [doLogin] after a successful login, when the list of vehicles cannot be
    fetched. If the server answers with an error status (other than 429),
    [doLogin] returns False and marks the session logged out; Content-Type
    has been removed from the session headers and the tokens are kept. If the
    request fails in the transport, the failure leaves [doLogin] and the
    session stays marked logged in. *)
Theorem doLogin_without_vehicles (add_vehicles : jvalue -> M unit) (update : M bool)
    (tries : Z) (s s1 : conn) :
  doLogin_session E W tries s = (Ret true, s1) ->
  (forall q, w_reply W (sent s1) = Reply q -> 400 <= status q -> status q <> 429 ->
     exists s', doLogin E W add_vehicles update tries s = (Ret false, s') /\
       session_logged_in s' = false /\
       sent s' = S (sent s1) /\
       session_headers s' = delete "Content-Type" (session_headers s1) /\
       session_tokens s' = session_tokens s1) /\
  (forall e, w_reply W (sent s1) = Fails e -> is_ClientResponseError e = false ->
     exists s', doLogin E W add_vehicles update tries s = (Raise e, s') /\
       session_logged_in s' = true /\
       sent s' = S (sent s1)).
Proof.
  intros Hsession. split.
  - intros q Hq Hge Hne.
    unfold doLogin. unfold bind at 1. rewrite Hsession. simpl.
    unfold bind at 1, log at 1, modify at 1. unfold bind at 1, modify at 1.
    unfold bind at 1.
    match goal with |- context [get W ?u ?v 0 ?s2] =>
      destruct (get_refused W u v 0 s2 q Hq Hge (or_introl Hne))
        as (s3 & -> & Hsent & _ & _ & _ & Htok & Hhd & _)
    end.
    unfold bind, lift, status_envelope, py_get.
    rewrite lookup_singleton_ne by done. simpl.
    eexists. split; [reflexivity|]. simpl in *. by repeat split.
  - intros e He Hne.
    unfold doLogin. unfold bind at 1. rewrite Hsession. simpl.
    unfold bind at 1, log at 1, modify at 1. unfold bind at 1, modify at 1.
    unfold bind at 1.
    match goal with |- context [get W ?u ?v 0 ?s2] =>
      destruct (get_unanswered W u v 0 s2 e He Hne) as (s3 & -> & Hs & _)
    end.
    exists s3. split; [reflexivity|].
    destruct Hs as ((Hli & _) & Hsent & _). simpl in *.
    split; [|lia]. rewrite Hli. by apply (doLogin_session_true tries s).
Qed.

(** X19. [doLogin] ignores the result of the update it ends with: once the login
    succeeded and the server listed the vehicles ("data" is present and not
    null), [doLogin] returns True whenever adding the vehicles and [update]
    return, also when [update] returned False. *)
Theorem doLogin_ignores_update_result (add_vehicles : jvalue -> M unit) (update : M bool)
    (tries : Z) (s s1 : conn) (q : response) (body : gmap string jvalue) (data : jvalue) :
  doLogin_session E W tries s = (Ret true, s1) ->
  w_reply W (sent s1) = Reply q -> status q < 400 -> status q <> 204 ->
  json q = Some (JObj body) -> body !! "data" = Some data -> data <> JNull ->
  exists s2,
    session_logged_in s2 = true /\ sent s2 = S (sent s1) /\
    session_tokens s2 = session_tokens s1 /\
    forall s3 b s4,
      add_vehicles data s2 = (Ret tt, s3) -> update s3 = (Ret b, s4) ->
      doLogin E W add_vehicles update tries s = (Ret true, s4).
Proof.
  intros Hsession Hq Hlt H204 Hjson Hdata Hnull.
  pose proof (doLogin_session_true tries s s1 Hsession) as Hli.
  unfold doLogin. unfold bind at 1. rewrite Hsession. simpl.
  unfold bind at 1, log at 1, modify at 1. unfold bind at 1, modify at 1.
  unfold bind at 1.
  match goal with |- context [get W ?u ?v 0 ?s0] =>
    destruct (get_answered W u v 0 s0 q Hq Hlt) as (s2 & -> & Hs & _)
  end.
  exists (emit (EvLog "debug" "Found vehicle(s) associated with account.") s2).
  destruct Hs as ((Hli2 & Htok & _) & Hsent & _). simpl in *.
  split; [congruence|]. split; [lia|]. split; [exact Htok|].
  intros s3 b s4 Hadd Hupd.
  unfold request_value. destruct (Z.eqb_spec (status q) 204); [contradiction|].
  rewrite Hjson. simpl.
  unfold bind at 1, lift, py_get. rewrite Hdata. simpl.
  destruct data; try contradiction;
    unfold bind, log, modify; rewrite Hadd, Hupd; reflexivity.
Qed.

End VehicleListingProperties.

(** ** Action results *)

Section ActionResultProperties.
Context (E : pyenv) (W : world).

Lemma handle_action_result_body (r : response) (s : conn) (body : gmap string jvalue) :
  json r = Some (JObj body) -> body <> ∅ ->
  let logged := emit (EvLog "debug" "Request returned with request id") s in
  (body !! "data" = None ->
     _handle_action_result E (PResp r) s = (Ret (request_handle E (JNum 0)), logged)) /\
  (forall data, body !! "data" = Some (JObj data) ->
     _handle_action_result E (PResp r) s =
       (Ret (request_handle E (default (JNum 0) (data !! "requestID"))), logged)) /\
  (forall v, body !! "data" = Some v -> (forall data, v <> JObj data) ->
     _handle_action_result E (PResp r) s = (Raise AttributeError, s)).
Proof.
  intros Hj Hne logged.
  unfold _handle_action_result, bind, response_json, request_handle.
  rewrite Hj. simpl. rewrite bool_decide_eq_false_2 by done. simpl.
  unfold lift, py_get.
  split; [intros ->; simpl; by rewrite lookup_empty|].
  split; [intros data ->; reflexivity|].
  intros v -> Hobj. simpl. destruct v; try reflexivity. by destruct (Hobj m).
Qed.

(** X20. The cases of [_handle_action_result] on a raw response. A body that
    cannot be decoded raises the decoding error; a falsy body (null, false, 0,
    "", [] or {}) raises Exception("Invalid or no response"); a truthy body
    that is neither 429 nor an object raises AttributeError. For an object
    that is not empty the result is {"id": str(requestID)}, the request id
    being 0 when "data" is absent or holds no "requestID"; a "data" that is
    not an object (null, say) raises AttributeError. *)
Theorem handle_action_result_cases (r : response) (s : conn) :
  let logged := emit (EvLog "debug" "Request returned with request id") s in
  (json r = None -> _handle_action_result E (PResp r) s = (Raise JSONError, s)) /\
  (forall v, json r = Some v -> truthy v = false ->
     _handle_action_result E (PResp r) s = (Raise (Exception_ "Invalid or no response"), s)) /\
  (forall v, json r = Some v -> truthy v = true -> py_eq_int v 429 = false ->
     (forall body, v <> JObj body) ->
     _handle_action_result E (PResp r) s = (Raise AttributeError, s)) /\
  (forall body, json r = Some (JObj body) -> body <> ∅ ->
     (body !! "data" = None ->
        _handle_action_result E (PResp r) s = (Ret (request_handle E (JNum 0)), logged)) /\
     (forall data, body !! "data" = Some (JObj data) ->
        _handle_action_result E (PResp r) s =
          (Ret (request_handle E (default (JNum 0) (data !! "requestID"))), logged)) /\
     (forall v, body !! "data" = Some v -> (forall data, v <> JObj data) ->
        _handle_action_result E (PResp r) s = (Raise AttributeError, s))).
Proof.
  intros logged.
  split; [|split; [|split]].
  - intros Hj. unfold _handle_action_result, bind, response_json. by rewrite Hj.
  - intros v Hj Ht. unfold _handle_action_result, bind, response_json.
    rewrite Hj. simpl. by rewrite Ht.
  - intros v Hj Ht H429 Hobj. unfold _handle_action_result, bind, response_json.
    rewrite Hj. simpl. rewrite Ht, H429. simpl.
    destruct v; try reflexivity. by destruct (Hobj m).
  - intros body Hj Hne. by apply handle_action_result_body.
Qed.

Lemma send_refused (method url vin : string) (tries : Z) (raw : bool) (s : conn)
    (q : response) :
  w_reply W (sent s) = Reply q -> 400 <= status q ->
  status q <> 429 \/ 3 <= tries ->
  exists s', send_rec W method (depth tries) url vin tries raw s =
               (Raise (ClientResponseError (status q)), s') /\
    requests_only 1 s s'.
Proof.
  intros Hq Hge Hnot.
  assert (Hretry : (status q =? 429) && (tries <? MAX_RETRIES_ON_RATE_LIMIT) = false).
  { unfold MAX_RETRIES_ON_RATE_LIMIT. apply andb_false_iff.
    destruct Hnot; [left|right]; lia. }
  rewrite send_unfold. unfold send_body, try_except, _make_url.
  destruct (request_reply W method url raw s q Hq) as (s1 & Hs & _ & ->).
  destruct (Z.leb_spec 400 (status q)); [|lia]. simpl. rewrite Hretry.
  exists s1. by split.
Qed.

Lemma send_answered (method url vin : string) (tries : Z) (raw : bool) (s : conn)
    (q : response) :
  w_reply W (sent s) = Reply q -> status q < 400 ->
  exists s', send_rec W method (depth tries) url vin tries raw s =
               (Ret (request_value raw q), s') /\
    requests_only 1 s s'.
Proof.
  intros Hq Hlt.
  rewrite send_unfold. unfold send_body, try_except, _make_url.
  destruct (request_reply W method url raw s q Hq) as (s1 & Hs & _ & ->).
  destruct (Z.leb_spec 400 (status q)); [lia|].
  exists s1. by split.
Qed.

Lemma action_accepted (name method url : string) (s : conn) (q : response)
    (body data : gmap string jvalue) :
  w_reply W (sent s) = Reply q -> status q < 400 ->
  json q = Some (JObj body) -> body !! "data" = Some (JObj data) ->
  exists s', action E name (send_rec W method (depth 0) url "" 0 true) s =
      (Ret (request_handle E (default (JNum 0) (data !! "requestID"))), s') /\
    sent s' = S (sent s).
Proof.
  intros Hq Hlt Hjson Hdata.
  destruct (send_answered method url "" 0 true s q Hq Hlt) as (s1 & Hsend & Hs).
  unfold action, try_except. unfold bind at 1. rewrite Hsend. simpl.
  assert (Hne : body <> ∅).
  { intros ->. by rewrite lookup_empty in Hdata. }
  destruct (handle_action_result_body q s1 body Hjson Hne) as (_ & H & _).
  rewrite (H data Hdata). eexists. split; [reflexivity|].
  destruct Hs as (_ & Hsent & _). simpl. lia.
Qed.

Lemma action_refused (name method url : string) (s : conn) (q : response) :
  w_reply W (sent s) = Reply q -> 400 <= status q -> status q <> 429 ->
  exists s', action E name (send_rec W method (depth 0) url "" 0 true) s =
      (Raise (RaisedFrom ("Unknown error during " ++ name) (ClientResponseError (status q))), s') /\
    sent s' = S (sent s).
Proof.
  intros Hq Hge Hne.
  destruct (send_refused method url "" 0 true s q Hq Hge (or_introl Hne)) as (s1 & Hsend & Hs).
  unfold action, try_except. unfold bind at 1. rewrite Hsend. simpl.
  eexists. split; [reflexivity|].
  destruct Hs as (_ & Hsent & _). lia.
Qed.

(** X22. Each of the ten actions of [actions] sends one request and hands the
    response to [_handle_action_result]: on an answer below 400 whose body
    holds an object under "data" it returns {"id": str(requestID)}; on an
    error status other than 429 it raises Exception("Unknown error during
    <name>") caused by the ClientResponseError, [name] being the name of the
    action itself. *)
Theorem actions_answer_or_wrap (vin : string) (flag : bool) (name : string)
    (act : M jvalue) (s : conn) (q : response) :
  In (name, act) (actions E W vin flag) ->
  w_reply W (sent s) = Reply q ->
  (forall body data,
     status q < 400 -> json q = Some (JObj body) -> body !! "data" = Some (JObj data) ->
     exists s', act s = (Ret (request_handle E (default (JNum 0) (data !! "requestID"))), s') /\
       sent s' = S (sent s)) /\
  (400 <= status q -> status q <> 429 ->
     exists s', act s = (Raise (RaisedFrom ("Unknown error during " ++ name)
                                  (ClientResponseError (status q))), s') /\
       sent s' = S (sent s)).
Proof.
  intros Hin Hq. simpl in Hin.
  repeat (destruct Hin as [[= <- <-]|Hin];
          [split;
           [ intros body data Hlt Hj Hd; eapply action_accepted; eassumption
           | intros Hge Hne; by apply action_refused ]|]).
  contradiction.
Qed.

End ActionResultProperties.

(** ** The S-PIN check and [setLock] *)

Section SpinProperties.
Context (E : pyenv) (W : world).

Lemma check_spin_state_answered (s : conn) (q : response) (body : gmap string jvalue) :
  w_reply W (sent s) = Reply q ->
  status q < 400 -> status q <> 204 -> json q = Some (JObj body) ->
  exists s', requests_only 1 s s' /\
    (body !! "remainingTries" = None \/ body !! "remainingTries" = Some JNull ->
       check_spin_state E W s = (Raise (Exception_ "Couldn't determine S-PIN state."), s')) /\
    (forall n, body !! "remainingTries" = Some (JNum n) ->
       check_spin_state E W s =
         (if n <? 3 then Raise (Exception_ spin_lockout_message) else Ret true, s')).
Proof.
  intros Hq Hlt H204 Hj. unfold check_spin_state.
  match goal with |- context [get W ?u ?v 0] =>
    destruct (get_answered W u v 0 s q Hq Hlt) as (s' & Hget & Hs & _)
  end.
  exists s'. split; [exact Hs|].
  unfold bind. rewrite Hget. unfold request_value.
  destruct (Z.eqb_spec (status q) 204); [contradiction|]. rewrite Hj. simpl.
  unfold lift. split.
  - intros [-> | ->]; reflexivity.
  - intros k ->. simpl. destruct (k <? 3); reflexivity.
Qed.

Lemma check_spin_state_refused (s : conn) (q : response) :
  w_reply W (sent s) = Reply q -> 400 <= status q -> status q <> 429 ->
  exists s', check_spin_state E W s =
               (Raise (Exception_ "Couldn't determine S-PIN state."), s') /\
    sent s' = S (sent s).
Proof.
  intros Hq Hge Hne. unfold check_spin_state.
  match goal with |- context [get W ?u ?v 0] =>
    destruct (get_refused W u v 0 s q Hq Hge (or_introl Hne)) as (s' & Hget & Hsent & _)
  end.
  exists s'. split; [|exact Hsent].
  unfold bind. rewrite Hget. unfold lift, status_envelope. simpl.
  rewrite lookup_singleton_ne by done. reflexivity.
Qed.

(** X23. [check_spin_state] returns True only when the server reports at least
    three remaining tries. It raises Exception("Couldn't determine S-PIN
    state.") when the request is answered with an error status (other than
    429) or when the answer holds no "remainingTries" (or null), and the
    lock-out exception when fewer than three tries remain. One request is
    sent in each case. *)
Theorem check_spin_state_guard (s : conn) (q : response) :
  w_reply W (sent s) = Reply q ->
  (400 <= status q -> status q <> 429 ->
     exists s', check_spin_state E W s =
                  (Raise (Exception_ "Couldn't determine S-PIN state."), s') /\
       sent s' = S (sent s)) /\
  (forall body, status q < 400 -> status q <> 204 -> json q = Some (JObj body) ->
     exists s', sent s' = S (sent s) /\
       (body !! "remainingTries" = None \/ body !! "remainingTries" = Some JNull ->
          check_spin_state E W s =
            (Raise (Exception_ "Couldn't determine S-PIN state."), s')) /\
       (forall n, body !! "remainingTries" = Some (JNum n) -> n < 3 ->
          check_spin_state E W s = (Raise (Exception_ spin_lockout_message), s')) /\
       (forall n, body !! "remainingTries" = Some (JNum n) -> 3 <= n ->
          check_spin_state E W s = (Ret true, s'))).
Proof.
  intros Hq. split.
  - intros Hge Hne. by apply (check_spin_state_refused s q).
  - intros body Hlt H204 Hj.
    destruct (check_spin_state_answered s q body Hq Hlt H204 Hj) as (s' & Hs & Hnone & Hnum).
    exists s'. split; [destruct Hs as (_ & Hsent & _); lia|].
    split; [exact Hnone|]. split.
    + intros n Hn Hlow. rewrite (Hnum n Hn). destruct (Z.ltb_spec n 3); [reflexivity|lia].
    + intros n Hn Hok. rewrite (Hnum n Hn). destruct (Z.ltb_spec n 3); [lia|reflexivity].
Qed.

(** X24. [setLock] checks the S-PIN state before anything else and outside its
    [try] block: with fewer than three remaining tries it raises the lock-out
    exception of [check_spin_state] unwrapped, after that single request, and
    no lock request is sent. With three or more it sends the lock request:
    an error status other than 429 raises Exception("Unknown error during
    setLock"), an accepted request returns {"id": str(requestID)}. *)
Theorem setLock_guarded_by_spin_state (vin : string) (lock : bool) (s : conn)
    (q : response) (body : gmap string jvalue) (n : Z) :
  w_reply W (sent s) = Reply q ->
  status q < 400 -> status q <> 204 -> json q = Some (JObj body) ->
  body !! "remainingTries" = Some (JNum n) ->
  (n < 3 ->
     exists s', setLock E W vin lock s = (Raise (Exception_ spin_lockout_message), s') /\
       sent s' = S (sent s)) /\
  (3 <= n ->
     forall q2, w_reply W (S (sent s)) = Reply q2 ->
     (400 <= status q2 -> status q2 <> 429 ->
        exists s', setLock E W vin lock s =
            (Raise (RaisedFrom "Unknown error during setLock"
                      (ClientResponseError (status q2))), s') /\
          sent s' = S (S (sent s))) /\
     (forall body2 data, status q2 < 400 -> json q2 = Some (JObj body2) ->
        body2 !! "data" = Some (JObj data) ->
        exists s', setLock E W vin lock s =
            (Ret (request_handle E (default (JNum 0) (data !! "requestID"))), s') /\
          sent s' = S (S (sent s)))).
Proof.
  intros Hq Hlt H204 Hj Hn.
  destruct (check_spin_state_answered s q body Hq Hlt H204 Hj) as (s1 & Hs & _ & Hnum).
  specialize (Hnum n Hn). destruct Hs as (_ & Hsent & _).
  split.
  - intros Hlow. exists s1. split; [|lia].
    unfold setLock, bind. rewrite Hnum.
    destruct (Z.ltb_spec n 3); [reflexivity|lia].
  - intros Hok q2 Hq2.
    assert (Hq2' : w_reply W (sent s1) = Reply q2).
    { rewrite <- Hq2. f_equal. lia. }
    assert (Hrun : check_spin_state E W s = (Ret true, s1)).
    { rewrite Hnum. destruct (Z.ltb_spec n 3); [lia|reflexivity]. }
    split.
    + intros Hge Hne. unfold setLock, bind. rewrite Hrun.
      match goal with |- context [action E ?name (post W ?u "" 0 true) s1] =>
        destruct (action_refused E W name "POST" u s1 q2 Hq2' Hge Hne) as (s' & Hact & Hsent')
      end.
      exists s'. split; [exact Hact|lia].
    + intros body2 data Hlt2 Hj2 Hd.
      unfold setLock, bind. rewrite Hrun.
      match goal with |- context [action E ?name (post W ?u "" 0 true) s1] =>
        destruct (action_accepted E W name "POST" u s1 q2 body2 data Hq2' Hlt2 Hj2 Hd)
          as (s' & Hact & Hsent')
      end.
      exists s'. split; [exact Hact|lia].
Qed.

End SpinProperties.

(** ** [logout] and [update] *)

Section SessionProperties.
Context (E : pyenv) (W : world).

Lemma header_identity_get_run (key : string) (s : conn) :
  header_identity_get key s =
    (match session_headers s !! "identity" with
     | Some _ => Raise AttributeError
     | None => Ret JNull
     end, s).
Proof.
  unfold header_identity_get, bind, gets, lift, py_get.
  destruct (session_headers s !! "identity"); [reflexivity|].
  simpl. by rewrite lookup_empty.
Qed.

(** X25. [logout] removes the Authorization header and never sends a request:
    it looks for the tokens to revoke in the session headers, which hold
    none. The tokens and the logged-in flag are left as they were. When the
    session is logged in and a header named "identity" exists, its value is a
    string and [logout] raises AttributeError; otherwise it returns.
    [terminate] logs and does the same. *)
Theorem logout_sends_nothing (s : conn) :
  exists s',
    logout W s =
      (if session_logged_in s && bool_decide (is_Some (session_headers s !! "identity"))
       then Raise AttributeError else Ret tt, s') /\
    terminate W s = (fst (logout W s), emit (EvLog "info" "Initiating logout") s') /\
    sent s' = sent s /\
    session_headers s' = delete "Authorization" (session_headers s) /\
    session_tokens s' = session_tokens s /\
    session_logged_in s' = session_logged_in s.
Proof.
  exists (set_headers (delete "Authorization" (session_headers s)) s).
  assert (Hrun : forall s0,
    logout W s0 =
      (if session_logged_in s0 && bool_decide (is_Some (session_headers s0 !! "identity"))
       then Raise AttributeError else Ret tt,
       set_headers (delete "Authorization" (session_headers s0)) s0)).
  { intros s0. unfold logout. unfold bind at 1, modify at 1. unfold bind at 1, gets at 1.
    simpl. destruct (session_logged_in s0); [|reflexivity]. simpl.
    unfold bind at 1. rewrite header_identity_get_run. simpl.
    rewrite lookup_delete_ne by done.
    destruct (session_headers s0 !! "identity") as [v|] eqn:Hid; [reflexivity|].
    simpl. unfold bind at 1, ret at 1. unfold bind at 1.
    rewrite header_identity_get_run. simpl.
    rewrite lookup_delete_ne by done. rewrite Hid. reflexivity. }
  split; [apply Hrun|].
  split; [|by repeat split].
  unfold terminate, bind, log, modify. rewrite !Hrun. reflexivity.
Qed.

Lemma validate_tokens_without_identity (s : conn) :
  session_tokens s !! "identity" = None ->
  validate_tokens E W s = (Raise (KeyError "identity"), s).
Proof.
  intros Hnone.
  unfold validate_tokens, token_expiries, bind, gets, lift, dict_item. by rewrite Hnone.
Qed.

(** X26. [update] never reports success on a session that is not logged in and
    holds no "identity" token set (one on which [doLogin] never succeeded):
    the login it performs stores the tokens under "Legacy" only, so that when
    this login succeeds [validate_tokens] raises KeyError("identity"), which
    [update] logs before it returns False. *)
Theorem update_without_identity_fails (relogin : M bool) (update_vehicles : M unit)
    (s : conn) :
  session_logged_in s = false ->
  session_tokens s !! "identity" = None ->
  fst (update E W relogin update_vehicles s) <> Ret true /\
  session_tokens (snd (update E W relogin update_vehicles s)) !! "identity" = None /\
  (forall s1, _login E W "Legacy" s = (Ret true, s1) ->
     update E W relogin update_vehicles s =
       (Ret false,
        emit (EvLogError "warning" "Could not update information" (KeyError "identity")) s1)).
Proof.
  intros Hout Hnone.
  pose proof (login_frame E W "Legacy" s) as (Hkeep & _).
  specialize (Hkeep "identity" ltac:(done)). rewrite Hnone in Hkeep.
  unfold update, logged_in, bind, gets. rewrite Hout. simpl.
  destruct (_login E W "Legacy" s) as [[[|]|e] s1]; simpl in *.
  - unfold try_except. rewrite (validate_tokens_without_identity s1 Hkeep). simpl.
    split; [discriminate|]. split; [exact Hkeep|].
    intros s2 [= <-]. reflexivity.
  - split; [discriminate|]. split; [exact Hkeep|]. discriminate.
  - split; [discriminate|]. split; [exact Hkeep|]. discriminate.
Qed.

(** X21. [update] on a session that is flagged as logged in never raises,
    whatever the re-login and the vehicle updates do. It returns True when the
    tokens are valid and the vehicle updates return, and False, after logging
    the failure, when the tokens are not valid and the re-login fails. *)
Theorem update_logged_in (relogin : M bool) (update_vehicles : M unit) (s : conn) :
  session_logged_in s = true ->
  (exists b s', update E W relogin update_vehicles s = (Ret b, s')) /\
  (forall s1 s2,
     validate_tokens E W s = (Ret true, s1) ->
     update_vehicles (emit (EvLog "debug" "Going to call vehicle updates") s1) = (Ret tt, s2) ->
     update E W relogin update_vehicles s = (Ret true, s2)) /\
  (forall s1 s2,
     validate_tokens E W s = (Ret false, s1) ->
     relogin (emit (EvLog "info" "Session expired. Initiating new login for account.") s1)
       = (Ret false, s2) ->
     update E W relogin update_vehicles s =
       (Ret false,
        emit (EvLogError "warning" "Could not update information"
                (Exception_ "Login for account failed"))
          (emit (EvLog "warning" "Login for account failed!") s2))).
Proof.
  intros Hin.
  assert (Hupd : update E W relogin update_vehicles s =
    try_except
      (ok <- validate_tokens E W ;;
       (if negb ok then
          log "info" "Session expired. Initiating new login for account." ;;;
          ok <- relogin ;;
          if negb ok then
            log "warning" "Login for account failed!" ;;;
            raise (Exception_ "Login for account failed")
          else ret tt
        else ret tt) ;;;
       log "debug" "Going to call vehicle updates" ;;;
       update_vehicles ;;;
       ret true)
      is_Exception
      (fun error => log_error "warning" "Could not update information" error ;;; ret false) s).
  { unfold update, logged_in. unfold bind at 1, gets at 1. rewrite Hin. reflexivity. }
  rewrite Hupd. split; [|split].
  - apply try_except_returns. intros e s0. do 2 eexists. reflexivity.
  - intros s1 s2 Hv Hu. unfold try_except, bind, log, modify. rewrite Hv. simpl.
    rewrite Hu. reflexivity.
  - intros s1 s2 Hv Hr. unfold try_except, bind, log, modify. rewrite Hv. simpl.
    rewrite Hr. reflexivity.
Qed.

End SessionProperties.

(** ** Data getters *)

Section ParkingPositionProperties.
Context (E : pyenv) (W : world).

(** [get] on an error status: the envelope, and the state of one request on
    a session that the status 401 has logged out. *)
Lemma get_refused_only (url vin : string) (tries : Z) (s : conn) (q : response) :
  w_reply W (sent s) = Reply q -> 400 <= status q ->
  status q <> 429 \/ 3 <= tries ->
  exists s',
    get W url vin tries s = (Ret (PJson (status_envelope (status q))), s') /\
    requests_only 1 (if status q =? 401 then set_logged_in false s else s) s'.
Proof.
  intros Hq Hge Hnot.
  rewrite get_unfold. unfold get_body, try_except, _make_url.
  destruct (request_reply W "GET" url false s q Hq) as (s1 & Hs & Hst & Hr).
  rewrite Hr. destruct (Z.leb_spec 400 (status q)); [|lia]. simpl.
  destruct Hs as ((?&?&?&?&?&?) & ? & ? & ? & ? & ?).
  assert (Hretry : (status q =? 429) && (tries <? MAX_RETRIES_ON_RATE_LIMIT) = false).
  { unfold MAX_RETRIES_ON_RATE_LIMIT. apply andb_false_iff.
    destruct Hnot; [left|right]; lia. }
  destruct (Z.eqb_spec (status q) 400) as [E400|]; simpl.
  { eexists; split; [reflexivity|].
    destruct (Z.eqb_spec (status q) 401); [lia|]. by repeat split. }
  destruct (Z.eqb_spec (status q) 401) as [E401|]; simpl.
  { eexists; split; [reflexivity|]. by repeat split. }
  rewrite Hretry.
  destruct (status q =? 500); simpl;
    [eexists; split; [reflexivity|]; by repeat split|].
  destruct (status q =? 502); simpl;
    eexists; (split; [reflexivity|]); by repeat split.
Qed.

Lemma envelope_lookup (code : Z) (key : string) :
  key <> "status_code" ->
  ({[ "status_code" := JNum code ]} : gmap string jvalue) !! key = None.
Proof. intros Hne. by rewrite lookup_singleton_ne. Qed.

(** X27. [getParkingPosition] once the tokens are validated: a 204 answer gives
    {"isMoving": True, "parkingposition": {}}, an answer below 400 with "data"
    gives {"isMoving": False, "parkingposition": data}, and an error status
    (other than 429) gives False. One request is sent in each case. *)
Theorem getParkingPosition_cases (vin : string) (s s1 : conn) (q : response) :
  validate_tokens E W s = (Ret true, s1) ->
  w_reply W (sent s1) = Reply q ->
  (status q = 204 ->
     exists s', getParkingPosition E W vin s =
         (Ret (PJson (JObj {[ "isMoving" := JBool true; "parkingposition" := JObj ∅ ]})), s') /\
       sent s' = S (sent s1)) /\
  (forall body data,
     status q < 400 -> status q <> 204 -> json q = Some (JObj body) ->
     body !! "data" = Some data ->
     exists s', getParkingPosition E W vin s =
         (Ret (PJson (JObj {[ "isMoving" := JBool false; "parkingposition" := data ]})), s') /\
       sent s' = S (sent s1)) /\
  (400 <= status q -> status q <> 429 ->
     exists s', getParkingPosition E W vin s = (Ret py_false, s') /\
       sent s' = S (sent s1)).
Proof.
  intros Hv Hq. split; [|split].
  - intros H204.
    unfold getParkingPosition. unfold bind at 1. rewrite Hv. simpl.
    match goal with |- context [get W ?u ?v 0] =>
      destruct (get_answered W u v 0 s1 q Hq ltac:(lia)) as (s2 & Hget & Hs & _)
    end.
    unfold try_except. unfold bind at 1. rewrite Hget.
    unfold request_value. rewrite H204. simpl.
    unfold bind, lift, status_envelope. simpl.
    eexists. split; [reflexivity|].
    destruct Hs as (_ & Hsent & _). simpl. lia.
  - intros body data Hlt H204 Hj Hd.
    unfold getParkingPosition. unfold bind at 1. rewrite Hv. simpl.
    match goal with |- context [get W ?u ?v 0] =>
      destruct (get_answered W u v 0 s1 q Hq Hlt) as (s2 & Hget & Hs & _)
    end.
    unfold try_except. unfold bind at 1. rewrite Hget.
    unfold request_value. destruct (Z.eqb_spec (status q) 204); [contradiction|].
    rewrite Hj. simpl. unfold bind, lift. simpl.
    rewrite bool_decide_eq_true_2 by (rewrite Hd; eauto). simpl.
    unfold dict_item. rewrite Hd. simpl.
    eexists. split; [reflexivity|].
    destruct Hs as (_ & Hsent & _). lia.
  - intros Hge Hne.
    unfold getParkingPosition. unfold bind at 1. rewrite Hv. simpl.
    match goal with |- context [get W ?u ?v 0] =>
      destruct (get_refused_only u v 0 s1 q Hq Hge (or_introl Hne)) as (s2 & Hget & Hs)
    end.
    unfold try_except. unfold bind at 1. rewrite Hget.
    unfold bind, lift, status_envelope. simpl.
    rewrite bool_decide_eq_false_2
      by (rewrite envelope_lookup by done; by intros [? ?]).
    simpl. rewrite lookup_singleton_eq. simpl.
    assert (Hz : (status q =? 0) = false) by lia. rewrite Hz. simpl.
    assert (H204 : (status q =? 204) = false) by lia. rewrite H204. simpl.
    eexists. split; [reflexivity|].
    destruct Hs as (_ & Hsent & _). simpl.
    destruct (status q =? 401); simpl in Hsent; lia.
Qed.

End ParkingPositionProperties.

Section VehicleDataProperties.
Context (E : pyenv) (W : world).

Lemma find_vehicle_skips (vin : string) (before rest : list jvalue) :
  Forall (other_vehicle vin) before ->
  find_vehicle vin (before ++ rest) = find_vehicle vin rest.
Proof.
  induction 1 as [|x before (m & -> & Hne) _ IH]; [reflexivity|].
  simpl. destruct (m !! "vin") as [v|] eqn:Hv; simpl; [|exact IH].
  destruct v; simpl; try exact IH.
  destruct (String.eqb_spec s vin) as [->|]; [by destruct Hne|exact IH].
Qed.

(** X28. [getVehicleData] once the tokens are validated and the server listed
    the vehicles of the account: the result is {"vehicle": v} for the first
    listed vehicle [v] whose "vin" is the requested one, and False when no
    listed vehicle has that "vin". *)
Theorem getVehicleData_finds_first (vin : string) (s s1 : conn) (q : response)
    (body : gmap string jvalue) (vehicles : list jvalue) :
  validate_tokens E W s = (Ret true, s1) ->
  w_reply W (sent s1) = Reply q ->
  status q < 400 -> status q <> 204 -> json q = Some (JObj body) ->
  body !! "data" = Some (JArr vehicles) ->
  (forall before vehicle after,
     vehicles = (before ++ JObj vehicle :: after)%list ->
     Forall (other_vehicle vin) before ->
     vehicle !! "vin" = Some (JStr vin) ->
     exists s', getVehicleData E W vin s =
         (Ret (PJson (JObj {[ "vehicle" := JObj vehicle ]})), s') /\
       sent s' = S (sent s1)) /\
  (Forall (other_vehicle vin) vehicles ->
     exists s', getVehicleData E W vin s = (Ret py_false, s') /\
       sent s' = S (sent s1)).
Proof.
  intros Hv Hq Hlt H204 Hj Hd.
  assert (Hrun : exists s2, sent s2 = S (sent s1) /\
    getVehicleData E W vin s =
      match find_vehicle vin vehicles with
      | Ret (Some vehicle) => (Ret (PJson (JObj {[ "vehicle" := vehicle ]})), s2)
      | Ret None =>
          (Ret py_false, emit (EvLog "warning" ("Could not fetch vehicle data for vin " ++ vin)) s2)
      | Raise e =>
          (Ret py_false, emit (EvLogError "warning" "Could not fetch vehicle data" e) s2)
      end).
  { unfold getVehicleData. unfold bind at 1. rewrite Hv. simpl.
    match goal with |- context [get W ?u ?v 0] =>
      destruct (get_answered W u v 0 s1 q Hq Hlt) as (s2 & Hget & Hs & _)
    end.
    exists s2. split; [destruct Hs as (_ & Hsent & _); lia|].
    unfold try_except. unfold bind at 1. rewrite Hget.
    unfold request_value. destruct (Z.eqb_spec (status q) 204); [contradiction|].
    rewrite Hj. simpl. unfold bind, lift. simpl. rewrite Hd. simpl.
    destruct (find_vehicle vin vehicles) as [[vehicle|]|e]; reflexivity. }
  destruct Hrun as (s2 & Hsent & Hrun). split.
  - intros before vehicle after -> Hbefore Hvin.
    rewrite find_vehicle_skips in Hrun by exact Hbefore.
    simpl in Hrun. rewrite Hvin in Hrun. simpl in Hrun. rewrite String.eqb_refl in Hrun.
    exists s2. by split.
  - intros Hall.
    pose proof (find_vehicle_skips vin vehicles [] Hall) as Hnone.
    rewrite app_nil_r in Hnone. rewrite Hnone in Hrun. simpl in Hrun.
    eexists. split; [exact Hrun|exact Hsent].
Qed.

End VehicleDataProperties.

Section GetterErrorProperties.
Context (E : pyenv) (W : world).

Lemma check_services_object (m : gmap string jvalue) (services : list string) :
  forall s, exists s', check_services (PJson (JObj m)) services s = (Ret tt, s') /\
    requests_only 0 s s'.
Proof.
  induction services as [|service rest IH]; intros s.
  - exists s. split; [reflexivity|]. repeat split; simpl; lia.
  - simpl. unfold bind, lift. simpl.
    destruct (negb (truthy (default JNull (m !! service)))); simpl.
    + destruct (IH (emit (EvLog "debug"
                 ("Did not receive return data for requested service " ++ service)) s))
        as (s' & -> & Hs).
      exists s'. split; [reflexivity|].
      destruct Hs as ((?&?&?&?&?&?) & ? & ? & ? & ? & ?). simpl in *. by repeat split.
    + destruct (IH s) as (s' & -> & Hs). exists s'. by split.
Qed.

(** X29. What the getters return, once the tokens are validated, when the server
    answers with an error status (other than 429). [getPendingRequests] and
    [getSelectiveStatus] return the envelope {"status_code": status} with the
    time of the call added under "refreshTimestamp"; [getOperationList]
    returns the envelope; [getVehicleData], [getTripLast] and
    [wakeUpVehicle] return False. None of them raises. *)
Theorem getters_on_error_status (vin : string) (services : list string)
    (s s1 : conn) (q : response) :
  validate_tokens E W s = (Ret true, s1) ->
  w_reply W (sent s1) = Reply q -> 400 <= status q -> status q <> 429 ->
  let t := w_now W (clock s1) in
  (exists s', getPendingRequests E W vin s = (Ret (stamped_envelope (status q) t), s')) /\
  (exists s', getSelectiveStatus E W vin services s =
                (Ret (stamped_envelope (status q) t), s')) /\
  (exists s', getOperationList E W vin s = (Ret (PJson (status_envelope (status q))), s')) /\
  (exists s', getVehicleData E W vin s = (Ret py_false, s')) /\
  (exists s', getTripLast E W vin s = (Ret py_false, s')) /\
  (exists s', wakeUpVehicle E W vin s = (Ret py_false, s')).
Proof.
  intros Hv Hq Hge Hne t.
  assert (Hz : (status q =? 0) = false) by lia.
  assert (Hget : forall u, exists s2,
            get W u "" 0 s1 = (Ret (PJson (status_envelope (status q))), s2) /\
            clock s2 = clock s1).
  { intros u.
    destruct (get_refused_only W u "" 0 s1 q Hq Hge (or_introl Hne)) as (s2 & Hget & Hs).
    exists s2. split; [exact Hget|].
    destruct Hs as (_ & _ & _ & Hcl & _). rewrite Hcl.
    destruct (status q =? 401); reflexivity. }
  repeat split.
  - unfold getPendingRequests. unfold bind at 1. rewrite Hv. simpl.
    match goal with |- context [get W ?u "" 0] =>
      destruct (Hget u) as (s2 & Hg & Hcl) end.
    unfold try_except. unfold bind at 1. rewrite Hg.
    unfold bind, status_envelope. simpl.
    rewrite bool_decide_eq_false_2 by (apply insert_non_empty). simpl.
    unfold now. rewrite Hcl. eexists. reflexivity.
  - unfold getSelectiveStatus. unfold bind at 1. rewrite Hv. simpl.
    match goal with |- context [get W ?u "" 0] =>
      destruct (Hget u) as (s2 & Hg & Hcl) end.
    unfold try_except. unfold bind at 1. rewrite Hg.
    unfold status_envelope. unfold bind at 1.
    destruct (check_services_object {[ "status_code" := JNum (status q) ]} services s2)
      as (s3 & -> & Hs).
    simpl. rewrite bool_decide_eq_false_2 by (apply insert_non_empty). simpl.
    unfold bind, now. destruct Hs as (_ & _ & _ & Hcl3 & _). rewrite Hcl3, Hcl.
    eexists. reflexivity.
  - unfold getOperationList. unfold bind at 1. rewrite Hv. simpl.
    match goal with |- context [get W ?u "" 0] =>
      destruct (Hget u) as (s2 & Hg & Hcl) end.
    unfold try_except. unfold bind at 1. rewrite Hg.
    unfold bind, lift, status_envelope. simpl.
    rewrite envelope_lookup by done. simpl.
    rewrite lookup_singleton_eq. simpl. rewrite Hz. simpl.
    eexists. reflexivity.
  - unfold getVehicleData. unfold bind at 1. rewrite Hv. simpl.
    match goal with |- context [get W ?u "" 0] =>
      destruct (Hget u) as (s2 & Hg & Hcl) end.
    unfold try_except. unfold bind at 1. rewrite Hg.
    unfold bind, lift, status_envelope. simpl.
    rewrite envelope_lookup by done. simpl.
    eexists. reflexivity.
  - unfold getTripLast. unfold bind at 1. rewrite Hv. simpl.
    match goal with |- context [get W ?u "" 0] =>
      destruct (Hget u) as (s2 & Hg & Hcl) end.
    unfold try_except. unfold bind at 1. rewrite Hg.
    unfold bind, lift, status_envelope. simpl.
    rewrite bool_decide_eq_false_2
      by (rewrite envelope_lookup by done; by intros [? ?]).
    simpl. eexists. reflexivity.
  - unfold wakeUpVehicle. unfold bind at 1. rewrite Hv. simpl.
    match goal with |- context [post W ?u "" 0 true] =>
      destruct (send_refused W "POST" u "" 0 true s1 q Hq Hge (or_introl Hne))
        as (s2 & Hp & _)
    end.
    unfold try_except, post. rewrite Hp. simpl.
    eexists. reflexivity.
Qed.

End GetterErrorProperties.

(** ** [get_request_status] *)

Section RequestStatusProperties.
Context (E : pyenv) (W : world).

Lemma scan_requests_skips (requestId : string) (others : list jvalue) :
  Forall (other_request requestId) others ->
  forall found, scan_requests requestId others found = Ret found.
Proof.
  induction 1 as [|x others (m & -> & Hne) _ IH]; intros found; [reflexivity|].
  simpl. rewrite Hne. apply IH.
Qed.

Lemma scan_requests_app (requestId : string) (before after : list jvalue) :
  forall found,
  scan_requests requestId (before ++ after) found =
    match scan_requests requestId before found with
    | Ret found' => scan_requests requestId after found'
    | Raise e => Raise e
    end.
Proof.
  induction before as [|x before IH]; intros found; [reflexivity|].
  simpl. destruct (py_get x "id" (JStr "")) as [id|e]; [|reflexivity].
  destruct (py_eq_str id requestId); [|apply IH].
  destruct (py_get x "status" JNull); [apply IH|reflexivity].
Qed.

(** X30. [get_request_status] on a session that is logged in with valid tokens.
    When the pending requests are listed, the result is the label of the raw
    status that the scan of the list found; when the server answers with an
    error status (other than 429) the result is None; when the second token
    validation, the one of [getPendingRequests], fails, the False it returns
    has no [get] and the method raises Exception("Failure during get request
    status") while handling the AttributeError. In the scan the last listed
    request whose id matches decides. *)
Theorem get_request_status_reports (add_vehicles : jvalue -> M unit) (update : M bool)
    (vin requestId : string) (s s1 : conn) :
  session_logged_in s = true ->
  validate_tokens E W s = (Ret true, s1) ->
  (forall s2 q body requests found,
     validate_tokens E W s1 = (Ret true, s2) ->
     w_reply W (sent s2) = Reply q ->
     status q < 400 -> status q <> 204 -> json q = Some (JObj body) ->
     body !! "data" = Some (JArr requests) ->
     scan_requests requestId requests JNull = Ret found ->
     exists s', get_request_status E W add_vehicles update vin requestId s =
                  (Ret (request_status_label found), s')) /\
  (forall s2 q,
     validate_tokens E W s1 = (Ret true, s2) ->
     w_reply W (sent s2) = Reply q -> 400 <= status q -> status q <> 429 ->
     exists s', get_request_status E W add_vehicles update vin requestId s =
                  (Ret JNull, s')) /\
  (forall s2,
     validate_tokens E W s1 = (Ret false, s2) ->
     exists s', get_request_status E W add_vehicles update vin requestId s =
                  (Raise (RaisedFrom "Failure during get request status" AttributeError), s')) /\
  (forall before request after found,
     scan_requests requestId before JNull = Ret found ->
     py_eq_str (default (JStr "") (request !! "id")) requestId = true ->
     Forall (other_request requestId) after ->
     scan_requests requestId (before ++ JObj request :: after) JNull =
       Ret (default JNull (request !! "status"))).
Proof.
  intros Hin Hv.
  assert (Hhead : forall r s',
    (response <- getPendingRequests E W vin ;;
     requests <- lift (resp_get response "data" (JArr [])) ;;
     items <- lift (py_iter requests) ;;
     found <- lift (scan_requests requestId items JNull) ;;
     ret (request_status_label found)) s1 = (r, s') ->
    get_request_status E W add_vehicles update vin requestId s =
      match r with
      | Ret v => (Ret v, s')
      | Raise e =>
          (Raise (RaisedFrom "Failure during get request status" e),
           emit (EvLogError "warning" "Failure during get request status" e) s')
      end).
  { intros r s' Hrest.
    unfold get_request_status, logged_in. unfold bind at 1, gets at 1. rewrite Hin. simpl.
    unfold bind at 1, ret at 1. unfold try_except. unfold bind at 1. rewrite Hv. simpl.
    unfold bind at 1, ret at 1. rewrite Hrest. destruct r; reflexivity. }
  assert (Hret : forall v s',
    (response <- getPendingRequests E W vin ;;
     requests <- lift (resp_get response "data" (JArr [])) ;;
     items <- lift (py_iter requests) ;;
     found <- lift (scan_requests requestId items JNull) ;;
     ret (request_status_label found)) s1 = (Ret v, s') ->
    get_request_status E W add_vehicles update vin requestId s = (Ret v, s')).
  { intros v s' Hrest. by rewrite (Hhead _ _ Hrest). }
  assert (Hraise : forall e s',
    (response <- getPendingRequests E W vin ;;
     requests <- lift (resp_get response "data" (JArr [])) ;;
     items <- lift (py_iter requests) ;;
     found <- lift (scan_requests requestId items JNull) ;;
     ret (request_status_label found)) s1 = (Raise e, s') ->
    get_request_status E W add_vehicles update vin requestId s =
      (Raise (RaisedFrom "Failure during get request status" e),
       emit (EvLogError "warning" "Failure during get request status" e) s')).
  { intros e s' Hrest. by rewrite (Hhead _ _ Hrest). }
  clear Hhead.
  split; [|split; [|split]].
  - intros s2 q body requests found Hv2 Hq Hlt H204 Hj Hd Hscan.
    assert (Hne : body <> ∅).
    { intros ->. by rewrite lookup_empty in Hd. }
    destruct (get_answered W (BASE_API E ++ "/vehicle/v1/vehicles/" ++ vin ++ "/pendingrequests")
                "" 0 s2 q Hq Hlt) as (s3 & Hget & _).
    eexists. apply Hret.
    unfold getPendingRequests. unfold bind at 1. unfold bind at 1. rewrite Hv2. simpl.
    unfold try_except. unfold bind at 1. rewrite Hget.
    unfold request_value. destruct (Z.eqb_spec (status q) 204); [contradiction|].
    rewrite Hj. simpl. rewrite bool_decide_eq_false_2 by done. simpl.
    unfold bind, now, lift. simpl.
    rewrite lookup_insert_ne by done. rewrite Hd. simpl. rewrite Hscan. reflexivity.
  - intros s2 q Hv2 Hq Hge Hne.
    destruct (get_refused_only W (BASE_API E ++ "/vehicle/v1/vehicles/" ++ vin ++ "/pendingrequests")
                "" 0 s2 q Hq Hge (or_introl Hne)) as (s3 & Hget & _).
    eexists. apply Hret.
    unfold getPendingRequests. unfold bind at 1. unfold bind at 1. rewrite Hv2. simpl.
    unfold try_except. unfold bind at 1. rewrite Hget.
    unfold status_envelope. simpl.
    rewrite bool_decide_eq_false_2 by (apply insert_non_empty). simpl.
    unfold bind, now, lift. simpl.
    rewrite lookup_insert_ne by done. rewrite envelope_lookup by done. reflexivity.
  - intros s2 Hv2.
    eexists. apply Hraise.
    unfold getPendingRequests. unfold bind at 1. unfold bind at 1. rewrite Hv2. reflexivity.
  - intros before request after found Hbefore Hid Hafter.
    rewrite scan_requests_app, Hbefore. simpl. rewrite Hid.
    by apply scan_requests_skips.
Qed.

End RequestStatusProperties.


(** * Instances *)

(** C1 on a fresh session (10 s on the clock, five minutes of look-ahead,
    expiry at 1000 s), on an expired one (2000 s on the clock) and on an
    expired one whose look-ahead leaves the calendar. *)
Lemma validate_tokens_witness :
  validate_tokens sample_env (scripted [] 10000000) (session_1 300000000) =
    (Ret true, set_clock 1 (session_1 300000000)) /\
  calls "refresh_tokens"
    (trace (snd (validate_tokens sample_env (scripted [] 2000000000) (session_1 300000000)))) = 1%nat /\
  validate_tokens sample_env (scripted [] 2000000000) (session_1 long_interval) =
    (Raise OverflowError, set_clock 1 (session_1 long_interval)).
Proof.
  split; [|split].
  - apply (proj1 (validate_tokens_fresh_or_expired sample_env (scripted [] 10000000)
                    (session_1 300000000) 1000000000 1000000000 eq_refl));
      vm_compute; try reflexivity; split; discriminate.
  - destruct (proj1 (proj2 (validate_tokens_fresh_or_expired sample_env (scripted [] 2000000000)
                       (session_1 300000000) 1000000000 1000000000 eq_refl)))
      as (ok & s2 & _ & _ & Hcalls).
    + vm_compute. split; discriminate.
    + left. vm_compute. discriminate.
    + exact Hcalls.
  - apply (proj2 (proj2 (validate_tokens_fresh_or_expired sample_env (scripted [] 2000000000)
                    (session_1 long_interval) 1000000000 1000000000 eq_refl))).
    right. vm_compute. reflexivity.
Defined.

(** C1 as stated fails when the look-ahead leaves the calendar. With
    [timedelta(days=3000000)] as refresh interval and 2000 s on the clock,
    both tokens (expiry at 1000 s) have expired, yet [validate_tokens] does
    not return: line 872 raises OverflowError, [refresh_tokens] is not
    entered and no request is sent. *)
Lemma validate_tokens_overflow_skips_refresh :
  token_expiries sample_env (session_1 long_interval) =
    (Ret (1000000000, 1000000000), session_1 long_interval) /\
  1000000000 <= w_now (scripted [] 2000000000) (clock (session_1 long_interval)) /\
  0 <= session_refresh_interval (session_1 long_interval) /\
  validate_tokens sample_env (scripted [] 2000000000) (session_1 long_interval) =
    (Raise OverflowError, set_clock 1 (session_1 long_interval)) /\
  calls "refresh_tokens"
    (trace (snd (validate_tokens sample_env (scripted [] 2000000000) (session_1 long_interval)))) =
    0%nat /\
  sent (snd (validate_tokens sample_env (scripted [] 2000000000) (session_1 long_interval))) =
    0%nat.
Proof.
  split; [reflexivity|].
  split; [vm_compute; discriminate|].
  split; [vm_compute; discriminate|].
  split; [|split]; vm_compute; reflexivity.
Qed.

(** The first half of C1 names [now < expiry] beside [now + interval <
    expiry]: the second implies the first only when the interval is not
    negative. At 1005 s with an interval of -10 s, [now + interval] is before
    the expiry at 1000 s, yet the tokens have expired and [refresh_tokens] is
    entered. *)
Lemma validate_tokens_negative_interval_refreshes :
  token_expiries sample_env (session_1 (-10000000)) =
    (Ret (1000000000, 1000000000), session_1 (-10000000)) /\
  1005000000 + session_refresh_interval (session_1 (-10000000)) < 1000000000 /\
  calls "refresh_tokens"
    (trace (snd (validate_tokens sample_env (scripted [] 1005000000) (session_1 (-10000000))))) = 1%nat /\
  sent (snd (validate_tokens sample_env (scripted [] 1005000000) (session_1 (-10000000)))) = 1%nat.
Proof. vm_compute. repeat split. Qed.

(** C2 on a token endpoint that answers 500. *)
Lemma refresh_failure_witness :
  exists s',
    refresh_tokens sample_env (scripted [Reply (respond 500 None None)] 0) (session_1 300000000) =
      (Ret false, s') /\
    session_tokens s' = session_tokens (session_1 300000000) /\
    session_headers s' = session_headers (session_1 300000000) /\
    session_logged_in s' = session_logged_in (session_1 300000000).
Proof.
  apply refresh_failure_keeps_tokens.
  intros r [= <-]. simpl. lia.
Defined.

(** C3 as stated fails for [get]: against a server that always answers 429 it
    returns the envelope {"status_code": 429} and raises nothing. *)
Lemma get_returns_envelope_when_throttled :
  fst (get (always (Reply (respond 429 None None))) vehicles_url "" 0 (session_1 300000000)) =
    Ret (PJson (status_envelope 429)) /\
  fst (get (always (Reply (respond 429 None None))) vehicles_url "" 0 (session_1 300000000)) <>
    Raise (ClientResponseError 429).
Proof. split; [vm_compute; reflexivity|vm_compute; discriminate]. Qed.

(** C3 against a server that always answers 429. *)
Lemma rate_limit_retry_witness :
  (exists s', get (always (Reply (respond 429 None None))) vehicles_url "" 0 (session_1 300000000) =
      (Ret (PJson (status_envelope 429)), s') /\ sent s' = 4%nat) /\
  (exists s', post (always (Reply (respond 429 None None))) vehicles_url "" 0 true (session_1 300000000) =
      (Raise (ClientResponseError 429), s') /\ sent s' = 4%nat) /\
  (exists s', put (always (Reply (respond 429 None None))) vehicles_url "" 0 true (session_1 300000000) =
      (Raise (ClientResponseError 429), s') /\ sent s' = 4%nat).
Proof.
  apply (proj2 (proj2 (proj2 (rate_limit_retry (always (Reply (respond 429 None None)))
                                vehicles_url "" true (session_1 300000000))))).
  intros i Hi. eexists. split; reflexivity.
Defined.

(** C4 as stated fails for [post] and [put]: after a 401 the session is still
    flagged as logged in. *)
Lemma post_unauthorized_stays_logged_in :
  session_logged_in (session_1 300000000) = true /\
  session_logged_in
    (snd (post (always (Reply (respond 401 None None))) vehicles_url "" 0 false (session_1 300000000))) = true /\
  session_logged_in
    (snd (put (always (Reply (respond 401 None None))) vehicles_url "" 0 false (session_1 300000000))) = true.
Proof. vm_compute. repeat split. Qed.

(** C4 against a server that answers 401. *)
Lemma unauthorized_witness :
  exists s', get (always (Reply (respond 401 None None))) vehicles_url "" 0 (session_1 300000000) =
      (Ret (PJson (status_envelope 401)), s') /\
    session_logged_in s' = false /\
    sent s' = 1%nat /\ delays (trace s') = delays (trace (session_1 300000000)).
Proof.
  apply (proj1 (unauthorized_not_retried (always (Reply (respond 401 None None)))
                  vehicles_url "" 0 false (session_1 300000000) (respond 401 None None)
                  eq_refl eq_refl)).
Defined.

(** C6 on ten redirects that never reach APP_URI, on a hop answered without
    Location, and on ten redirects the last of which leads to a URL that
    holds a code. *)
Lemma redirect_hop_budget_witness :
  login_aborts sample_env lost_world "Legacy" session_0 (Exception_ "Too many redirects") 15 /\
  login_aborts sample_env unauthorized_world "Legacy" session_0
    (Exception_ "User appears unauthorized") 8 /\
  fst (login_redirects sample_env detour_world lost_front
         (snd (login_front sample_env detour_world session_0))) = Ret code_url.
Proof.
  split; [|split].
  - destruct (proj1 (redirect_hop_budget sample_env lost_world "Legacy" session_0
                       (snd (login_front sample_env lost_world session_0)) lost_front hop
                       ltac:(vm_compute; reflexivity) eq_refl)
                (repeat hop 10) eq_refl) as (s' & _ & _ & Habort).
    + intros i l Hi. exists (respond 302 (Some hop) None).
      do 10 (destruct i as [|i]; [injection Hi as <-; split; vm_compute; reflexivity|]).
      discriminate.
    + intros i Hi.
      do 10 (destruct i as [|i]; [reflexivity|]). lia.
    + exact (Habort eq_refl eq_refl).
  - destruct (proj1 (proj2 (redirect_hop_budget sample_env unauthorized_world "Legacy" session_0
                       (snd (login_front sample_env unauthorized_world session_0)) lost_front hop
                       ltac:(vm_compute; reflexivity) eq_refl))
                [hop; hop] (respond 200 None None)) as (s' & _ & _ & Habort).
    + simpl. lia.
    + intros i l Hi. exists (respond 302 (Some hop) None).
      do 2 (destruct i as [|i]; [injection Hi as <-; split; vm_compute; reflexivity|]).
      discriminate.
    + vm_compute. reflexivity.
    + reflexivity.
    + intros i Hi.
      do 3 (destruct i as [|i]; [reflexivity|]). simpl in Hi. lia.
    + exact (Habort eq_refl eq_refl).
  - rewrite (proj2 (proj2 (proj2 (redirect_hop_budget sample_env detour_world "Legacy" session_0
                       (snd (login_front sample_env detour_world session_0)) lost_front hop
                       ltac:(vm_compute; reflexivity) eq_refl))
                code_url (Exception_ "Too many redirects")
                (snd (redirect_block sample_env detour_world lost_front
                        (snd (login_front sample_env detour_world session_0))))
                ltac:(vm_compute; reflexivity)) eq_refl eq_refl).
    reflexivity.
Defined.

(** C6 as stated fails when the tenth redirect leads to a URL that holds a
    code. No URL visited begins with APP_URI and the block of lines 280-297
    raises Exception("Too many redirects") after ten requests, but the
    handler of line 298 drops the exception: the flow exchanges the code,
    [_login] returns True after seventeen requests and [doLogin] marks the
    session logged in. *)
Lemma login_succeeds_after_ten_hops :
  fst (login_front sample_env detour_world session_0) = Ret (Some lost_front) /\
  fst (redirect_block sample_env detour_world lost_front
         (snd (login_front sample_env detour_world session_0))) =
    Ret (code_url, Some (Exception_ "Too many redirects")) /\
  forallb (fun url => negb (startswith url (APP_URI sample_env)))
    (code_url :: requested (trace (snd (_login sample_env detour_world "Legacy" session_0)))) =
    true /\
  fst (_login sample_env detour_world "Legacy" session_0) = Ret true /\
  sent (snd (_login sample_env detour_world "Legacy" session_0)) = 17%nat /\
  length (requested (trace (snd (_login sample_env detour_world "Legacy" session_0)))) = 17%nat /\
  fst (doLogin_session sample_env detour_world 1 session_0) = Ret true /\
  session_logged_in (snd (doLogin_session sample_env detour_world 1 session_0)) = true.
Proof. vm_compute. repeat split. Qed.

(** C7 as stated fails for a 200 answer without [id_token]: the key
    [access_token] of the answer does not overwrite the one of the identity
    token set, and the refresh returns false. *)
Lemma refresh_without_id_token_merges_nothing :
  fst (refresh_tokens sample_env
         (scripted [Reply (respond 200 None (Some (JObj refreshed_access_only)))] 0)
         (session_1 300000000)) = Ret false /\
  session_tokens
    (snd (refresh_tokens sample_env
            (scripted [Reply (respond 200 None (Some (JObj refreshed_access_only)))] 0)
            (session_1 300000000))) !! "identity" = Some (JObj identity_1) /\
  refreshed_access_only !! "access_token" = Some (JStr "A2") /\
  identity_1 !! "access_token" = Some (JStr "A1").
Proof. vm_compute. repeat split. Qed.

(** C7 on the scenario of the specification: {A2, I2} merged into
    {A1, I1, R1} gives {A2, I2, R1}. *)
Lemma refresh_scenario_witness :
  (exists s' merged,
     refresh_tokens sample_env
         (scripted [Reply (respond 200 None (Some (JObj refreshed_2)));
                    Reply (respond 200 None (Some (JObj {[ "keys" := JArr [] ]})))] 0)
         (session_1 300000000) = (Ret true, s') /\
     session_tokens s' = <["identity" := JObj merged]> (session_tokens (session_1 300000000)) /\
     (forall k v, refreshed_2 !! k = Some v -> merged !! k = Some v) /\
     (forall k, refreshed_2 !! k = None -> merged !! k = identity_1 !! k) /\
     session_headers s' =
       <["Authorization" := "Bearer " ++ "A2"]> (session_headers (session_1 300000000)) /\
     session_logged_in s' = session_logged_in (session_1 300000000)) /\
  session_tokens
    (snd (refresh_tokens sample_env
            (scripted [Reply (respond 200 None (Some (JObj refreshed_2)));
                       Reply (respond 200 None (Some (JObj {[ "keys" := JArr [] ]})))] 0)
            (session_1 300000000))) !! "identity" =
    Some (JObj {[ "access_token" := JStr "A2"; "id_token" := JStr "I2";
                  "refresh_token" := JStr "R1" ]}).
Proof.
  split.
  - eapply (refresh_success_merges sample_env _ (session_1 300000000)
              (respond 200 None (Some (JObj refreshed_2)))
              (respond 200 None (Some (JObj {[ "keys" := JArr [] ]})))
              identity_1 refreshed_2 (JStr "I2") (JObj {[ "keys" := JArr [] ]}) "A2");
      first [reflexivity | by eexists].
  - vm_compute. reflexivity.
Defined.

(** C8 against a server that always answers 429. *)
Lemma action_429_witness :
  exists s', setClimater sample_env (always (Reply (respond 429 None None))) "WVWZZZ" true
               (session_1 300000000) =
    (Raise (RaisedFrom "Unknown error during setClimater" (ClientResponseError 429)), s').
Proof.
  apply (proj1 (action_429_is_not_throttled sample_env (always (Reply (respond 429 None None)))
                  "WVWZZZ" true (session_1 300000000)
                  ltac:(intros i Hi; eexists; split; reflexivity))).
Defined.

(** C9 on a complete login whose identity token fails verification. *)
Lemma login_witness :
  exists s',
    doLogin_session sample_env login_world 1 session_0 = (Ret true, s') /\
    session_logged_in s' = true /\
    session_tokens s' !! "Legacy" = Some (JObj identity_1) /\
    session_tokens s' !! "identity" = Some (JObj identity_1) /\
    session_headers s' !! "Authorization" = Some ("Bearer " ++ "A1") /\
    (jwt_verify sample_env (JObj {[ "keys" := JArr [] ]})
       (default (JStr "") (identity_1 !! "id_token")) = false ->
     In (EvLog "warning" "User identity token could not be verified!") (trace s')).
Proof.
  eapply (login_verification_is_advisory sample_env login_world 1 session_0).
  - lia.
  - vm_compute. reflexivity.
  - vm_compute. reflexivity.
  - reflexivity.
  - reflexivity.
  - reflexivity.
  - reflexivity.
  - reflexivity.
  - reflexivity.
  - reflexivity.
  - reflexivity.
  - reflexivity.
Defined.

(** C9 as stated fails when the JWKS document cannot be fetched. The token
    exchange succeeds and the token set is stored under "Legacy", but the
    fetch of line 893 sits before the [try] of [verify_tokens]: its failure
    ends the login attempt in the handler of line 352. [doLogin] returns
    False, the session is not logged in, nothing is mirrored under
    "identity" and no Authorization header is set. *)
Lemma login_fails_when_jwks_unreachable :
  fst (doLogin_session sample_env jwks_unreachable_world 1 session_0) = Ret false /\
  session_logged_in (snd (doLogin_session sample_env jwks_unreachable_world 1 session_0)) = false /\
  session_tokens (snd (doLogin_session sample_env jwks_unreachable_world 1 session_0)) !! "Legacy" =
    Some (JObj identity_1) /\
  session_tokens (snd (doLogin_session sample_env jwks_unreachable_world 1 session_0)) !! "identity" =
    None /\
  session_headers (snd (doLogin_session sample_env jwks_unreachable_world 1 session_0))
    !! "Authorization" = None /\
  sent (snd (doLogin_session sample_env jwks_unreachable_world 1 session_0)) = 8%nat /\
  In (EvLogError "error" "Login failed for account" (ClientOSError "Cannot connect to host"))
    (trace (snd (doLogin_session sample_env jwks_unreachable_world 1 session_0))).
Proof.
  do 6 (split; [vm_compute; reflexivity|]).
  vm_compute. repeat (try (left; reflexivity); right).
Qed.

(** C10 on a session that never logged in. *)
Lemma validate_before_login_witness :
  validate_tokens sample_env (scripted [] 0) session_0 = (Raise (KeyError "identity"), session_0) /\
  validate_login sample_env (scripted [] 0) session_0 = (Raise (KeyError "identity"), session_0) /\
  is_OSError (KeyError "identity") = false.
Proof. apply validate_before_login_raises. reflexivity. Defined.

(** ** Instances of the further properties *)

(** X1 on a 302 answer with a JSON body. *)
Lemma request_below_400_witness :
  exists s',
    _request (always (Reply (respond 302 None (Some (JObj moved_body))))) "GET" vehicles_url false
      (session_1 300000000) = (Ret (PJson (JObj moved_body)), s') /\
    requests_only 1 (session_1 300000000) s' /\
    service_status s' = recorded vehicles_url 302 ∅.
Proof.
  apply (request_below_400 (always (Reply (respond 302 None (Some (JObj moved_body)))))
           "GET" vehicles_url false (session_1 300000000)
           (respond 302 None (Some (JObj moved_body))));
    [reflexivity|simpl; lia].
Defined.

(** X2 on a 403 answer and on a server that cannot be reached. *)
Lemma request_failure_recorded_witness :
  (exists s',
     _request (always (Reply (respond 403 None None))) "GET" vehicles_url false
       (session_1 300000000) = (Raise (ClientResponseError 403), s') /\
     service_status s' = recorded vehicles_url 403 ∅) /\
  (exists s',
     _request (always offline) "GET" vehicles_url false (session_1 300000000) =
       (Raise (ClientOSError "Cannot connect to host"), s') /\
     service_status s' !! "vehicles" = Some "Error").
Proof.
  split.
  - destruct (proj1 (request_failure_recorded (always (Reply (respond 403 None None)))
                       "GET" vehicles_url false (session_1 300000000))
                (respond 403 None None) eq_refl ltac:(simpl; lia))
      as (s' & Hrun & _ & Hst).
    exists s'. by split.
  - destruct (proj2 (request_failure_recorded (always offline)
                       "GET" vehicles_url false (session_1 300000000))
                (ClientOSError "Cannot connect to host") eq_refl eq_refl)
      as (s' & Hrun & _ & _ & Hst).
    exists s'. split; [exact Hrun|]. apply Hst. reflexivity.
Defined.

(** X3 on a server that answers 500. *)
Lemma get_error_status_envelope_witness :
  exists s',
    get (always (Reply (respond 500 None None))) vehicles_url "" 0 (session_1 300000000) =
      (Ret (PJson (status_envelope 500)), s') /\
    sent s' = 1%nat /\ drawn s' = 0%nat /\
    delays (trace s') = [] /\
    session_logged_in s' = true /\
    session_tokens s' = session_tokens (session_1 300000000) /\
    session_headers s' = session_headers (session_1 300000000) /\
    fst (get_service_status s') = Ret (recorded vehicles_url 500 ∅).
Proof.
  apply (get_error_status_envelope (always (Reply (respond 500 None None))) vehicles_url "" 0
           (session_1 300000000) (respond 500 None None) eq_refl);
    [simpl; lia|left; simpl; lia].
Defined.

(** X4 on a server that cannot be reached. *)
Lemma get_raises_only_transport_failures_witness :
  fst (get (always offline) vehicles_url "" 0 (session_1 300000000)) =
    Raise (ClientOSError "Cannot connect to host") /\
  is_ClientResponseError (ClientOSError "Cannot connect to host") = false /\
  exists i, (i <= 3)%nat /\
    w_reply (always offline) (sent (session_1 300000000) + i) =
      Fails (ClientOSError "Cannot connect to host").
Proof.
  split; [vm_compute; reflexivity|].
  apply (get_raises_only_transport_failures (always offline) vehicles_url "" 0
           (session_1 300000000)
           (snd (get (always offline) vehicles_url "" 0 (session_1 300000000))));
    [lia|vm_compute; reflexivity].
Defined.

(** X5 on two 429 answers followed by a 200. *)
Lemma retry_recovers_witness :
  (exists s',
     get (scripted [throttled_reply; throttled_reply;
                    Reply (respond 200 None (Some (JObj moved_body)))] 0)
       vehicles_url "" 0 (session_1 300000000) = (Ret (PJson (JObj moved_body)), s') /\
     retried 2 (session_1 300000000) s') /\
  (exists s',
     post (scripted [throttled_reply; throttled_reply;
                     Reply (respond 200 None (Some (JObj moved_body)))] 0)
       vehicles_url "" 0 false (session_1 300000000) = (Ret (PJson (JObj moved_body)), s') /\
     retried 2 (session_1 300000000) s') /\
  (exists s',
     put (scripted [throttled_reply; throttled_reply;
                    Reply (respond 200 None (Some (JObj moved_body)))] 0)
       vehicles_url "" 0 false (session_1 300000000) = (Ret (PJson (JObj moved_body)), s') /\
     retried 2 (session_1 300000000) s').
Proof.
  apply (retry_recovers (scripted [throttled_reply; throttled_reply;
                                   Reply (respond 200 None (Some (JObj moved_body)))] 0)
           vehicles_url "" false 2 0 (session_1 300000000)
           (respond 200 None (Some (JObj moved_body)))).
  - lia.
  - lia.
  - intros i Hi. destruct i as [|[|i]]; [eexists; split; reflexivity..|lia].
  - reflexivity.
  - simpl. lia.
Defined.

(** X6 on a 403 answer and on a server that cannot be reached. *)
Lemma send_error_raised_witness :
  (exists s', post (always (Reply (respond 403 None None))) vehicles_url "" 0 true
                (session_1 300000000) = (Raise (ClientResponseError 403), s') /\
     requests_only 1 (session_1 300000000) s') /\
  (exists s', put (always offline) vehicles_url "" 0 true (session_1 300000000) =
                (Raise (ClientOSError "Cannot connect to host"), s') /\
     requests_only 1 (session_1 300000000) s').
Proof.
  split.
  - apply (proj1 (proj1 (send_error_raised (always (Reply (respond 403 None None)))
                           vehicles_url "" 0 true (session_1 300000000))
                    (respond 403 None None) eq_refl ltac:(simpl; lia)
                    ltac:(left; simpl; lia))).
  - apply (proj2 (proj2 (send_error_raised (always offline)
                           vehicles_url "" 0 true (session_1 300000000))
                    (ClientOSError "Cannot connect to host") eq_refl eq_refl)).
Defined.

(** X7 at 900 s, with five minutes of look-ahead and the expiry at 1000 s. *)
Lemma validate_tokens_about_to_expire_witness :
  token_expiries sample_env (session_1 300000000) =
    (Ret (1000000000, 1000000000), session_1 300000000) /\
  calls "refresh_tokens"
    (trace (snd (validate_tokens sample_env (scripted [] 900000000) (session_1 300000000)))) =
    1%nat.
Proof.
  split; [reflexivity|].
  destruct (validate_tokens_about_to_expire sample_env (scripted [] 900000000)
              (session_1 300000000) 1000000000 1000000000 eq_refl)
    as (ok & s2 & _ & _ & Hcalls).
  - vm_compute. split; discriminate.
  - vm_compute. reflexivity.
  - vm_compute. reflexivity.
  - left. vm_compute. discriminate.
  - exact Hcalls.
Defined.

(** X8 on an identity token that does not decode, and on tokens without "exp". *)
Lemma validate_tokens_unreadable_expiry_witness :
  (validate_tokens sample_env (scripted [] 0) session_garbled = (Raise DecodeError, session_garbled) /\
   validate_login sample_env (scripted [] 0) session_garbled = (Raise DecodeError, session_garbled)) /\
  (validate_tokens env_without_exp (scripted [] 0) (session_1 300000000) =
     (Raise TypeError, session_1 300000000) /\
   validate_login env_without_exp (scripted [] 0) (session_1 300000000) =
     (Raise TypeError, session_1 300000000)).
Proof.
  split.
  - apply (proj1 (validate_tokens_unreadable_expiry sample_env (scripted [] 0) session_garbled
                    (JObj {[ "access_token" := JStr "A1"; "id_token" := JStr "??" ]})
                    (JStr "??") (JStr "A1") eq_refl eq_refl eq_refl)).
    left. reflexivity.
  - apply (proj2 (validate_tokens_unreadable_expiry env_without_exp (scripted [] 0)
                    (session_1 300000000) (JObj identity_1) (JStr "I1") (JStr "A1")
                    eq_refl eq_refl eq_refl) ∅ ∅); reflexivity.
Defined.

(** X10 on expired tokens and a server that cannot be reached, with five
    minutes of look-ahead and with one that leaves the calendar. *)
Lemma validate_login_unreachable_endpoint_witness :
  (exists s',
    validate_login sample_env (scripted [] 2000000000) (session_1 300000000) = (Ret false, s') /\
    validate_tokens sample_env (scripted [] 2000000000) (session_1 300000000) = (Ret false, s') /\
    session_tokens s' = session_tokens (session_1 300000000) /\
    session_headers s' = session_headers (session_1 300000000) /\
    session_logged_in s' = session_logged_in (session_1 300000000) /\
    (sent s' <= sent (session_1 300000000) + 1)%nat) /\
  validate_login sample_env (scripted [] 2000000000) (session_1 long_interval) =
    (Raise OverflowError, set_clock 1 (session_1 long_interval)).
Proof.
  split.
  - apply (proj1 (validate_login_unreachable_endpoint sample_env (scripted [] 2000000000)
                    (session_1 300000000) 1000000000 1000000000 eq_refl)).
    + vm_compute. split; discriminate.
    + left. vm_compute. discriminate.
    + intros r Hr. discriminate.
  - apply (proj2 (validate_login_unreachable_endpoint sample_env (scripted [] 2000000000)
                    (session_1 long_interval) 1000000000 1000000000 eq_refl)).
    right. vm_compute. reflexivity.
Defined.

(** X11 on another token type, on a server that cannot be reached and on a JWKS answer without JSON. *)
Lemma verify_tokens_fetches_keys_first_witness :
  verify_tokens sample_env (always offline) (JStr "I1") "access" session_0 =
    (Ret false, emit (EvLog "debug" "Not implemented") session_0) /\
  (exists s', verify_tokens sample_env (always offline) (JStr "I1") "identity" session_0 =
                (Raise (ClientOSError "Cannot connect to host"), s') /\
     sent s' = 1%nat) /\
  (exists s', verify_tokens sample_env (always (Reply (respond 200 None None))) (JStr "I1")
                "identity" session_0 = (Raise JSONError, s') /\
     sent s' = 1%nat).
Proof.
  split; [|split].
  - apply (proj1 (verify_tokens_fetches_keys_first sample_env (always offline) (JStr "I1")
                    "access" session_0)).
    discriminate.
  - apply (proj1 (proj2 (verify_tokens_fetches_keys_first sample_env (always offline) (JStr "I1")
                           "identity" session_0))).
    reflexivity.
  - apply (proj1 (proj2 (proj2 (verify_tokens_fetches_keys_first sample_env
                                  (always (Reply (respond 200 None None))) (JStr "I1")
                                  "identity" session_0))) (respond 200 None None));
      reflexivity.
Defined.

(** X13 on a login whose token exchange grants no access token. *)
Lemma login_raises_only_at_header_update_witness :
  fst (_login sample_env
         (login_then [ Reply (respond 200 None (Some (JObj {[ "id_token" := JStr "I1" ]})));
                       Reply (respond 200 None (Some (JObj {[ "keys" := JArr [] ]}))) ])
         "Legacy" session_0) = Raise (KeyError "access_token") /\
  (KeyError "access_token" = KeyError "Legacy" \/
   KeyError "access_token" = KeyError "access_token" \/
   KeyError "access_token" = TypeError).
Proof.
  split; [vm_compute; reflexivity|].
  apply (login_raises_only_at_header_update sample_env
           (login_then [ Reply (respond 200 None (Some (JObj {[ "id_token" := JStr "I1" ]})));
                         Reply (respond 200 None (Some (JObj {[ "keys" := JArr [] ]}))) ])
           "Legacy" session_0
           (snd (_login sample_env
                   (login_then [ Reply (respond 200 None (Some (JObj {[ "id_token" := JStr "I1" ]})));
                                 Reply (respond 200 None (Some (JObj {[ "keys" := JArr [] ]}))) ])
                   "Legacy" session_0))).
  vm_compute. reflexivity.
Defined.

(** X14 on a 503 answer and on a server that cannot be reached. *)
Lemma login_discovery_unavailable_witness :
  (exists s', _login sample_env (always (Reply (respond 503 None None))) "Legacy"
                (session_1 300000000) = (Ret false, s') /\
     sent s' = 1%nat /\
     session_logged_in s' = true /\
     session_headers s' = HEADERS_SESSION sample_env /\
     session_tokens s' = session_tokens (session_1 300000000)) /\
  (exists s', _login sample_env (always offline) "Legacy" (session_1 300000000) = (Ret false, s') /\
     sent s' = 1%nat /\
     session_logged_in s' = false /\
     session_headers s' = HEADERS_SESSION sample_env /\
     session_tokens s' = session_tokens (session_1 300000000)).
Proof.
  split.
  - apply (proj1 (login_discovery_unavailable sample_env (always (Reply (respond 503 None None)))
                    "Legacy" (session_1 300000000)) (respond 503 None None));
      [reflexivity|simpl; lia].
  - apply (proj2 (login_discovery_unavailable sample_env (always offline)
                    "Legacy" (session_1 300000000)) (ClientOSError "Cannot connect to host")).
    reflexivity.
Defined.

(** X16 on a token endpoint that answers 400, and one that answers 200 with an error body. *)
Lemma login_exchange_rejected_witness :
  (exists s', _login sample_env (login_then [Reply (respond 400 None None)]) "Legacy" session_0 =
                (Ret false, s') /\
     session_logged_in s' = false /\
     session_tokens s' !! "Legacy" = None) /\
  (exists s', _login sample_env
                (login_then [Reply (respond 200 None
                                      (Some (JObj {[ "error" := JStr "invalid_grant" ]})))])
                "Legacy" session_0 = (Ret false, s') /\
     session_logged_in s' = false /\
     session_tokens s' !! "Legacy" = Some (JObj {[ "error" := JStr "invalid_grant" ]})).
Proof.
  split.
  - edestruct (login_exchange_rejected sample_env
                 (login_then [Reply (respond 400 None None)]) "Legacy" session_0)
      as [Hrejected _].
    + vm_compute. reflexivity.
    + vm_compute. reflexivity.
    + reflexivity.
    + reflexivity.
    + reflexivity.
    + destruct Hrejected as (s' & Hrun & Hli & Htok & _); [simpl; lia|].
      exists s'. split; [exact Hrun|]. split; [exact Hli|]. rewrite Htok. reflexivity.
  - edestruct (login_exchange_rejected sample_env
                 (login_then [Reply (respond 200 None
                                       (Some (JObj {[ "error" := JStr "invalid_grant" ]})))])
                 "Legacy" session_0)
      as [_ Herror].
    + vm_compute. reflexivity.
    + vm_compute. reflexivity.
    + reflexivity.
    + reflexivity.
    + reflexivity.
    + destruct (Herror {[ "error" := JStr "invalid_grant" ]})
        as (s' & Hrun & Hli & Htok & _); [reflexivity|reflexivity|by eexists|].
      exists s'. split; [exact Hrun|]. split; [exact Hli|]. rewrite Htok.
      by rewrite lookup_insert_eq.
Defined.

(** X17 with two tries on a server that cannot be reached. *)
Lemma doLogin_unreachable_witness :
  exists s', doLogin sample_env (always offline) no_vehicles (ret true) 2 session_0 =
               (Ret false, s') /\
    sent s' = 2%nat /\
    random_sleeps (trace s') = 2%nat /\
    session_logged_in s' = false /\
    session_tokens s' = session_tokens session_0.
Proof.
  apply (doLogin_unreachable sample_env (always offline) no_vehicles (ret true) 2 session_0).
  - intros i Hi. eexists. reflexivity.
  - right. lia.
Defined.

(** X18 on a complete login followed by a 500, and by a transport failure. *)
Lemma doLogin_without_vehicles_witness :
  (fst (doLogin_session sample_env (login_then (tokens_granted ++ [Reply (respond 500 None None)]))
          1 session_0) = Ret true /\
   exists s',
     doLogin sample_env (login_then (tokens_granted ++ [Reply (respond 500 None None)]))
       no_vehicles (ret true) 1 session_0 = (Ret false, s') /\
     session_logged_in s' = false /\
     sent s' = 9%nat) /\
  (fst (doLogin_session sample_env (login_then tokens_granted) 1 session_0) = Ret true /\
   exists s',
     doLogin sample_env (login_then tokens_granted) no_vehicles (ret true) 1 session_0 =
       (Raise (ClientOSError "Cannot connect to host"), s') /\
     session_logged_in s' = true /\
     sent s' = 9%nat).
Proof.
  split; (split; [vm_compute; reflexivity|]).
  - destruct (proj1 (doLogin_without_vehicles sample_env
                       (login_then (tokens_granted ++ [Reply (respond 500 None None)]))
                       no_vehicles (ret true) 1 session_0
                       (snd (doLogin_session sample_env
                               (login_then (tokens_granted ++ [Reply (respond 500 None None)]))
                               1 session_0))
                       ltac:(vm_compute; reflexivity))
                (respond 500 None None))
      as (s' & Hrun & Hli & Hsent & _).
    + vm_compute. reflexivity.
    + simpl. lia.
    + simpl. lia.
    + exists s'. split; [exact Hrun|]. split; [exact Hli|].
      rewrite Hsent. vm_compute. reflexivity.
  - destruct (proj2 (doLogin_without_vehicles sample_env (login_then tokens_granted)
                       no_vehicles (ret true) 1 session_0
                       (snd (doLogin_session sample_env (login_then tokens_granted) 1 session_0))
                       ltac:(vm_compute; reflexivity))
                (ClientOSError "Cannot connect to host"))
      as (s' & Hrun & Hli & Hsent).
    + vm_compute. reflexivity.
    + reflexivity.
    + exists s'. split; [exact Hrun|]. split; [exact Hli|].
      rewrite Hsent. vm_compute. reflexivity.
Defined.

(** X19 on a complete login with two vehicles and an update that returns False. *)
Lemma doLogin_ignores_update_result_witness :
  exists s4,
    doLogin sample_env
      (login_then (tokens_granted ++ [Reply (respond 200 None (Some (JObj two_vehicles)))]))
      no_vehicles (ret false) 1 session_0 = (Ret true, s4).
Proof.
  destruct (doLogin_ignores_update_result sample_env
              (login_then (tokens_granted ++ [Reply (respond 200 None (Some (JObj two_vehicles)))]))
              no_vehicles (ret false) 1 session_0
              (snd (doLogin_session sample_env
                      (login_then (tokens_granted
                                   ++ [Reply (respond 200 None (Some (JObj two_vehicles)))]))
                      1 session_0))
              (respond 200 None (Some (JObj two_vehicles))) two_vehicles
              (JArr [JObj (vehicle_of "WVW1"); JObj (vehicle_of "WVW2")])
              ltac:(vm_compute; reflexivity))
    as (s2 & _ & _ & _ & Hrun).
  - vm_compute. reflexivity.
  - simpl. lia.
  - simpl. lia.
  - reflexivity.
  - reflexivity.
  - discriminate.
  - exists s2. apply (Hrun s2 false s2); reflexivity.
Defined.

(** X20 on the bodies {}, {"data": {"requestID": 7}} and {"data": null}. *)
Lemma handle_action_result_cases_witness :
  _handle_action_result sample_env (PResp (respond 200 None (Some (JObj ∅)))) session_0 =
    (Raise (Exception_ "Invalid or no response"), session_0) /\
  _handle_action_result sample_env (PResp (respond 200 None (Some (JObj accepted_body)))) session_0 =
    (Ret (request_handle sample_env (JNum 7)),
     emit (EvLog "debug" "Request returned with request id") session_0) /\
  _handle_action_result sample_env
    (PResp (respond 200 None (Some (JObj {[ "data" := JNull ]})))) session_0 =
    (Raise AttributeError, session_0).
Proof.
  split; [|split].
  - apply (proj1 (proj2 (handle_action_result_cases sample_env
                           (respond 200 None (Some (JObj ∅))) session_0)) (JObj ∅));
      reflexivity.
  - apply (proj1 (proj2 (proj2 (proj2 (proj2 (handle_action_result_cases sample_env
             (respond 200 None (Some (JObj accepted_body))) session_0)))
             accepted_body eq_refl
             ltac:(unfold accepted_body; apply map_non_empty_singleton)))
             {[ "requestID" := JNum 7 ]}).
    reflexivity.
  - apply (proj2 (proj2 (proj2 (proj2 (proj2 (handle_action_result_cases sample_env
             (respond 200 None (Some (JObj {[ "data" := JNull ]}))) session_0)))
             {[ "data" := JNull ]} eq_refl ltac:(apply map_non_empty_singleton))) JNull);
      [reflexivity|discriminate].
Defined.

(** X21 on a session with fresh tokens. *)
Lemma update_logged_in_witness :
  (exists b s', update sample_env (fresh_world []) (ret false) (ret tt) (session_1 300000000) =
                  (Ret b, s')) /\
  update sample_env (fresh_world []) (ret false) (ret tt) (session_1 300000000) =
    (Ret true, emit (EvLog "debug" "Going to call vehicle updates")
                 (set_clock 1 (session_1 300000000))).
Proof.
  split.
  - apply (proj1 (update_logged_in sample_env (fresh_world []) (ret false) (ret tt)
                    (session_1 300000000) eq_refl)).
  - apply (proj1 (proj2 (update_logged_in sample_env (fresh_world []) (ret false) (ret tt)
                           (session_1 300000000) eq_refl)) (set_clock 1 (session_1 300000000)));
      [vm_compute; reflexivity|reflexivity].
Defined.

(** X22 on [setWindowHeater], accepted, and [setDepartureTimers], answered 403. *)
Lemma actions_answer_or_wrap_witness :
  (exists s', setWindowHeater sample_env
                (always (Reply (respond 200 None (Some (JObj accepted_body))))) "WVWZZZ" true
                session_0 = (Ret (request_handle sample_env (JNum 7)), s') /\
     sent s' = 1%nat) /\
  (exists s', setDepartureTimers sample_env (always (Reply (respond 403 None None))) "WVWZZZ"
                session_0 =
       (Raise (RaisedFrom "Unknown error during setDepartureTimers" (ClientResponseError 403)), s') /\
     sent s' = 1%nat).
Proof.
  split.
  - apply (proj1 (actions_answer_or_wrap sample_env
                    (always (Reply (respond 200 None (Some (JObj accepted_body)))))
                    "WVWZZZ" true "setWindowHeater" _ session_0
                    (respond 200 None (Some (JObj accepted_body)))
                    ltac:(simpl; tauto) eq_refl) accepted_body {[ "requestID" := JNum 7 ]});
      [simpl; lia|reflexivity|reflexivity].
  - apply (proj2 (actions_answer_or_wrap sample_env (always (Reply (respond 403 None None)))
                    "WVWZZZ" true "setDepartureTimers" _ session_0 (respond 403 None None)
                    ltac:(simpl; tauto) eq_refl));
      simpl; lia.
Defined.

(** X23 on a 500 answer and on two and three remaining tries. *)
Lemma check_spin_state_guard_witness :
  (exists s', check_spin_state sample_env (always (Reply (respond 500 None None))) session_0 =
                (Raise (Exception_ "Couldn't determine S-PIN state."), s') /\
     sent s' = 1%nat) /\
  (exists s', check_spin_state sample_env (always (Reply (spin_state 2))) session_0 =
                (Raise (Exception_ spin_lockout_message), s')) /\
  (exists s', check_spin_state sample_env (always (Reply (spin_state 3))) session_0 =
                (Ret true, s')).
Proof.
  split; [|split].
  - apply (proj1 (check_spin_state_guard sample_env (always (Reply (respond 500 None None)))
                    session_0 (respond 500 None None) eq_refl)); simpl; lia.
  - destruct (proj2 (check_spin_state_guard sample_env (always (Reply (spin_state 2)))
                       session_0 (spin_state 2) eq_refl)
                {[ "remainingTries" := JNum 2 ]} ltac:(simpl; lia) ltac:(simpl; lia) eq_refl)
      as (s' & _ & _ & Hlow & _).
    exists s'. apply (Hlow 2); [reflexivity|lia].
  - destruct (proj2 (check_spin_state_guard sample_env (always (Reply (spin_state 3)))
                       session_0 (spin_state 3) eq_refl)
                {[ "remainingTries" := JNum 3 ]} ltac:(simpl; lia) ltac:(simpl; lia) eq_refl)
      as (s' & _ & _ & _ & Hok).
    exists s'. apply (Hok 3); [reflexivity|lia].
Defined.

(** X24 on two remaining tries, and on five followed by an accepted request. *)
Lemma setLock_guarded_by_spin_state_witness :
  (exists s', setLock sample_env (always (Reply (spin_state 2))) "WVWZZZ" true session_0 =
                (Raise (Exception_ spin_lockout_message), s') /\
     sent s' = 1%nat) /\
  (exists s', setLock sample_env
                (scripted [Reply (spin_state 5);
                           Reply (respond 200 None (Some (JObj accepted_body)))] 0)
                "WVWZZZ" true session_0 =
                (Ret (request_handle sample_env (JNum 7)), s') /\
     sent s' = 2%nat).
Proof.
  split.
  - apply (proj1 (setLock_guarded_by_spin_state sample_env (always (Reply (spin_state 2)))
                    "WVWZZZ" true session_0 (spin_state 2) {[ "remainingTries" := JNum 2 ]} 2
                    eq_refl ltac:(simpl; lia) ltac:(simpl; lia) eq_refl eq_refl)).
    lia.
  - apply (proj2 (proj2 (setLock_guarded_by_spin_state sample_env
                           (scripted [Reply (spin_state 5);
                                      Reply (respond 200 None (Some (JObj accepted_body)))] 0)
                           "WVWZZZ" true session_0 (spin_state 5)
                           {[ "remainingTries" := JNum 5 ]} 5
                           eq_refl ltac:(simpl; lia) ltac:(simpl; lia) eq_refl eq_refl)
                    ltac:(lia) (respond 200 None (Some (JObj accepted_body))) eq_refl)
             accepted_body {[ "requestID" := JNum 7 ]});
      [simpl; lia|reflexivity|reflexivity].
Defined.

(** X26 on a newly constructed connection and a server that completes the login. *)
Lemma update_without_identity_fails_witness :
  fst (_login sample_env (login_then tokens_granted) "Legacy"
         (__init__ sample_env false 300000000)) = Ret true /\
  fst (update sample_env (login_then tokens_granted) (ret true) (ret tt)
         (__init__ sample_env false 300000000)) = Ret false /\
  fst (update sample_env (login_then tokens_granted) (ret true) (ret tt)
         (__init__ sample_env false 300000000)) <> Ret true.
Proof.
  split; [vm_compute; reflexivity|].
  split; [vm_compute; reflexivity|].
  apply (proj1 (update_without_identity_fails sample_env (login_then tokens_granted)
                  (ret true) (ret tt) (__init__ sample_env false 300000000) eq_refl eq_refl)).
Defined.

(** X27 on a 204 answer, a position and a 404 answer. *)
Lemma getParkingPosition_cases_witness :
  (exists s', getParkingPosition sample_env (fresh_world [Reply (respond 204 None None)]) "WVWZZZ"
                (session_1 300000000) =
       (Ret (PJson (JObj {[ "isMoving" := JBool true; "parkingposition" := JObj ∅ ]})), s') /\
     sent s' = 1%nat) /\
  (exists s', getParkingPosition sample_env
                (fresh_world [Reply (respond 200 None (Some (JObj parked_body)))]) "WVWZZZ"
                (session_1 300000000) =
       (Ret (PJson (JObj {[ "isMoving" := JBool false;
                            "parkingposition" := JObj {[ "lat" := JNum 52; "lon" := JNum 13 ]} ]})),
        s') /\
     sent s' = 1%nat) /\
  (exists s', getParkingPosition sample_env (fresh_world [Reply (respond 404 None None)]) "WVWZZZ"
                (session_1 300000000) = (Ret py_false, s') /\
     sent s' = 1%nat).
Proof.
  split; [|split].
  - apply (proj1 (getParkingPosition_cases sample_env (fresh_world [Reply (respond 204 None None)])
                    "WVWZZZ" (session_1 300000000) (set_clock 1 (session_1 300000000))
                    (respond 204 None None) ltac:(vm_compute; reflexivity) eq_refl)).
    reflexivity.
  - apply (proj1 (proj2 (getParkingPosition_cases sample_env
                    (fresh_world [Reply (respond 200 None (Some (JObj parked_body)))])
                    "WVWZZZ" (session_1 300000000) (set_clock 1 (session_1 300000000))
                    (respond 200 None (Some (JObj parked_body)))
                    ltac:(vm_compute; reflexivity) eq_refl)) parked_body);
      [simpl; lia|simpl; lia|reflexivity|reflexivity].
  - apply (proj2 (proj2 (getParkingPosition_cases sample_env
                    (fresh_world [Reply (respond 404 None None)])
                    "WVWZZZ" (session_1 300000000) (set_clock 1 (session_1 300000000))
                    (respond 404 None None) ltac:(vm_compute; reflexivity) eq_refl)));
      simpl; lia.
Defined.

(** X28 on an account with two vehicles. *)
Lemma getVehicleData_finds_first_witness :
  (exists s', getVehicleData sample_env
                (fresh_world [Reply (respond 200 None (Some (JObj two_vehicles)))]) "WVW2"
                (session_1 300000000) =
       (Ret (PJson (JObj {[ "vehicle" := JObj (vehicle_of "WVW2") ]})), s') /\
     sent s' = 1%nat) /\
  (exists s', getVehicleData sample_env
                (fresh_world [Reply (respond 200 None (Some (JObj two_vehicles)))]) "WVW3"
                (session_1 300000000) = (Ret py_false, s') /\
     sent s' = 1%nat).
Proof.
  split.
  - apply (proj1 (getVehicleData_finds_first sample_env
                    (fresh_world [Reply (respond 200 None (Some (JObj two_vehicles)))])
                    "WVW2" (session_1 300000000) (set_clock 1 (session_1 300000000))
                    (respond 200 None (Some (JObj two_vehicles))) two_vehicles
                    [JObj (vehicle_of "WVW1"); JObj (vehicle_of "WVW2")]
                    ltac:(vm_compute; reflexivity) eq_refl ltac:(simpl; lia) ltac:(simpl; lia)
                    eq_refl eq_refl)
             [JObj (vehicle_of "WVW1")] (vehicle_of "WVW2") []).
    + reflexivity.
    + constructor; [|constructor]. exists (vehicle_of "WVW1"). split; [reflexivity|].
      vm_compute. discriminate.
    + reflexivity.
  - apply (proj2 (getVehicleData_finds_first sample_env
                    (fresh_world [Reply (respond 200 None (Some (JObj two_vehicles)))])
                    "WVW3" (session_1 300000000) (set_clock 1 (session_1 300000000))
                    (respond 200 None (Some (JObj two_vehicles))) two_vehicles
                    [JObj (vehicle_of "WVW1"); JObj (vehicle_of "WVW2")]
                    ltac:(vm_compute; reflexivity) eq_refl ltac:(simpl; lia) ltac:(simpl; lia)
                    eq_refl eq_refl)).
    constructor; [|constructor; [|constructor]].
    + exists (vehicle_of "WVW1"). split; [reflexivity|]. vm_compute. discriminate.
    + exists (vehicle_of "WVW2"). split; [reflexivity|]. vm_compute. discriminate.
Defined.

(** X29 on a server that answers 500. *)
Lemma getters_on_error_status_witness :
  (exists s', getPendingRequests sample_env (fresh_world [Reply (respond 500 None None)]) "WVWZZZ"
                (session_1 300000000) = (Ret (stamped_envelope 500 10000000), s')) /\
  (exists s', getSelectiveStatus sample_env (fresh_world [Reply (respond 500 None None)]) "WVWZZZ"
                ["charging"; "climatisation"] (session_1 300000000) =
                (Ret (stamped_envelope 500 10000000), s')) /\
  (exists s', getOperationList sample_env (fresh_world [Reply (respond 500 None None)]) "WVWZZZ"
                (session_1 300000000) = (Ret (PJson (status_envelope 500)), s')) /\
  (exists s', getVehicleData sample_env (fresh_world [Reply (respond 500 None None)]) "WVWZZZ"
                (session_1 300000000) = (Ret py_false, s')) /\
  (exists s', getTripLast sample_env (fresh_world [Reply (respond 500 None None)]) "WVWZZZ"
                (session_1 300000000) = (Ret py_false, s')) /\
  (exists s', wakeUpVehicle sample_env (fresh_world [Reply (respond 500 None None)]) "WVWZZZ"
                (session_1 300000000) = (Ret py_false, s')).
Proof.
  apply (getters_on_error_status sample_env (fresh_world [Reply (respond 500 None None)])
           "WVWZZZ" ["charging"; "climatisation"] (session_1 300000000)
           (set_clock 1 (session_1 300000000)) (respond 500 None None)
           ltac:(vm_compute; reflexivity) eq_refl);
    simpl; lia.
Defined.

(** X30 on two pending requests, and on a server that answers 500. *)
Lemma get_request_status_reports_witness :
  (exists s', get_request_status sample_env
                (fresh_world [Reply (respond 200 None (Some (JObj two_pending)))])
                no_vehicles (ret true) "WVWZZZ" "8" (session_1 300000000) =
                (Ret (JStr "Success"), s')) /\
  (exists s', get_request_status sample_env (fresh_world [Reply (respond 500 None None)])
                no_vehicles (ret true) "WVWZZZ" "8" (session_1 300000000) =
                (Ret JNull, s')).
Proof.
  split.
  - apply (proj1 (get_request_status_reports sample_env
                    (fresh_world [Reply (respond 200 None (Some (JObj two_pending)))])
                    no_vehicles (ret true) "WVWZZZ" "8" (session_1 300000000)
                    (set_clock 1 (session_1 300000000)) eq_refl ltac:(vm_compute; reflexivity))
             (set_clock 2 (session_1 300000000))
             (respond 200 None (Some (JObj two_pending))) two_pending
             [JObj (pending_of "7" "queued"); JObj (pending_of "8" "successful")]
             (JStr "successful"));
      [vm_compute; reflexivity|reflexivity|simpl; lia|simpl; lia|reflexivity|reflexivity
      |vm_compute; reflexivity].
  - apply (proj1 (proj2 (get_request_status_reports sample_env
                    (fresh_world [Reply (respond 500 None None)])
                    no_vehicles (ret true) "WVWZZZ" "8" (session_1 300000000)
                    (set_clock 1 (session_1 300000000)) eq_refl ltac:(vm_compute; reflexivity)))
             (set_clock 2 (session_1 300000000)) (respond 500 None None));
      [vm_compute; reflexivity|reflexivity|simpl; lia|simpl; lia].
Defined.
